(** * FRC Vision-Motion: the vision library and the Navx wrapper

    A shallow embedding of [Vision/FRCVisionLibrary.py] (class
    [VisionLibrary]) and of [Motion/FRCNavxLibrary.py] (class [FRCNavx]).

    - Python [float] is IEEE 754 binary64: the primitive [float] type, with
      the behaviour of the arithmetic given by [FloatAxioms].
    - Python [int] is [Z].
    - The class-level dictionaries [ball_values], [goal_values] and
      [tape_values] are finite maps from strings to strings, held in a
      state that every method threads explicitly.
    - A method is a computation in a state-and-exception monad: it takes the
      class state and gives back either a value or the exception it raised,
      together with the class state it leaves behind.
    - What the source obtains from the C library, from [float()] and from
      OpenCV has no definition in the repository; it is taken as a
      parameter ([Runtime], [Contour], [Frame]). *)

From Stdlib Require Import ZArith Floats String Ascii List Bool Lia.
From Stdlib Require Import Sorted Permutation.
From stdpp Require Import gmap strings.
Import ListNotations.

Local Open Scope string_scope.
Local Open Scope Z_scope.

(* ================================================================== *)
(** ** Exceptions and the method monad *)

Inductive exn : Type :=
  | KeyError (key : string)
  | ValueError
  | IndexError
  | ZeroDivisionError
  | OverflowError
  | FileNotFoundError
  | IsADirectoryError
  | PermissionError
  | UnicodeDecodeError.

Inductive outcome (A : Type) : Type :=
  | Return (a : A)
  | Raise (e : exn).
Arguments Return {A} a.
Arguments Raise {A} e.

(** The class attributes of [VisionLibrary]. *)
Record ClassState : Type := mkClassState {
  visionFile : string;
  ball_values : gmap string string;
  goal_values : gmap string string;
  tape_values : gmap string string
}.

Definition M (A : Type) : Type := ClassState -> outcome A * ClassState.

Definition ret {A} (a : A) : M A := fun st => (Return a, st).

Definition raise {A} (e : exn) : M A := fun st => (Raise e, st).

Definition bind {A B} (m : M A) (k : A -> M B) : M B :=
  fun st =>
    match m st with
    | (Return a, st') => k a st'
    | (Raise e, st') => (Raise e, st')
    end.

Definition lift {A} (o : outcome A) : M A := fun st => (o, st).

Definition gets {A} (f : ClassState -> A) : M A := fun st => (Return (f st), st).

Definition modify (f : ClassState -> ClassState) : M unit :=
  fun st => (Return tt, f st).

(** [try: body except FileNotFoundError: handler]. *)
Definition try_except_FileNotFoundError {A} (body handler : M A) : M A :=
  fun st =>
    match body st with
    | (Raise FileNotFoundError, st') => handler st'
    | r => r
    end.

Declare Scope py_scope.
Delimit Scope py_scope with py.
Notation "'do' x <- m ; k" := (bind m (fun x => k))
  (at level 10, x name, m at level 100, k at level 200) : py_scope.
Notation "'do' ' p <- m ; k" := (bind m (fun p => k))
  (at level 10, p strict pattern, m at level 100, k at level 200) : py_scope.
Notation "'exec' m ; k" := (bind m (fun _ => k))
  (at level 10, m at level 100, k at level 200) : py_scope.
Local Open Scope py_scope.

Definition value_of {A} (r : outcome A * ClassState) : outcome A := fst r.
Definition state_of {A} (r : outcome A * ClassState) : ClassState := snd r.

(* ================================================================== *)
(** ** Python built-ins used by the source *)

(** *** Strings

    A [str] of the program is represented by the Rocq string of its
    characters when all of them are ASCII ([is_ascii]). On such strings
    the functions below are Python's. On other strings Python does more:
    [strip] and [int] also remove Unicode whitespace such as U+00A0,
    [upper] also maps non-ASCII letters, [int] also reads non-ASCII decimal
    digits. The statements that depend on the text of a calibration file
    therefore assume that the text is ASCII ([ascii_text]). *)

(** Every character of [s] is ASCII. *)
Fixpoint is_ascii (s : string) : bool :=
  match s with
  | EmptyString => true
  | String c r => (nat_of_ascii c <? 128)%nat && is_ascii r
  end.

(** Every line is ASCII. *)
Definition ascii_text (lines : list string) : bool := forallb is_ascii lines.

(** [str.isspace] on one ASCII character: tab, line feed, vertical tab, form
    feed, carriage return, the four separators 0x1c-0x1f, and space. *)
Definition py_isspace (c : ascii) : bool :=
  let n := nat_of_ascii c in
  ((9 <=? n) && (n <=? 13) || (28 <=? n) && (n <=? 32))%nat.

Fixpoint lstrip (s : string) : string :=
  match s with
  | EmptyString => EmptyString
  | String c r => if py_isspace c then lstrip r else s
  end.

Fixpoint rstrip (s : string) : string :=
  match s with
  | EmptyString => EmptyString
  | String c r =>
      match rstrip r with
      | EmptyString => if py_isspace c then EmptyString else String c EmptyString
      | r' => String c r'
      end
  end.

(** [s.strip()] on ASCII text *)
Definition strip (s : string) : string := rstrip (lstrip s).

(** [s.split(sep)] for a one-character separator: never the empty list. *)
Fixpoint split (sep : ascii) (s : string) : list string :=
  match s with
  | EmptyString => [EmptyString]
  | String c r =>
      if Ascii.eqb c sep then EmptyString :: split sep r
      else match split sep r with
           | h :: t => String c h :: t
           | [] => [String c EmptyString]
           end
  end.

Definition upper_ascii (c : ascii) : ascii :=
  let n := nat_of_ascii c in
  if ((97 <=? n) && (n <=? 122))%nat then ascii_of_nat (n - 32) else c.

(** [s.upper()] on ASCII text *)
Fixpoint upper (s : string) : string :=
  match s with
  | EmptyString => EmptyString
  | String c r => String (upper_ascii c) (upper r)
  end.

(** [l[i]] on a list. *)
Definition getitem_list {A} (l : list A) (i : nat) : outcome A :=
  match nth_error l i with
  | Some a => Return a
  | None => Raise IndexError
  end.

(** [d[k]] on a dictionary. *)
Definition getitem_dict (d : gmap string string) (k : string) : outcome string :=
  match d !! k with
  | Some v => Return v
  | None => Raise (KeyError k)
  end.

(** *** [int(s)] on an ASCII string: surrounding whitespace, an optional
    sign, then decimal digits, where single underscores may separate
    digits. The whitespace that [int] skips is tab, line feed, vertical
    tab, form feed, carriage return and space; unlike [strip], it does not
    skip the separators 0x1c-0x1f, and raises [ValueError] on them. (From
    version 3.11 on, CPython also rejects a literal of more than 4300
    digits unless the limit is lifted; the model has no such limit.) *)

Definition int_isspace (c : ascii) : bool :=
  let n := nat_of_ascii c in
  ((9 <=? n) && (n <=? 13) || (n =? 32))%nat.

Fixpoint int_lskip (s : string) : string :=
  match s with
  | EmptyString => EmptyString
  | String c r => if int_isspace c then int_lskip r else s
  end.

Fixpoint int_rskip (s : string) : string :=
  match s with
  | EmptyString => EmptyString
  | String c r =>
      match int_rskip r with
      | EmptyString =>
          if int_isspace c then EmptyString else String c EmptyString
      | r' => String c r'
      end
  end.

Definition digit_of (c : ascii) : option Z :=
  let n := Z.of_nat (nat_of_ascii c) in
  if (48 <=? n) && (n <=? 57) then Some (n - 48) else None.

Fixpoint int_digits (s : string) (acc : Z) (after_digit : bool) : option Z :=
  match s with
  | EmptyString => if after_digit then Some acc else None
  | String c r =>
      match digit_of c with
      | Some d => int_digits r (10 * acc + d) true
      | None =>
          if Ascii.eqb c "_" && after_digit then int_digits r acc false
          else None
      end
  end.

Definition int_literal (s : string) : option Z :=
  match int_rskip (int_lskip s) with
  | String "+" r => int_digits r 0 false
  | String "-" r => option_map Z.opp (int_digits r 0 false)
  | t => int_digits t 0 false
  end.

Definition py_int (s : string) : outcome Z :=
  match int_literal s with
  | Some n => Return n
  | None => Raise ValueError
  end.

(** *** Floats *)

Definition py_float_of_int (z : Z) : float :=
  SF2Prim (binary_normalize prec emax z 0 false).

(** [x] is a finite number: neither an infinity nor NaN. *)
Definition is_finite (x : float) : bool :=
  negb (is_nan x) && negb (is_infinity x).

(** [a / b] on floats. *)
Definition py_div (a b : float) : outcome float :=
  if PrimFloat.eqb b 0%float then Raise ZeroDivisionError
  else Return (PrimFloat.div a b).

(** [x > n] for a float [x] and an int [n]: Python compares the two exact
    values, without rounding [n] to a float. *)
Definition float_gt_int (x : float) (n : Z) : bool :=
  match Prim2SF x with
  | S754_nan => false
  | S754_infinity s => negb s
  | S754_zero _ => n <? 0
  | S754_finite s m e =>
      let v := cond_Zopp s (Zpos m) in
      if 0 <=? e then n <? v * 2 ^ e else n * 2 ^ (- e) <? v
  end.

Definition math_pi : float := 0x1.921fb54442d18p+1%float.

(** [math.radians] and [math.degrees] multiply by a precomputed factor. *)
Definition degToRad : float := PrimFloat.div math_pi 180%float.
Definition radToDeg : float := PrimFloat.div 180%float math_pi.
Definition math_radians (x : float) : float := PrimFloat.mul x degToRad.
Definition math_degrees (x : float) : float := PrimFloat.mul x radToDeg.

(** [math.sqrt]: a negative argument is a domain error. *)
Definition math_sqrt (x : float) : outcome float :=
  if PrimFloat.ltb x 0%float then Raise ValueError
  else Return (PrimFloat.sqrt x).

(** *** [sorted(l, key=k, reverse=True)] and [max(l, key=k)] for float keys

    Both compare keys with [<] only. [sorted] is stable also with
    [reverse=True]: of two items whose keys do not compare, the one that
    came first stays first. [max] keeps the first of the largest items. The
    sort is written as an insertion sort; it gives what the interpreter's
    sort gives whenever [<] is a strict weak order on the keys, which is the
    case for keys that are not NaN. *)

Section Keyed.
Context {A : Type} (key : A -> float).

Fixpoint insert_desc (x : A) (l : list A) : list A :=
  match l with
  | [] => [x]
  | y :: l' =>
      if PrimFloat.ltb (key x) (key y) then y :: insert_desc x l'
      else x :: l
  end.

Definition sorted_reverse (l : list A) : list A :=
  fold_right insert_desc [] l.

Definition py_max (l : list A) : option A :=
  match l with
  | [] => None
  | x :: l' =>
      Some (fold_left
              (fun m c => if PrimFloat.ltb (key m) (key c) then c else m)
              l' x)
  end.
End Keyed.

(** *** What the source calls and the repository does not define

    [float(s)] on a string, and the C library behind [math.tan],
    [math.cos], [math.atan] and [math.pow]. [math.tan], [math.cos] and
    [math.pow] can raise ([ValueError] on a domain error, [OverflowError] on
    a range error); [math.atan] cannot. *)
Class Runtime : Type := {
  py_float : string -> outcome float;
  math_tan : float -> outcome float;
  math_cos : float -> outcome float;
  math_atan : float -> float;
  math_pow : float -> float -> outcome float
}.

(* ================================================================== *)
(** ** [VisionLibrary]: the calibration store *)

Definition set_visionFile (v : string) (st : ClassState) : ClassState :=
  mkClassState v (ball_values st) (goal_values st) (tape_values st).

Definition setitem_ball_values (k v : string) (st : ClassState) : ClassState :=
  mkClassState (visionFile st) (<[k := v]> (ball_values st))
               (goal_values st) (tape_values st).

Definition setitem_goal_values (k v : string) (st : ClassState) : ClassState :=
  mkClassState (visionFile st) (ball_values st)
               (<[k := v]> (goal_values st)) (tape_values st).

Definition setitem_tape_values (k v : string) (st : ClassState) : ClassState :=
  mkClassState (visionFile st) (ball_values st) (goal_values st)
               (<[k := v]> (tape_values st)).

(** [VisionLibrary.<dict>[key]] *)
Definition getitem (dict : ClassState -> gmap string string) (key : string)
  : M string :=
  fun st => (getitem_dict (dict st) key, st).

(** What [open(file, 'r')] followed by [readlines()] does for each path:
    it gives the lines of the file, or it raises. It raises
    [FileNotFoundError] when there is no such file, and some other
    exception ([IsADirectoryError], [PermissionError],
    [UnicodeDecodeError], ...) when the path cannot be opened, read or
    decoded. *)
Definition FileSystem : Type := string -> outcome (list string).

(** [open(file, 'r').readlines()] *)
Definition open_readlines (fs : FileSystem) (file : string) : M (list string) :=
  lift (fs file).

(** The body of the [for line in value_list] loop of [read_vision_file]:
    from the section the previous lines left open, to the section this line
    leaves open. *)
Definition read_line (line value_section : string) : M string :=
  let clean_line := strip line in
  let split_line := split "," clean_line in
  do field0 <- lift (getitem_list split_line 0);
  let '(value_section, new_section) :=
    if String.eqb (upper field0) "BALL:" then ("BALL", true)
    else if String.eqb (upper field0) "GOALTARGET:" then ("GOALTARGET", true)
    else if String.eqb (upper field0) "VISIONTAPE:" then ("VISIONTAPE", true)
    else if String.eqb field0 "" then ("", true)
    else (value_section, false) in
  if negb new_section then
    if String.eqb value_section "BALL" then
      do v <- lift (getitem_list split_line 1);
      exec modify (setitem_ball_values (upper field0) v);
      ret value_section
    else if String.eqb value_section "GOALTARGET" then
      do v <- lift (getitem_list split_line 1);
      exec modify (setitem_goal_values (upper field0) v);
      ret value_section
    else if String.eqb value_section "VISIONTAPE" then
      do v <- lift (getitem_list split_line 1);
      exec modify (setitem_tape_values (upper field0) v);
      ret value_section
    else ret value_section
  else ret value_section.

Fixpoint read_lines (value_list : list string) (value_section : string)
  : M unit :=
  match value_list with
  | [] => ret tt
  | line :: rest =>
      do value_section' <- read_line line value_section;
      read_lines rest value_section'
  end.

Definition read_vision_file (fs : FileSystem) (file : string) : M bool :=
  try_except_FileNotFoundError
    (do value_list <- open_readlines fs file;
     exec read_lines value_list "";
     ret true)
    (ret false).

(** [VisionLibrary(visionfile)]: the constructor drops what
    [read_vision_file] returns. *)
Definition init (fs : FileSystem) (visionfile : string) : M unit :=
  exec modify (set_visionFile visionfile);
  do file <- gets visionFile;
  exec read_vision_file fs file;
  ret tt.

(* ================================================================== *)
(** ** What OpenCV reports

    A contour is known to the estimators only through [cv.contourArea],
    [cv.minEnclosingCircle], [cv.boundingRect], [cv.minAreaRect] and
    [np.int0(cv.boxPoints(rect))]; a contour is represented by these five
    answers. A frame is known only through [process_image_contours], a
    fixed sequence of OpenCV calls; a frame is represented by the contours
    that sequence extracts from it for given HSV bounds. *)

Definition HSV : Type := (Z * Z * Z)%type.

(** [((x, y), (w, h), angle)] *)
Definition RotatedRect : Type := ((float * float) * (float * float) * float)%type.

Record Contour : Type := mkContour {
  cv_contourArea : float;
  cv_minEnclosingCircle : (float * float) * float;
  cv_boundingRect : Z * Z * Z * Z;
  cv_minAreaRect : RotatedRect;
  cv_boxPoints_int0 : list (Z * Z)
}.

Definition Frame : Type := HSV -> HSV -> list Contour.

Definition process_image_contours (imgRaw : Frame) (hsvMin hsvMax : HSV)
  : list Contour :=
  imgRaw hsvMin hsvMax.

(* ================================================================== *)
(** ** [VisionLibrary]: the estimators *)

(** The dictionary appended to [ballData] for one accepted contour. *)
Record BallData : Type := mkBallData {
  ball_x : float;
  ball_y : float;
  ball_radius : float;
  ball_distance : float;
  ball_angle : float;
  ball_offset : float;
  ball_percent : float
}.

(** [tapeCameraValues] and [tapeRealWorldValues]. The source leaves an
    untouched field at the int [1000] or [0]; the float of the same value
    stands for it here (the two are equal for [==] and in arithmetic). *)
Record TapeCameraValues : Type := mkTapeCameraValues {
  TargetX : Z;
  TargetY : Z;
  TargetW : Z;
  TargetH : Z;
  IPP : float;
  Offset : float
}.

Record TapeRealWorldValues : Type := mkTapeRealWorldValues {
  AspectRatio : float;
  CenterOffset : float;
  StraightDistance : float;
  TapeDistance : float;
  WallDistance : float;
  HAngle : float;
  VAngle : float;
  TargetRotation : float;
  BotAngle : float;
  ApparentWidth : float;
  VertOffset : float
}.

(** What [detect_tape_rectangle] returns. *)
Record TapeResult : Type := mkTapeResult {
  tapeCameraValues : TapeCameraValues;
  tapeRealWorldValues : TapeRealWorldValues;
  foundTape : bool;
  targetLock : bool;
  rect : option RotatedRect;
  box : option (list (Z * Z))
}.

(** The locals that the first [if] block of [detect_tape_rectangle] sets,
    and their initial values. *)
Record CameraPass : Type := mkCameraPass {
  targetX : Z;
  targetY : Z;
  targetW : Z;
  targetH : Z;
  aspectRatio : float;
  cameraAngle : float;
  botAngle : float;
  cp_rect : option RotatedRect;
  cp_box : option (list (Z * Z));
  cp_foundTape : bool
}.

Definition camera_defaults : CameraPass :=
  mkCameraPass 1000 1000 1000 1000 0%float 0%float 0%float None None false.

(** The locals that the [if foundTape] block sets, and their initial
    values. *)
Record RealWorldPass : Type := mkRealWorldPass {
  apparentTapeWidth : float;
  inchesPerPixel : float;
  horizOffsetPixels : float;
  horizOffsetInInches : float;
  vertOffsetInInches : float;
  centerOffset : float;
  straightLineDistance : float;
  distanceArg : float;
  distanceToTape : float;
  distanceToWall : float;
  horizAngleToTape : float;
  vertAngleToTape : float;
  rw_targetLock : bool
}.

Definition real_world_defaults : RealWorldPass :=
  mkRealWorldPass 0%float 0%float 0%float 0%float 0%float 0%float
                  1000%float 0%float 1000%float 1000%float 0%float 0%float
                  false.

(** "Fill return dictionary". *)
Definition fill_return (c : CameraPass) (w : RealWorldPass) : TapeResult :=
  mkTapeResult
    (mkTapeCameraValues (targetX c) (targetY c) (targetW c) (targetH c)
                        (inchesPerPixel w) (horizOffsetPixels w))
    (mkTapeRealWorldValues (aspectRatio c) (centerOffset w)
                           (straightLineDistance w) (distanceToTape w)
                           (distanceToWall w) (horizAngleToTape w)
                           (vertAngleToTape w) (cameraAngle c) (botAngle c)
                           (apparentTapeWidth w) (vertOffsetInInches w))
    (cp_foundTape c) (rw_targetLock w) (cp_rect c) (cp_box c).

Section Estimators.
Context {rt : Runtime}.

(** [int(VisionLibrary.<dict>[key])], [float(VisionLibrary.<dict>[key])] *)
Definition int_value (dict : ClassState -> gmap string string) (key : string)
  : M Z :=
  do s <- getitem dict key; lift (py_int s).

Definition float_value (dict : ClassState -> gmap string string)
           (key : string) : M float :=
  do s <- getitem dict key; lift (py_float s).

(** "Read HSV values from dictionary and make tuples". *)
Definition read_hsv (dict : ClassState -> gmap string string)
  : M (HSV * HSV) :=
  do hMin <- int_value dict "HMIN";
  do hMax <- int_value dict "HMAX";
  do sMin <- int_value dict "SMIN";
  do sMax <- int_value dict "SMAX";
  do vMin <- int_value dict "VMIN";
  do vMax <- int_value dict "VMAX";
  ret ((hMin, sMin, vMin), (hMax, sMax, vMax)).

(** *** [detect_game_balls]

    The camera parameters are floats here. A caller may pass ints; an int
    of magnitude below 2^26 gives in every expression below what the float
    of the same value gives. *)

(** "Calculate ball metrics" and "Save values to dictionary", for a
    contour whose enclosing circle is [((x, y), radius)]. *)
Definition ball_metrics (cameraWidth cameraHeight cameraFOV : float)
           (x y radius : float) : M BallData :=
  do known_radius <- float_value ball_values "RADIUS";
  do inches_per_pixel <- lift (py_div known_radius radius);
  do t <- lift (math_tan (math_radians cameraFOV));
  do q <- lift (py_div cameraWidth (2 * t)%float);
  let distanceToBall := (inches_per_pixel * q)%float in
  let offsetInInches := (inches_per_pixel * (x - cameraWidth / 2))%float in
  do a <- lift (py_div offsetInInches distanceToBall);
  let angleToBall := math_degrees (math_atan a) in
  do screenPercent <- lift (py_div (math_pi * radius * radius)%float
                                   (cameraWidth * cameraHeight)%float);
  let ballOffset := (- offsetInInches)%float in
  ret (mkBallData x y radius distanceToBall angleToBall ballOffset
                  screenPercent).

(** The [for contour in sortedContours] loop, with its [break]. *)
Fixpoint ball_loop (cameraWidth cameraHeight cameraFOV : float)
         (sortedContours : list Contour)
         (ballsFound : Z) (ballData : list BallData)
  : M (Z * list BallData) :=
  match sortedContours with
  | [] => ret (ballsFound, ballData)
  | contour :: rest =>
      let '((x, y), radius) := cv_minEnclosingCircle contour in
      do minradius <- int_value ball_values "MINRADIUS";
      if float_gt_int radius minradius then
        do ballDataDict <- ball_metrics cameraWidth cameraHeight cameraFOV
                                        x y radius;
        ball_loop cameraWidth cameraHeight cameraFOV rest
                  (ballsFound + 1) (ballData ++ [ballDataDict])
      else
        ret (ballsFound, ballData)
  end.

Definition detect_game_balls (imgRaw : Frame)
           (cameraWidth cameraHeight cameraFOV : float)
  : M (Z * list BallData) :=
  do '(ballHSVMin, ballHSVMax) <- read_hsv ball_values;
  let ballContours := process_image_contours imgRaw ballHSVMin ballHSVMax in
  if (0 <? length ballContours)%nat then
    let sortedContours := sorted_reverse cv_contourArea ballContours in
    ball_loop cameraWidth cameraHeight cameraFOV sortedContours 0 []
  else
    ret (0, []).

(** *** [detect_tape_rectangle]

    The bounding box is made of C ints, so [py_float_of_int] is exact on
    its fields and an int-by-int division is the float division of the
    two. *)

(** The block under [if len(tapeContours) > 0]. *)
Definition camera_pass (tapeContours : list Contour) : M CameraPass :=
  match py_max cv_contourArea tapeContours with
  | None => ret camera_defaults
  | Some largestContour =>
      do minarea <- int_value tape_values "MINAREA";
      if float_gt_int (cv_contourArea largestContour) minarea then
        let '(tX, tY, tW, tH) := cv_boundingRect largestContour in
        do ratio <- lift (py_div (py_float_of_int tW) (py_float_of_int tH));
        let rect := cv_minAreaRect largestContour in
        let box := cv_boxPoints_int0 largestContour in
        let angle := snd rect in
        let cameraAngle :=
          if (abs angle <? 45)%float then abs angle
          else (90 - abs angle)%float in
        let botAngle := (2 * cameraAngle)%float in
        ret (mkCameraPass tX tY tW tH ratio cameraAngle botAngle
                          (Some rect) (Some box) true)
      else
        ret camera_defaults
  end.

(** The block under [if foundTape]. *)
Definition real_world_pass (c : CameraPass)
           (imageWidth imageHeight cameraFocalLength cameraMountHeight : float)
  : M RealWorldPass :=
  let fX := py_float_of_int (targetX c) in
  let fY := py_float_of_int (targetY c) in
  let fW := py_float_of_int (targetW c) in
  let fH := py_float_of_int (targetH c) in
  do tapewidth <- float_value tape_values "TAPEWIDTH";
  do cos_bot <- lift (math_cos (math_radians (botAngle c)));
  let apparentTapeWidth := (tapewidth * cos_bot)%float in
  do inchesPerPixel <- lift (py_div apparentTapeWidth fW);
  let horizOffsetPixels := ((fX + fW / 2) - imageWidth / 2)%float in
  let horizOffsetInInches := (inchesPerPixel * horizOffsetPixels)%float in
  let vertOffsetPixels := ((imageHeight / 2) - (fY - fH / 2))%float in
  let vertOffsetInInches := (inchesPerPixel * vertOffsetPixels)%float in
  let centerOffset := (- horizOffsetInInches)%float in
  do straightLineDistance <-
       lift (py_div (apparentTapeWidth * cameraFocalLength)%float fW);
  do sq_line <- lift (math_pow straightLineDistance 2%float);
  do goalheight <- float_value tape_values "GOALHEIGHT";
  do sq_rise <- lift (math_pow (goalheight - cameraMountHeight)%float 2%float);
  let distanceArg := (sq_line - sq_rise)%float in
  do distanceToTape <-
       (if (0 <? distanceArg)%float then lift (math_sqrt distanceArg)
        else ret 1000%float);
  do cos_bot' <- lift (math_cos (math_radians (botAngle c)));
  do distanceToWall <- lift (py_div distanceToTape cos_bot');
  do h <- lift (py_div horizOffsetInInches distanceToTape);
  let horizAngleToTape := math_degrees (math_atan h) in
  do v <- lift (py_div vertOffsetInInches distanceToTape);
  let vertAngleToTape := math_degrees (math_atan v) in
  do tolerance <- float_value tape_values "LOCKTOLERANCE";
  let targetLock := (abs horizOffsetInInches <=? tolerance)%float in
  ret (mkRealWorldPass apparentTapeWidth inchesPerPixel horizOffsetPixels
                       horizOffsetInInches vertOffsetInInches centerOffset
                       straightLineDistance distanceArg distanceToTape
                       distanceToWall horizAngleToTape vertAngleToTape
                       targetLock).

Definition detect_tape_rectangle (imgRaw : Frame)
           (imageWidth imageHeight cameraFOV cameraFocalLength
            cameraMountAngle cameraMountHeight : float)
  : M TapeResult :=
  do '(tapeHSVMin, tapeHSVMax) <- read_hsv tape_values;
  let tapeContours := process_image_contours imgRaw tapeHSVMin tapeHSVMax in
  do c <- camera_pass tapeContours;
  do w <- (if cp_foundTape c then
             real_world_pass c imageWidth imageHeight cameraFocalLength
                             cameraMountHeight
           else ret real_world_defaults);
  ret (fill_return c w).
End Estimators.

(* ================================================================== *)
(** ** A stand-in runtime, to run the estimators on examples

    Every theorem below holds for every [Runtime]; this instance only
    serves to evaluate a call. [ref_float] reads plain decimals
    ([-12], [7.5]) and is the correctly rounded value when the decimal has
    at most 15 digits. The trigonometric functions are short series, exact
    at [0] and approximate elsewhere; [ref_pow] covers the exponent [2],
    the only one the source uses. *)

Fixpoint all_digits (s : string) (acc : Z) : option Z :=
  match s with
  | EmptyString => Some acc
  | String c r =>
      match digit_of c with
      | Some d => all_digits r (10 * acc + d)
      | None => None
      end
  end.

Definition ref_unsigned (s : string) : option float :=
  match split "." s with
  | [i] =>
      if String.eqb i "" then None
      else option_map py_float_of_int (all_digits i 0)
  | [i; f] =>
      if String.eqb (i ++ f) "" then None
      else option_map
             (fun n => (py_float_of_int n
                        / py_float_of_int (10 ^ Z.of_nat (String.length f)))%float)
             (all_digits (i ++ f) 0)
  | _ => None
  end.

Definition ref_float (s : string) : outcome float :=
  let r := match int_rskip (int_lskip s) with
           | String "-" t => option_map PrimFloat.opp (ref_unsigned t)
           | String "+" t => ref_unsigned t
           | t => ref_unsigned t
           end in
  match r with
  | Some x => Return x
  | None => Raise ValueError
  end.

Definition ref_cos_series (x : float) : float :=
  let x2 := (x * x)%float in
  (1 - x2 / 2 * (1 - x2 / 12 * (1 - x2 / 30 * (1 - x2 / 56))))%float.

Definition ref_sin_series (x : float) : float :=
  let x2 := (x * x)%float in
  (x * (1 - x2 / 6 * (1 - x2 / 20 * (1 - x2 / 42 * (1 - x2 / 72)))))%float.

Definition ref_atan_series (x : float) : float :=
  let x2 := (x * x)%float in
  (x * (1 - x2 * (1 / 3 - x2 * (1 / 5 - x2 * (1 / 7 - x2 / 9)))))%float.

Definition ref_pow (x y : float) : outcome float :=
  if (y =? 2)%float then
    let p := (x * x)%float in
    if is_infinity p && negb (is_infinity x) then Raise OverflowError
    else Return p
  else Raise ValueError.

#[export] Instance ref_runtime : Runtime := {|
  py_float := ref_float;
  math_tan := fun x => py_div (ref_sin_series x) (ref_cos_series x);
  math_cos := fun x => Return (ref_cos_series x);
  math_atan := ref_atan_series;
  math_pow := ref_pow
|}.

(** The class state before any file was read. *)
Definition fresh_class : ClassState := mkClassState "" ∅ ∅ ∅.

(** A frame in which segmentation finds the given contours, whatever the
    bounds. *)
Definition frame_of (cs : list Contour) : Frame := fun _ _ => cs.

(* ================================================================== *)
(** ** [FRCNavx]: the polling thread and its stop flag

    The thread started by [start_navx] runs [update]; other threads call
    the methods of the same object. The interpreter runs one thread at a
    time and switches between statements, so an execution is a sequence of
    events: the polling thread executes its next statement, or another
    thread calls [stop_navx]. The board answers a read with whatever it
    holds at that moment; the answer comes with the event. *)

Section Navx.
Context {rtc_time rtc_date : Type}.
(** [round(x, 2)] *)
Variable round2 : float -> float.

(** The attributes of an [FRCNavx] object that [update] and
    [stop_navx] touch, with [yaw] and [pitch]. [time] and [date] start
    as the empty list. *)
Record FRCNavx : Type := mkFRCNavx {
  stopped : bool;
  angle : float;
  yaw : float;
  pitch : float;
  time : option rtc_time;
  date : option rtc_date
}.

(** What the board answers at one moment. *)
Record Board : Type := mkBoard {
  GetAngle : float;
  GetRTCTime : rtc_time;
  GetRTCDate : rtc_date
}.

(** The attributes after [__init__], given whether the VMX client
    opened and what the board answers. *)
Definition navx_init (vmxOpen : bool) (b : Board) : FRCNavx :=
  if vmxOpen then
    mkFRCNavx false 0%float 0%float 0%float
              (Some (GetRTCTime b)) (Some (GetRTCDate b))
  else
    mkFRCNavx true 0%float 0%float 0%float None None.

Definition stop_navx (o : FRCNavx) : FRCNavx :=
  mkFRCNavx true (angle o) (yaw o) (pitch o) (time o) (date o).

(** Where the thread running [update] stands. *)
Inductive pc : Type :=
  | at_check      (* if self.stopped: return *)
  | at_angle      (* self.angle = round(...GetAngle(), 2) *)
  | at_time       (* self.time = ...GetRTCTime() *)
  | at_date       (* self.date = ...GetRTCDate() *)
  | at_sleep      (* time.sleep(.1) *)
  | returned.

(** One statement of [update]. *)
Definition update_step (b : Board) (c : pc * FRCNavx) : pc * FRCNavx :=
  let '(p, o) := c in
  match p with
  | at_check => if stopped o then (returned, o) else (at_angle, o)
  | at_angle =>
      (at_time, mkFRCNavx (stopped o) (round2 (GetAngle b)) (yaw o)
                          (pitch o) (time o) (date o))
  | at_time =>
      (at_date, mkFRCNavx (stopped o) (angle o) (yaw o) (pitch o)
                          (Some (GetRTCTime b)) (date o))
  | at_date =>
      (at_sleep, mkFRCNavx (stopped o) (angle o) (yaw o) (pitch o)
                           (time o) (Some (GetRTCDate b)))
  | at_sleep => (at_check, o)
  | returned => (returned, o)
  end.

Inductive event : Type :=
  | Poll (b : Board)   (* the polling thread executes one statement *)
  | Stop.              (* another thread calls stop_navx *)

Definition step (c : pc * FRCNavx) (ev : event) : pc * FRCNavx :=
  match ev with
  | Poll b => update_step b c
  | Stop => (fst c, stop_navx (snd c))
  end.

Definition run (evs : list event) (c : pc * FRCNavx) : pc * FRCNavx :=
  fold_left step evs c.

(** The number of statements the polling thread executes in [evs]. *)
Fixpoint polls (evs : list event) : nat :=
  match evs with
  | [] => O
  | Poll _ :: rest => S (polls rest)
  | Stop :: rest => polls rest
  end.

(** The statements the polling thread still executes before it returns,
    once the flag is set. *)
Definition statements_left (p : pc) : nat :=
  match p with
  | returned => 0
  | at_check => 1
  | at_sleep => 2
  | at_date => 3
  | at_time => 4
  | at_angle => 5
  end.

(** The values [read_angle], [read_time] and [read_date] return. *)
Definition readings (o : FRCNavx)
  : float * option rtc_time * option rtc_date :=
  (angle o, time o, date o).
End Navx.

(* ================================================================== *)
(** ** Notions used in the statements *)

(** A method that leaves the class state as it found it, whether it
    returns or raises. *)
Definition read_only {A} (m : M A) : Prop :=
  forall st, state_of (m st) = st.



(** The line opens a section or closes the open one. *)
Definition section_line (line : string) : bool :=
  match split "," (strip line) with
  | field0 :: _ =>
      String.eqb (upper field0) "BALL:"
      || String.eqb (upper field0) "GOALTARGET:"
      || String.eqb (upper field0) "VISIONTAPE:"
      || String.eqb field0 ""
  | [] => false
  end.

(** The line has a second comma-separated field. *)
Definition has_value (line : string) : bool :=
  (2 <=? length (split "," (strip line)))%nat.

(** [x < n] for a float [x] and an int [n], on the exact values. *)
Definition float_lt_int (x : float) (n : Z) : bool :=
  match Prim2SF x with
  | S754_nan => false
  | S754_infinity s => s
  | S754_zero _ => 0 <? n
  | S754_finite s m e =>
      let v := cond_Zopp s (Zpos m) in
      if 0 <=? e then v * 2 ^ e <? n else v <? n * 2 ^ (- e)
  end.

(** The longest prefix all of whose items pass [ok]. *)
Fixpoint take_while {A} (ok : A -> bool) (l : list A) : list A :=
  match l with
  | [] => []
  | x :: l' => if ok x then x :: take_while ok l' else []
  end.

Definition circle_radius (c : Contour) : float := snd (cv_minEnclosingCircle c).

Section StatementNotions.
Context {rt : Runtime}.

(** The detections of the given contours, in order: [ball_metrics] on the
    enclosing circle of each. *)
Fixpoint ball_data_of (cameraWidth cameraHeight cameraFOV : float)
         (cs : list Contour) : M (list BallData) :=
  match cs with
  | [] => ret []
  | c :: rest =>
      let '((x, y), radius) := cv_minEnclosingCircle c in
      do d <- ball_metrics cameraWidth cameraHeight cameraFOV x y radius;
      do ds <- ball_data_of cameraWidth cameraHeight cameraFOV rest;
      ret (d :: ds)
  end.

(** The count and the list, as [detect_game_balls] returns them. *)
Definition counted (m : M (list BallData)) : M (Z * list BallData) :=
  do ds <- m; ret (Z.of_nat (length ds), ds).
End StatementNotions.

(* ================================================================== *)
(** ** Example inputs *)

Definition newline : string := String (ascii_of_nat 10) EmptyString.

(** The lines of a text, as [readlines()] gives them. *)
Definition as_lines (text : list string) : list string :=
  map (fun l => l ++ newline) text.

Definition ball_section (minradius : string) : list string :=
  ["BALL:"; "HMIN,20"; "HMAX,40"; "SMIN,100"; "SMAX,255"; "VMIN,100";
   "VMAX,255"; "MINRADIUS," ++ minradius; "RADIUS,3.5"; ""].

Definition tape_section : list string :=
  ["VISIONTAPE:"; "HMIN,50"; "HMAX,90"; "SMIN,100"; "SMAX,255"; "VMIN,100";
   "VMAX,255"; "MINAREA,50"; "TAPEWIDTH,2.0"; "GOALHEIGHT,90.0";
   "LOCKTOLERANCE,1.5"].

(** A complete calibration file. *)
Definition calibration : list string :=
  as_lines (ball_section "4" ++ ["GOALTARGET:"; ""] ++ tape_section).

(** The same file without the [HMIN] line of the ball section. *)
Definition calibration_without_hmin : list string :=
  as_lines (["BALL:"; "HMAX,40"; "SMIN,100"; "SMAX,255"; "VMIN,100";
             "VMAX,255"; "MINRADIUS,4"; "RADIUS,3.5"; ""] ++ tape_section).

(** The same file with a ball [HMIN] that is not an integer. *)
Definition calibration_bad_hmin : list string :=
  as_lines (["BALL:"; "HMIN,green"; "HMAX,40"; "SMIN,100"; "SMAX,255";
             "VMIN,100"; "VMAX,255"; "MINRADIUS,4"; "RADIUS,3.5"; ""]
            ++ tape_section).

(** The same file without the [LOCKTOLERANCE] line. *)
Definition calibration_without_tolerance : list string :=
  as_lines (ball_section "4"
            ++ ["VISIONTAPE:"; "HMIN,50"; "HMAX,90"; "SMIN,100"; "SMAX,255";
                "VMIN,100"; "VMAX,255"; "MINAREA,50"; "TAPEWIDTH,2.0";
                "GOALHEIGHT,90.0"]).

(** A complete file with a minimum radius of 2. *)
Definition calibration_small_balls : list string :=
  as_lines (ball_section "2" ++ tape_section).

(** A file system with exactly these files, and the directory [/data]. *)
Definition example_fs : FileSystem :=
  fun file =>
    if String.eqb file "vision.txt" then Return calibration
    else if String.eqb file "no_hmin.txt" then Return calibration_without_hmin
    else if String.eqb file "bad_hmin.txt" then Return calibration_bad_hmin
    else if String.eqb file "no_tolerance.txt"
         then Return calibration_without_tolerance
    else if String.eqb file "small_balls.txt"
         then Return calibration_small_balls
    else if String.eqb file "/data" then Raise IsADirectoryError
    else Raise FileNotFoundError.

(** The class state after [VisionLibrary(file)] on a fresh class. *)
Definition loaded (file : string) : ClassState :=
  state_of (init example_fs file fresh_class).

(** A contour of the given area and enclosing-circle radius, centred at
    [(x, 20)]. *)
Definition blob (area x radius : float) : Contour :=
  mkContour area ((x, 20%float), radius) (0, 0, 1, 1)
            ((0%float, 0%float), (1%float, 1%float), 0%float) [].

(** A contour of the given area, bounding box and rotated-rectangle
    angle. *)
Definition strip_of_tape (area : float) (brect : Z * Z * Z * Z) (angle : float)
  : Contour :=
  mkContour area ((0%float, 0%float), 1%float) brect
            ((0%float, 0%float), (1%float, 1%float), angle)
            [(0, 0); (1, 0); (1, 1); (0, 1)].

Section TapeNotions.
Context {rt : Runtime}.

(** The largest contour does not pass the area test, or there is no
    contour at all. *)
Definition no_qualifying_contour (st : ClassState) (cs : list Contour) : Prop :=
  match py_max cv_contourArea cs with
  | None => True
  | Some largestContour =>
      exists minarea,
        int_value tape_values "MINAREA" st = (Return minarea, st)
        /\ float_gt_int (cv_contourArea largestContour) minarea = false
  end.

(** The largest contour passes the area test. *)
Definition qualifying_contour (st : ClassState) (cs : list Contour) : Prop :=
  exists largestContour minarea,
    py_max cv_contourArea cs = Some largestContour
    /\ int_value tape_values "MINAREA" st = (Return minarea, st)
    /\ float_gt_int (cv_contourArea largestContour) minarea = true.
End TapeNotions.

(* ================================================================== *)
(** ** Notions used in the further properties *)

(** No character of [s] is whitespace. *)
Fixpoint no_space (s : string) : bool :=
  match s with
  | EmptyString => true
  | String c r => negb (py_isspace c) && no_space r
  end.

(** No character of [s] is a comma. *)
Fixpoint no_comma (s : string) : bool :=
  match s with
  | EmptyString => true
  | String c r => negb (Ascii.eqb c ",") && no_comma r
  end.

(** A word of a calibration file: ASCII, with no whitespace and no comma
    in it. *)
Definition plain (s : string) : bool :=
  is_ascii s && no_space s && no_comma s.

(** [s.upper()] is one of the three section keywords. *)
Definition is_header (s : string) : bool :=
  String.eqb (upper s) "BALL:"
  || String.eqb (upper s) "GOALTARGET:"
  || String.eqb (upper s) "VISIONTAPE:".

(** A key that a [KEY,VALUE] line can carry: a non-empty plain word that
    is not a section keyword. *)
Definition plain_key (k : string) : bool :=
  plain k && negb (String.eqb k "") && negb (is_header k).

(** The text of a [KEY,VALUE] line. *)
Definition entry_text (kv : string * string) : string :=
  fst kv ++ "," ++ snd kv.

(** The dictionary that the lines of section [sec] are stored in. *)
Definition section_dict (sec : string) : ClassState -> gmap string string :=
  if String.eqb sec "BALL" then ball_values
  else if String.eqb sec "GOALTARGET" then goal_values
  else tape_values.

(** [sec] names one of the three sections. *)
Definition is_section (sec : string) : bool :=
  String.eqb sec "BALL" || String.eqb sec "GOALTARGET"
  || String.eqb sec "VISIONTAPE".

(** [d] after [d[k.upper()] = v] for each entry, in order. *)
Definition store_entries (entries : list (string * string))
           (d : gmap string string) : gmap string string :=
  fold_left (fun d kv => <[upper (fst kv) := snd kv]> d) entries d.

(** The section that is open after [line], when [sec] was open before
    it: the section bookkeeping of the loop body of [read_vision_file]. *)
Definition next_section (sec line : string) : string :=
  match split "," (strip line) with
  | field0 :: _ =>
      if String.eqb (upper field0) "BALL:" then "BALL"
      else if String.eqb (upper field0) "GOALTARGET:" then "GOALTARGET"
      else if String.eqb (upper field0) "VISIONTAPE:" then "VISIONTAPE"
      else if String.eqb field0 "" then ""
      else sec
  | [] => sec
  end.

(** The section open after all of [lines], starting outside any
    section. *)
Definition open_section_after (lines : list string) : string :=
  fold_left next_section lines "".

(** The line opens a section. *)
Definition opens_section (line : string) : bool :=
  match split "," (strip line) with
  | field0 :: _ => is_header field0
  | [] => false
  end.

(** Every key of [d] is a key of [d']. *)
Definition keys_kept (d d' : gmap string string) : Prop :=
  forall k, is_Some (d !! k) -> is_Some (d' !! k).

(** [VisionLibrary.<dict of sec>[k] = v] *)
Definition setitem_section (sec k v : string) (st : ClassState) : ClassState :=
  if String.eqb sec "BALL" then setitem_ball_values k v st
  else if String.eqb sec "GOALTARGET" then setitem_goal_values k v st
  else setitem_tape_values k v st.

(** A calibration file with one section: its header line, then one
    [KEY,VALUE] line per entry. *)
Definition section_file (hdr : string) (entries : list (string * string))
  : list string :=
  as_lines (hdr :: map entry_text entries).

(** Every key of each of the three dictionaries of [st] is a key of the
    same dictionary of [st']. *)
Definition stores_kept (st st' : ClassState) : Prop :=
  keys_kept (ball_values st) (ball_values st')
  /\ keys_kept (goal_values st) (goal_values st')
  /\ keys_kept (tape_values st) (tape_values st').

(** A tape section cut short: the last line has a key and no value. *)
Definition calibration_cut_short : list string :=
  as_lines ["VISIONTAPE:"; "HMIN,50"; "HMAX,90"; "SMIN"; "SMAX,255"].


(** The circle a detection reports. *)
Definition ball_circle (d : BallData) : (float * float) * float :=
  ((ball_x d, ball_y d), ball_radius d).

(** A method that leaves the class state as it found it and whose outcome
    depends on the class state only through the dictionary [dict]. *)
Definition reads_only (dict : ClassState -> gmap string string) {A}
           (m : M A) : Prop :=
  read_only m
  /\ forall st1 st2, dict st1 = dict st2 ->
                     value_of (m st1) = value_of (m st2).

(** A ball section with the six HSV bounds and nothing else. *)
Definition hsv_only : list string :=
  section_file "BALL:" [("HMIN", "20"); ("HMAX", "40"); ("SMIN", "100");
                        ("SMAX", "255"); ("VMIN", "100"); ("VMAX", "255")].

(** A complete file with a negative minimum radius. *)
Definition calibration_negative_minradius : list string :=
  as_lines (ball_section "-1" ++ tape_section).


(** The robot-relative viewing angle that the camera pass derives from the
    angle of the rotated rectangle. *)
Definition camera_angle_of (angle : float) : float :=
  if (abs angle <? 45)%float then abs angle else (90 - abs angle)%float.

(** What [detect_tape_rectangle] returns when no target is found. *)
Definition tape_not_found : TapeResult :=
  fill_return camera_defaults real_world_defaults.

(** A tape section without [TAPEWIDTH]. *)
Definition calibration_without_tapewidth : list string :=
  as_lines ["VISIONTAPE:"; "HMIN,50"; "HMAX,90"; "SMIN,100"; "SMAX,255";
            "VMIN,100"; "VMAX,255"; "MINAREA,50"].


(** The items a run of the loop of [read_vision_file] stores, in order:
    the section, the key and the value of each. *)
Definition store_items (items : list (string * string * string))
           (st : ClassState) : ClassState :=
  fold_left (fun st i => setitem_section (fst (fst i)) (snd (fst i)) (snd i) st)
            items st.

(** The dictionaries of [new] laid over those of [old]: a key of [new]
    hides the same key of [old]. *)
Definition laid_over (new old : ClassState) : ClassState :=
  mkClassState (visionFile old)
               (ball_values new ∪ ball_values old)
               (goal_values new ∪ goal_values old)
               (tape_values new ∪ tape_values old).





(** The read methods of [FRCNavx]. *)
Section NavxReads.
Context {rtc_time rtc_date : Type}.

Definition read_angle (o : @FRCNavx rtc_time rtc_date) : float := angle o.
Definition read_yaw (o : @FRCNavx rtc_time rtc_date) : float := yaw o.
Definition read_pitch (o : @FRCNavx rtc_time rtc_date) : float := pitch o.
Definition read_time (o : @FRCNavx rtc_time rtc_date) : option rtc_time :=
  time o.
Definition read_date (o : @FRCNavx rtc_time rtc_date) : option rtc_date :=
  date o.

(** No event of [evs] is a call of [stop_navx]. *)
Definition never_stopped (evs : list (@event rtc_time rtc_date)) : bool :=
  forallb (fun ev => match ev with Poll _ => true | Stop => false end) evs.
End NavxReads.

(* ================================================================== *)
(** * Facts *)

(** ** Binary64: order, and the exact cases of the arithmetic *)

Section Binary64.
Local Open Scope float_scope.

Ltac sf_order :=
  change (PosDef.Pos.compare_cont Eq) with Pos.compare in *;
  repeat match goal with
         | |- context [Z.compare ?a ?b] => destruct (Z.compare_spec a b)
         | H : context [Z.compare ?a ?b] |- _ => destruct (Z.compare_spec a b)
         | |- context [Pos.compare ?a ?b] => destruct (Pos.compare_spec a b)
         | H : context [Pos.compare ?a ?b] |- _ => destruct (Pos.compare_spec a b)
         end;
  cbn [CompOpp] in *; subst; try discriminate; try reflexivity; try lia.

Lemma SFcompare_antisym (x y : spec_float) :
  SFcompare y x = option_map CompOpp (SFcompare x y).
Proof.
  destruct x as [sx|sx| |sx mx ex], y as [sy|sy| |sy my ey]; simpl;
    try reflexivity;
    try (destruct sx; reflexivity); try (destruct sy; reflexivity);
    try (destruct sx, sy; reflexivity).
  destruct sx, sy; try reflexivity; sf_order.
Qed.

Lemma SFltb_trans (x y z : spec_float) :
  SFltb x y = true -> SFltb y z = true -> SFltb x z = true.
Proof.
  unfold SFltb.
  destruct x as [sx|sx| |sx mx ex], y as [sy|sy| |sy my ey],
           z as [sz|sz| |sz mz ez]; simpl;
    try discriminate; try reflexivity;
    try (destruct sx; try discriminate; try reflexivity);
    try (destruct sy; try discriminate; try reflexivity);
    try (destruct sz; try discriminate; try reflexivity);
    intros; sf_order.
Qed.

Lemma SFleb_trans (x y z : spec_float) :
  SFleb x y = true -> SFleb y z = true -> SFleb x z = true.
Proof.
  unfold SFleb.
  destruct x as [sx|sx| |sx mx ex], y as [sy|sy| |sy my ey],
           z as [sz|sz| |sz mz ez]; simpl;
    try discriminate; try reflexivity;
    try (destruct sx; try discriminate; try reflexivity);
    try (destruct sy; try discriminate; try reflexivity);
    try (destruct sz; try discriminate; try reflexivity);
    intros; sf_order.
Qed.

Lemma SFleb_total (x y : spec_float) :
  x <> S754_nan -> y <> S754_nan -> SFltb x y = false -> SFleb y x = true.
Proof.
  unfold SFltb, SFleb. intros Hx Hy.
  destruct x as [sx|sx| |sx mx ex], y as [sy|sy| |sy my ey]; simpl;
    try congruence;
    try (destruct sx; congruence); try (destruct sy; congruence);
    try (destruct sx, sy; congruence).
  destruct sx, sy; try congruence; intros; sf_order.
Qed.

Lemma leb_trans (a b c : float) :
  (a <=? b) = true -> (b <=? c) = true -> (a <=? c) = true.
Proof. rewrite !FloatAxioms.leb_spec. apply SFleb_trans. Qed.

Lemma ltb_irrefl (a : float) : (a <? a) = false.
Proof.
  rewrite FloatAxioms.ltb_spec. unfold SFltb.
  pose proof (SFcompare_antisym (Prim2SF a) (Prim2SF a)) as H.
  destruct (SFcompare (Prim2SF a) (Prim2SF a)) as [[]|]; try reflexivity; discriminate.
Qed.

Lemma ltb_asym (a b : float) : (a <? b) = true -> (b <? a) = false.
Proof.
  rewrite !FloatAxioms.ltb_spec. unfold SFltb. rewrite (SFcompare_antisym (Prim2SF a) (Prim2SF b)).
  destruct (SFcompare (Prim2SF a) (Prim2SF b)) as [[]|]; simpl; congruence.
Qed.

Lemma ltb_trans (a b c : float) :
  (a <? b) = true -> (b <? c) = true -> (a <? c) = true.
Proof. rewrite !FloatAxioms.ltb_spec. apply SFltb_trans. Qed.




Lemma eqb_zero_iff (z : float) :
  (z =? 0) = true <-> exists s, Prim2SF z = S754_zero s.
Proof.
  rewrite FloatAxioms.eqb_spec. change (Prim2SF 0) with (S754_zero false).
  unfold SFeqb. destruct (Prim2SF z) as [s|s| |s m e]; simpl; split;
    try discriminate; try (intros [? ?]; discriminate); eauto;
    destruct s; try discriminate.
Qed.

Lemma SFdiv_core_self (m : positive) (e : Z) :
  SFdiv_core_binary prec emax (Zpos m) e (Zpos m) e
  = (2 ^ 53, -53, loc_Exact)%Z.
Proof.
  unfold SFdiv_core_binary.
  rewrite !Z.sub_diag.
  change (Z.min (fexp prec emax 0) 0) with (-53)%Z.
  change (0 - -53)%Z with 53%Z. cbv beta iota zeta.
  rewrite Z.shiftl_mul_pow2 by lia.
  rewrite (Z.mul_comm (Zpos m)).
  pose proof (Z.div_mul (2 ^ 53) (Zpos m) ltac:(lia)) as Hq.
  pose proof (Z.mod_mul (2 ^ 53) (Zpos m) ltac:(lia)) as Hr.
  unfold Z.div, Z.modulo in Hq, Hr.
  destruct (Z.div_eucl (2 ^ 53 * Zpos m) (Zpos m)) as [q r].
  subst q r. f_equal.
  unfold new_location, new_location_even, new_location_odd.
  destruct (Z.even (Zpos m)); reflexivity.
Qed.

Lemma div_self (x : float) s m e :
  Prim2SF x = S754_finite s m e -> x / x = 1.
Proof.
  intros H. apply Prim2SF_inj. rewrite div_spec, H.
  unfold SF64div, SFdiv. rewrite SFdiv_core_self, xorb_nilpotent.
  vm_compute. reflexivity.
Qed.

Lemma iter_shr_52 (m : positive) :
  SpecFloat.iter_pos shr_1 52
    {| shr_m := Zpos (4503599627370496 * m)%positive; shr_r := false; shr_s := false |}
  = {| shr_m := Zpos m; shr_r := false; shr_s := false |}.
Proof. vm_compute. reflexivity. Qed.

Lemma digits2_shift_52 (m : positive) :
  Zpos (digits2_pos (4503599627370496 * m)%positive)
  = (Zpos (digits2_pos m) + 52)%Z.
Proof.
  change (4503599627370496 * m)%positive
    with (Pos.iter xO m 52%positive).
  cbn [Pos.iter digits2_pos]. lia.
Qed.

Lemma one_mul (y : float) : 1 * y = y.
Proof.
  apply Prim2SF_inj. rewrite mul_spec.
  change (Prim2SF 1) with (S754_finite false 4503599627370496 (-52)).
  pose proof (Prim2SF_valid y) as V.
  destruct (Prim2SF y) as [s|s| |s m e]; try reflexivity.
  cbn [valid_binary SpecFloat.valid_binary] in V.
  unfold bounded, canonical_mantissa in V.
  apply andb_true_iff in V as [Hc Hb].
  apply Z.eqb_eq in Hc.
  unfold SF64mul, SFmul, binary_round_aux, shr_fexp.
  cbn [xorb Zdigits2 shr_record_of_loc].
  rewrite digits2_shift_52.
  replace (fexp prec emax (Z.pos (digits2_pos m) + 52 + (-52 + e)))%Z
    with e by (rewrite <- Hc at 1; f_equal; lia).
  replace (e - (-52 + e))%Z with 52%Z by lia.
  unfold shr at 1. rewrite iter_shr_52.
  cbn [shr_m loc_of_shr_record round_nearest_even Zdigits2 shr_record_of_loc].
  replace (-52 + e + 52)%Z with e by lia.
  rewrite Hc, Z.sub_diag. cbn [shr shr_m]. rewrite Hb. reflexivity.
Qed.

Lemma is_nan_spec (x : float) :
  is_nan x = match Prim2SF x with S754_nan => true | _ => false end.
Proof.
  unfold is_nan. rewrite FloatAxioms.eqb_spec. unfold SFeqb.
  pose proof (SFcompare_antisym (Prim2SF x) (Prim2SF x)) as H.
  destruct (Prim2SF x) as [s|s| |s m e]; try reflexivity.
  - destruct s; reflexivity.
  - destruct (SFcompare (S754_finite s m e) (S754_finite s m e)) as [[]|] eqn:E;
      try reflexivity; try discriminate.
Qed.

Lemma leb_of_not_ltb (a b : float) :
  is_nan a = false -> is_nan b = false ->
  (a <? b) = false -> (b <=? a) = true.
Proof.
  rewrite !is_nan_spec, FloatAxioms.ltb_spec, FloatAxioms.leb_spec.
  intros Ha Hb. apply SFleb_total.
  - destruct (Prim2SF a); congruence.
  - destruct (Prim2SF b); congruence.
Qed.

Lemma is_infinity_spec (x : float) :
  is_infinity x = match Prim2SF x with S754_infinity _ => true | _ => false end.
Proof.
  unfold is_infinity. rewrite FloatAxioms.eqb_spec, abs_spec.
  change (Prim2SF infinity) with (S754_infinity false).
  unfold SFeqb. destruct (Prim2SF x) as [s|s| |s m e]; reflexivity.
Qed.

Lemma is_finite_spec (x : float) :
  is_finite x = true ->
  (exists s, Prim2SF x = S754_zero s) \/ (exists s m e, Prim2SF x = S754_finite s m e).
Proof.
  unfold is_finite. rewrite is_nan_spec, is_infinity_spec.
  destruct (Prim2SF x) as [s|s| |s m e]; simpl; try discriminate; eauto.
Qed.

Lemma SFcompare_Eq_finite s1 m1 e1 s2 m2 e2 :
  SFcompare (S754_finite s1 m1 e1) (S754_finite s2 m2 e2) = Some Eq ->
  s1 = s2 /\ m1 = m2 /\ e1 = e2.
Proof.
  simpl. change (PosDef.Pos.compare_cont Eq) with Pos.compare.
  destruct s1, s2; try discriminate;
    destruct (Z.compare_spec e1 e2); try discriminate;
    destruct (Pos.compare_spec m1 m2); try discriminate; auto.
Qed.

Lemma sub_eq_zero (x y : float) :
  (x =? y) = true -> is_finite x = true -> (x - y =? 0) = true.
Proof.
  intros Heq Hfin. apply eqb_zero_iff. rewrite sub_spec.
  rewrite FloatAxioms.eqb_spec in Heq. unfold SFeqb in Heq.
  destruct (is_finite_spec x Hfin) as [[s Hx]|(s & m & e & Hx)]; rewrite Hx in *.
  - destruct (Prim2SF y) as [s'|s'| |s' m' e']; simpl in Heq; try discriminate.
    + simpl. destruct s, s'; eauto.
    + destruct s'; discriminate.
    + destruct s'; discriminate.
  - destruct (Prim2SF y) as [s'|s'| |s' m' e'] eqn:Hy.
    + simpl in Heq. destruct s; discriminate.
    + simpl in Heq. destruct s'; discriminate.
    + discriminate.
    + destruct (SFcompare (S754_finite s m e) (S754_finite s' m' e')) as [[]|] eqn:E;
        try discriminate.
      apply SFcompare_Eq_finite in E as (-> & -> & ->).
      unfold SF64sub, SFsub. cbv zeta. rewrite Z.sub_diag. simpl. eauto.
Qed.

Lemma zero_div (z d : float) :
  (z =? 0) = true -> (d =? 0) = false -> is_nan d = false ->
  (z / d =? 0) = true.
Proof.
  intros Hz Hd Hn. apply eqb_zero_iff. apply eqb_zero_iff in Hz as [s Hz].
  rewrite div_spec, Hz. rewrite is_nan_spec in Hn.
  assert (Hd' : forall s', Prim2SF d <> S754_zero s').
  { intros s' E. assert ((d =? 0) = true) by (apply eqb_zero_iff; eauto). congruence. }
  destruct (Prim2SF d) as [s'|s'| |s' m' e']; simpl; eauto; try discriminate.
  exfalso. eapply Hd'. reflexivity.
Qed.

Lemma zero_mul_finite (z c : float) s m e :
  Prim2SF c = S754_finite s m e -> (z =? 0) = true -> (z * c =? 0) = true.
Proof.
  intros Hc Hz. apply eqb_zero_iff. apply eqb_zero_iff in Hz as [s' Hz].
  rewrite mul_spec, Hz, Hc. simpl. eauto.
Qed.

Lemma opp_zero (z : float) : (z =? 0) = true -> (- z =? 0) = true.
Proof.
  intros Hz. apply eqb_zero_iff. apply eqb_zero_iff in Hz as [s' Hz].
  rewrite opp_spec, Hz. simpl. eauto.
Qed.

End Binary64.

(** ** The method monad *)

Lemma read_only_ret {A} (a : A) : read_only (ret a).
Proof. intros st. reflexivity. Qed.

Lemma read_only_raise {A} (e : exn) : read_only (@raise A e).
Proof. intros st. reflexivity. Qed.

Lemma read_only_lift {A} (o : outcome A) : read_only (lift o).
Proof. intros st. reflexivity. Qed.

Lemma read_only_gets {A} (f : ClassState -> A) : read_only (gets f).
Proof. intros st. reflexivity. Qed.

Lemma read_only_getitem dict key : read_only (getitem dict key).
Proof. intros st. reflexivity. Qed.

Lemma read_only_bind {A B} (m : M A) (k : A -> M B) :
  read_only m -> (forall a, read_only (k a)) -> read_only (bind m k).
Proof.
  intros Hm Hk st. unfold bind, state_of. specialize (Hm st).
  unfold state_of in Hm. destruct (m st) as [[a|e] st']; simpl in *; subst.
  - apply Hk.
  - reflexivity.
Qed.

Lemma read_only_if {A} (b : bool) (m1 m2 : M A) :
  read_only m1 -> read_only m2 -> read_only (if b then m1 else m2).
Proof. destruct b; auto. Qed.

Create HintDb read_only.
#[local] Hint Resolve read_only_ret read_only_raise read_only_lift
  read_only_gets read_only_getitem read_only_if : read_only.

Ltac read_only_tac :=
  repeat first
    [ apply read_only_bind; [| intros ? ]
    | match goal with
      | |- read_only (let '(_, _) := ?p in _) => destruct p
      | |- read_only (match ?p with _ => _ end) => destruct p
      end
    | solve [ auto with read_only ] ].

(** A read-only method that returns or raises gives the state back. *)
Lemma read_only_run {A} (m : M A) st :
  read_only m -> m st = (value_of (m st), st).
Proof.
  intros H. specialize (H st). unfold state_of, value_of in *.
  destruct (m st); simpl in *; congruence.
Qed.

Lemma bind_return {A B} (m : M A) (k : A -> M B) st a st' :
  m st = (Return a, st') -> bind m k st = k a st'.
Proof. unfold bind. intros ->. reflexivity. Qed.

Lemma bind_raise {A B} (m : M A) (k : A -> M B) st e st' :
  m st = (Raise e, st') -> bind m k st = (Raise e, st').
Proof. unfold bind. intros ->. reflexivity. Qed.

Lemma lift_run {A} (o : outcome A) st : lift o st = (o, st).
Proof. reflexivity. Qed.

(** ** The estimators only read the class state *)

Section ReadOnly.
Context {rt : Runtime}.

Lemma read_only_int_value dict key : read_only (int_value dict key).
Proof. unfold int_value. read_only_tac. Qed.

Lemma read_only_float_value dict key : read_only (float_value dict key).
Proof. unfold float_value. read_only_tac. Qed.

#[local] Hint Resolve read_only_int_value read_only_float_value : read_only.

Lemma read_only_read_hsv dict : read_only (read_hsv dict).
Proof. unfold read_hsv. read_only_tac. Qed.

Lemma read_only_ball_metrics w h fov x y r :
  read_only (ball_metrics w h fov x y r).
Proof. unfold ball_metrics. read_only_tac. Qed.

#[local] Hint Resolve read_only_read_hsv read_only_ball_metrics : read_only.

Lemma read_only_ball_loop w h fov cs :
  forall n ds, read_only (ball_loop w h fov cs n ds).
Proof.
  induction cs as [|c cs IH]; intros n ds; simpl.
  - auto with read_only.
  - destruct (cv_minEnclosingCircle c) as [[x y] r].
    apply read_only_bind; [auto with read_only|]. intros m.
    apply read_only_if; [|auto with read_only].
    apply read_only_bind; [auto with read_only|]. intros d. apply IH.
Qed.

Lemma read_only_detect_game_balls img w h fov :
  read_only (detect_game_balls img w h fov).
Proof.
  unfold detect_game_balls.
  apply read_only_bind; [auto with read_only|]. intros [lo hi].
  apply read_only_if; [apply read_only_ball_loop | auto with read_only].
Qed.

Lemma read_only_camera_pass cs : read_only (camera_pass cs).
Proof.
  unfold camera_pass. destruct (py_max cv_contourArea cs) as [c|];
    [|auto with read_only].
  apply read_only_bind; [auto with read_only|]. intros m.
  apply read_only_if; [|auto with read_only].
  destruct (cv_boundingRect c) as [[[tX tY] tW] tH]. read_only_tac.
Qed.

Lemma read_only_real_world_pass c w h fl mh :
  read_only (real_world_pass c w h fl mh).
Proof. unfold real_world_pass. read_only_tac. Qed.

Lemma read_only_detect_tape_rectangle img w h fov fl ma mh :
  read_only (detect_tape_rectangle img w h fov fl ma mh).
Proof.
  unfold detect_tape_rectangle.
  apply read_only_bind; [auto with read_only|]. intros [lo hi].
  apply read_only_bind; [apply read_only_camera_pass|]. intros c.
  apply read_only_bind; [|auto with read_only].
  apply read_only_if; [apply read_only_real_world_pass | auto with read_only].
Qed.
End ReadOnly.

(** ** The calibration store *)

Lemma split_cons sep s : exists h t, split sep s = h :: t.
Proof.
  induction s as [|c r IH]; simpl; eauto.
  destruct (Ascii.eqb c sep); eauto.
  destruct (split sep r); eauto.
Qed.

Lemma read_line_returns line sec st :
  section_line line || has_value line = true ->
  exists sec' st', read_line line sec st = (Return sec', st').
Proof.
  unfold section_line, has_value, read_line.
  destruct (split_cons "," (strip line)) as (h & t & ->).
  cbn [getitem_list nth_error]. unfold bind at 1. rewrite lift_run.
  intros H.
  destruct (String.eqb (upper h) "BALL:"); [cbn; eauto|].
  destruct (String.eqb (upper h) "GOALTARGET:"); [cbn; eauto|].
  destruct (String.eqb (upper h) "VISIONTAPE:"); [cbn; eauto|].
  destruct (String.eqb h ""); [cbn; eauto|].
  cbn [orb negb] in *.
  destruct t as [|v t]; [discriminate|].
  destruct (String.eqb sec "BALL"); [cbn; eauto|].
  destruct (String.eqb sec "GOALTARGET"); [cbn; eauto|].
  destruct (String.eqb sec "VISIONTAPE"); cbn; eauto.
Qed.

Lemma read_lines_returns lines :
  forallb (fun line => section_line line || has_value line) lines = true ->
  forall sec st, exists st', read_lines lines sec st = (Return tt, st').
Proof.
  induction lines as [|line lines IH]; simpl; intros H sec st.
  - eexists. reflexivity.
  - apply andb_true_iff in H as [Hl Hr].
    destruct (read_line_returns line sec st Hl) as (sec' & st' & E).
    rewrite (bind_return _ _ _ _ _ E). apply IH, Hr.
Qed.

(** The loop body, given the fields of the line. *)
Lemma read_line_fields (line sec : string) (st : ClassState)
      (h : string) (t : list string) :
  split "," (strip line) = h :: t ->
  read_line line sec st
  = if String.eqb (upper h) "BALL:" then (Return "BALL", st)
    else if String.eqb (upper h) "GOALTARGET:" then (Return "GOALTARGET", st)
    else if String.eqb (upper h) "VISIONTAPE:" then (Return "VISIONTAPE", st)
    else if String.eqb h "" then (Return "", st)
    else if is_section sec then
           match t with
           | v :: _ => (Return sec, setitem_section sec (upper h) v st)
           | [] => (Raise IndexError, st)
           end
         else (Return sec, st).
Proof.
  intros E. unfold read_line. rewrite E.
  cbn [getitem_list nth_error]. unfold bind at 1. rewrite lift_run.
  destruct (String.eqb (upper h) "BALL:"); [reflexivity|].
  destruct (String.eqb (upper h) "GOALTARGET:"); [reflexivity|].
  destruct (String.eqb (upper h) "VISIONTAPE:"); [reflexivity|].
  destruct (String.eqb h ""); [reflexivity|].
  cbn [negb]. unfold is_section, setitem_section.
  destruct (String.eqb sec "BALL");
    [destruct t; reflexivity|].
  destruct (String.eqb sec "GOALTARGET");
    [destruct t; reflexivity|].
  destruct (String.eqb sec "VISIONTAPE"); [destruct t|]; reflexivity.
Qed.

(** *** The items a load stores *)

Lemma setitem_section_laid_over (sec k v : string) (new old : ClassState) :
  setitem_section sec k v (laid_over new old)
  = laid_over (setitem_section sec k v new) old.
Proof.
  unfold setitem_section, laid_over.
  destruct (String.eqb sec "BALL");
    [|destruct (String.eqb sec "GOALTARGET")];
    unfold setitem_ball_values, setitem_goal_values, setitem_tape_values;
    cbn; f_equal; apply insert_union_l.
Qed.

Lemma store_items_laid_over (items : list (string * string * string))
      (new old : ClassState) :
  store_items items (laid_over new old)
  = laid_over (store_items items new) old.
Proof.
  revert new. induction items as [|[[sec k] v] items IH]; intros new.
  - reflexivity.
  - cbn [store_items fold_left fst snd].
    rewrite setitem_section_laid_over. apply IH.
Qed.

Lemma laid_over_fresh (st : ClassState) : laid_over fresh_class st = st.
Proof.
  destruct st. unfold laid_over. cbn.
  now rewrite !(left_id_L ∅ (∪)).
Qed.

Lemma store_items_fresh (items : list (string * string * string))
      (st : ClassState) :
  store_items items st = laid_over (store_items items fresh_class) st.
Proof.
  rewrite <- store_items_laid_over. now rewrite laid_over_fresh.
Qed.

Lemma store_items_twice (items : list (string * string * string))
      (st : ClassState) :
  store_items items (store_items items st) = store_items items st.
Proof.
  rewrite (store_items_fresh items (store_items items st)).
  rewrite (store_items_fresh items st).
  unfold laid_over. cbn. f_equal;
    rewrite (assoc_L (∪)); now rewrite (idemp_L (∪)).
Qed.

(** One line stores at most one item, and which one does not depend on
    what is stored already. *)
Lemma read_line_items (line sec : string) :
  exists o items,
    forall st, read_line line sec st = (o, store_items items st).
Proof.
  destruct (split_cons "," (strip line)) as (h & t & E).
  destruct (String.eqb (upper h) "BALL:") eqn:E1;
    [exists (Return "BALL"), []; intros st;
     rewrite (read_line_fields line sec st h t E), E1; reflexivity|].
  destruct (String.eqb (upper h) "GOALTARGET:") eqn:E2;
    [exists (Return "GOALTARGET"), []; intros st;
     rewrite (read_line_fields line sec st h t E), E1, E2; reflexivity|].
  destruct (String.eqb (upper h) "VISIONTAPE:") eqn:E3;
    [exists (Return "VISIONTAPE"), []; intros st;
     rewrite (read_line_fields line sec st h t E), E1, E2, E3; reflexivity|].
  destruct (String.eqb h "") eqn:E4;
    [exists (Return ""), []; intros st;
     rewrite (read_line_fields line sec st h t E), E1, E2, E3, E4;
     reflexivity|].
  destruct (is_section sec) eqn:E5.
  - destruct t as [|v t].
    + exists (Raise IndexError), []. intros st.
      rewrite (read_line_fields line sec st h [] E), E1, E2, E3, E4, E5.
      reflexivity.
    + exists (Return sec), [(sec, upper h, v)]. intros st.
      rewrite (read_line_fields line sec st h (v :: t) E), E1, E2, E3, E4, E5.
      reflexivity.
  - exists (Return sec), []. intros st.
    rewrite (read_line_fields line sec st h t E), E1, E2, E3, E4, E5.
    reflexivity.
Qed.

Lemma store_items_app (l1 l2 : list (string * string * string))
      (st : ClassState) :
  store_items (l1 ++ l2) st = store_items l2 (store_items l1 st).
Proof. unfold store_items. apply fold_left_app. Qed.

Lemma read_lines_items (lines : list string) (sec : string) :
  exists o items,
    forall st, read_lines lines sec st = (o, store_items items st).
Proof.
  revert sec. induction lines as [|line lines IH]; intros sec.
  - exists (Return tt), []. reflexivity.
  - destruct (read_line_items line sec) as ([sec'|e] & items1 & H1).
    + destruct (IH sec') as (o & items2 & H2).
      exists o, (items1 ++ items2)%list. intros st. cbn [read_lines].
      rewrite (bind_return _ _ _ _ _ (H1 st)). rewrite H2.
      now rewrite store_items_app.
    + exists (Raise e), items1. intros st. cbn [read_lines].
      now rewrite (bind_raise _ _ _ _ _ (H1 st)).
Qed.

Lemma store_items_visionFile (items : list (string * string * string))
      (st : ClassState) :
  visionFile (store_items items st) = visionFile st.
Proof.
  revert st. induction items as [|[[sec k] v] items IH]; intros st;
    [reflexivity|].
  cbn [store_items fold_left fst snd]. unfold store_items in IH. rewrite IH.
  unfold setitem_section.
  destruct (String.eqb sec "BALL");
    [|destruct (String.eqb sec "GOALTARGET")]; reflexivity.
Qed.

Lemma read_vision_file_missing fs file st :
  fs file = Raise FileNotFoundError ->
  read_vision_file fs file st = (Return false, st).
Proof.
  intros H. unfold read_vision_file, try_except_FileNotFoundError, bind,
    open_readlines, lift. rewrite H. reflexivity.
Qed.

(** An exception of [open] or [readlines] other than [FileNotFoundError]
    is not caught. *)
Lemma read_vision_file_unreadable fs file e st :
  fs file = Raise e -> e <> FileNotFoundError ->
  read_vision_file fs file st = (Raise e, st).
Proof.
  intros H He. unfold read_vision_file, try_except_FileNotFoundError, bind,
    open_readlines, lift. rewrite H. destruct e; congruence.
Qed.

Lemma read_vision_file_of_lines (fs : FileSystem) (file : string)
      (lines : list string) (st : ClassState) :
  fs file = Return lines ->
  read_vision_file fs file st
  = match read_lines lines "" st with
    | (Return _, st') => (Return true, st')
    | (Raise FileNotFoundError, st') => (Return false, st')
    | (Raise e, st') => (Raise e, st')
    end.
Proof.
  intros H. unfold read_vision_file, try_except_FileNotFoundError,
    open_readlines. rewrite H. unfold bind, ret, lift.
  destruct (read_lines lines "" st) as [[[]|e] st']; [reflexivity|].
  destruct e; reflexivity.
Qed.


Section StoreReads.
Context {rt : Runtime}.

Lemma int_value_run dict key st :
  int_value dict key st
  = (match dict st !! key with
     | Some v => py_int v
     | None => Raise (KeyError key)
     end, st).
Proof.
  unfold int_value, bind, getitem, getitem_dict.
  destruct (dict st !! key); reflexivity.
Qed.

Lemma float_value_run dict key st :
  float_value dict key st
  = (match dict st !! key with
     | Some v => py_float v
     | None => Raise (KeyError key)
     end, st).
Proof.
  unfold float_value, bind, getitem, getitem_dict.
  destruct (dict st !! key); reflexivity.
Qed.


End StoreReads.

(** ** Claims about the calibration store *)

(** C8. Neither [detect_game_balls] nor [detect_tape_rectangle] modifies
    the calibration store: whatever the frame, the camera parameters and
    the class state, and whether the call returns or raises, the class
    state after the call (the file name and the ball, goal and tape
    dictionaries) is the class state before it. *)
Theorem detection_preserves_calibration `{rt : Runtime}
        (img : Frame) (w h fov fl ma mh : float) (st : ClassState) :
  state_of (detect_game_balls img w h fov st) = st
  /\ state_of (detect_tape_rectangle img w h fov fl ma mh st) = st.
Proof.
  split.
  - apply read_only_detect_game_balls.
  - apply read_only_detect_tape_rectangle.
Qed.

(** C4. When the calibration file does not exist, [read_vision_file]
    reports the failure by returning [False] and leaves the class state
    untouched, so no key of any section is stored; the constructor, which
    calls it, leaves the three dictionaries as they were. *)
Theorem missing_file_stores_nothing (fs : FileSystem) (file : string)
        (st : ClassState) :
  fs file = Raise FileNotFoundError ->
  read_vision_file fs file st = (Return false, st)
  /\ ball_values (state_of (init fs file st)) = ball_values st
  /\ goal_values (state_of (init fs file st)) = goal_values st
  /\ tape_values (state_of (init fs file st)) = tape_values st.
Proof.
  intros H. split; [apply read_vision_file_missing, H|].
  unfold init, bind, modify, gets, state_of.
  cbn [visionFile set_visionFile].
  rewrite (read_vision_file_missing fs file _ H). cbn. auto.
Qed.

Lemma missing_file_stores_nothing_witness :
  read_vision_file example_fs "absent.txt" (loaded "vision.txt")
  = (Return false, loaded "vision.txt")
  /\ ball_values (state_of (init example_fs "absent.txt" (loaded "vision.txt")))
     = ball_values (loaded "vision.txt").
Proof.
  destruct (missing_file_stores_nothing example_fs "absent.txt"
              (loaded "vision.txt") eq_refl) as (H1 & H2 & _).
  split; [exact H1 | exact H2].
Defined.





(** ** Sorting and the largest item *)

Section KeyedFacts.
Context {A : Type} (key : A -> float).

(** [a] may stand before [b] in descending order: its key is not below. *)
Let not_below (a b : A) : Prop := PrimFloat.ltb (key a) (key b) = false.

Lemma insert_desc_perm (x : A) (l : list A) :
  Permutation (insert_desc key x l) (x :: l).
Proof.
  induction l as [|y l IH]; simpl; [reflexivity|].
  destruct (PrimFloat.ltb (key x) (key y)); [|reflexivity].
  rewrite IH. apply perm_swap.
Qed.

Lemma sorted_reverse_perm (l : list A) :
  Permutation (sorted_reverse key l) l.
Proof.
  induction l as [|x l IH]; simpl; [reflexivity|].
  rewrite insert_desc_perm. now constructor.
Qed.

Lemma insert_desc_hd (x y : A) (l : list A) :
  PrimFloat.ltb (key x) (key y) = true ->
  HdRel not_below y l -> HdRel not_below y (insert_desc key x l).
Proof.
  intros Hxy Hl. destruct l as [|z l]; simpl.
  - constructor. apply ltb_asym, Hxy.
  - destruct (PrimFloat.ltb (key x) (key z)).
    + constructor. now inversion Hl.
    + constructor. apply ltb_asym, Hxy.
Qed.

Lemma insert_desc_sorted (x : A) (l : list A) :
  Sorted not_below l -> Sorted not_below (insert_desc key x l).
Proof.
  induction l as [|y l IH]; simpl; intros Hs.
  - repeat constructor.
  - destruct (PrimFloat.ltb (key x) (key y)) eqn:E.
    + inversion Hs; subst. constructor; [auto|].
      now apply insert_desc_hd.
    + constructor; [exact Hs|]. constructor. exact E.
Qed.

Lemma sorted_reverse_sorted (l : list A) :
  Sorted not_below (sorted_reverse key l).
Proof.
  induction l as [|x l IH]; simpl; [constructor|].
  now apply insert_desc_sorted.
Qed.

(** With keys that are numbers, the order is descending throughout. *)
Lemma sorted_reverse_descending (l : list A) :
  Forall (fun x => is_nan (key x) = false) l ->
  StronglySorted (fun a b => PrimFloat.leb (key b) (key a) = true)
                 (sorted_reverse key l).
Proof.
  intros Hnum.
  apply Sorted_StronglySorted.
  { intros a b c Hab Hbc. eapply leb_trans; eauto. }
  assert (Hnum' : Forall (fun x => is_nan (key x) = false)
                         (sorted_reverse key l)).
  { eapply Permutation_Forall; [|exact Hnum].
    symmetry. apply sorted_reverse_perm. }
  pose proof (sorted_reverse_sorted l) as Hs.
  induction Hs as [|a s Hs IH Hhd]; [constructor|].
  inversion Hnum' as [|? ? Ha Hs']; subst.
  constructor; [auto|].
  destruct Hhd as [|b s' Hab]; constructor.
  inversion Hs' as [|? ? Hb _]; subst.
  now apply leb_of_not_ltb.
Qed.

(** The running maximum of [max]: the result is an item of the list, and
    no item of the list has a key above it. *)
Lemma fold_max_spec (l : list A) (x : A) :
  let m := fold_left
             (fun m c => if PrimFloat.ltb (key m) (key c) then c else m) l x in
  In m (x :: l)
  /\ (forall c, In c l -> PrimFloat.ltb (key m) (key c) = false)
  /\ (m = x \/ PrimFloat.ltb (key x) (key m) = true).
Proof.
  revert x. induction l as [|y l IH]; intros x; simpl.
  - split; [auto|]. split; [tauto|auto].
  - destruct (PrimFloat.ltb (key x) (key y)) eqn:E.
    + destruct (IH y) as (Hin & Hmax & Hge). split; [|split].
      * simpl in Hin. tauto.
      * intros c [<-|Hc]; [|auto].
        destruct Hge as [->|Hlt]; [apply ltb_irrefl | apply ltb_asym, Hlt].
      * right. destruct Hge as [->|Hlt]; [exact E|].
        eapply ltb_trans; eauto.
    + destruct (IH x) as (Hin & Hmax & Hge). split; [|split].
      * simpl in Hin. tauto.
      * intros c [<-|Hc]; [|auto].
        destruct Hge as [->|Hlt]; [exact E|].
        match goal with
        | |- ?b = false => destruct b eqn:E'; [|reflexivity]
        end.
        rewrite (ltb_trans _ _ _ Hlt E') in E. discriminate.
      * exact Hge.
Qed.

Lemma py_max_spec (l : list A) (m : A) :
  py_max key l = Some m ->
  In m l /\ forall c, In c l -> PrimFloat.ltb (key m) (key c) = false.
Proof.
  destruct l as [|x l]; [discriminate|]. simpl. intros [= <-].
  destruct (fold_max_spec l x) as (Hin & Hmax & Hge).
  split; [exact Hin|]. intros c [<-|Hc]; [|auto].
  destruct Hge as [->|Hlt]; [apply ltb_irrefl | apply ltb_asym, Hlt].
Qed.

End KeyedFacts.

Lemma take_while_app {A} (ok : A -> bool) (pre : list A) (c : A)
      (post : list A) :
  Forall (fun x => ok x = true) pre -> ok c = false ->
  take_while ok (pre ++ c :: post) = pre.
Proof.
  intros Hpre Hc. induction Hpre as [|x pre Hx _ IH]; simpl.
  - now rewrite Hc.
  - now rewrite Hx, IH.
Qed.

(** ** Claims about [detect_game_balls] *)

Section BallScan.
Context {rt : Runtime}.
Variables cameraWidth cameraHeight cameraFOV : float.

Lemma read_only_ball_data_of (cs : list Contour) :
  read_only (ball_data_of cameraWidth cameraHeight cameraFOV cs).
Proof.
  induction cs as [|c cs IH]; simpl; [apply read_only_ret|].
  destruct (cv_minEnclosingCircle c) as [[x y] r].
  apply read_only_bind; [apply read_only_ball_metrics|]. intros d.
  apply read_only_bind; [apply IH|]. intros ds. apply read_only_ret.
Qed.

Lemma counted_run (m : M (list BallData)) (st : ClassState) :
  read_only m ->
  counted m st
  = (match value_of (m st) with
     | Return new => Return (Z.of_nat (length new), new)
     | Raise e => Raise e
     end, st).
Proof.
  intros Hm. unfold counted, bind. rewrite (read_only_run m st Hm).
  cbn [value_of fst]. destruct (value_of (m st)); reflexivity.
Qed.

(** The loop, run with [MINRADIUS] equal to [minradius], is the detection
    of the longest prefix of contours whose radius exceeds [minradius]. *)
Lemma ball_loop_take_while (minradius : Z) (st : ClassState) :
  int_value ball_values "MINRADIUS" st = (Return minradius, st) ->
  forall cs n ds,
    ball_loop cameraWidth cameraHeight cameraFOV cs n ds st
    = (match value_of (ball_data_of cameraWidth cameraHeight cameraFOV
                         (take_while
                            (fun c => float_gt_int (circle_radius c) minradius)
                            cs) st) with
       | Return new => Return (n + Z.of_nat (length new), (ds ++ new)%list)
       | Raise e => Raise e
       end, st).
Proof.
  intros Hmin. induction cs as [|c cs IH]; intros n ds.
  - simpl. unfold ret. now rewrite Z.add_0_r, app_nil_r.
  - cbn [ball_loop take_while]. unfold circle_radius at 1.
    destruct (cv_minEnclosingCircle c) as [[x y] r] eqn:Ec. cbn [snd].
    rewrite (bind_return _ _ _ _ _ Hmin).
    destruct (float_gt_int r minradius).
    + cbn [ball_data_of]. rewrite Ec.
      pose proof (read_only_run _ st
                    (read_only_ball_metrics cameraWidth cameraHeight
                                            cameraFOV x y r)) as Hm.
      destruct (value_of (ball_metrics cameraWidth cameraHeight cameraFOV
                                       x y r st)) as [d|e].
      * rewrite !(bind_return _ _ _ _ _ Hm), IH.
        pose proof (read_only_run _ st
                      (read_only_ball_data_of
                         (take_while
                            (fun c => float_gt_int (circle_radius c) minradius)
                            cs))) as Hr.
        destruct (value_of _) as [new|e] in Hr |- *.
        -- rewrite (bind_return _ _ _ _ _ Hr). unfold ret, value_of. cbn [fst].
           rewrite <- app_assoc. cbn [app length].
           f_equal. f_equal. f_equal. lia.
        -- rewrite (bind_raise _ _ _ _ _ Hr). reflexivity.
      * rewrite !(bind_raise _ _ _ _ _ Hm). reflexivity.
    + cbn [ball_data_of]. unfold ret, value_of. cbn [fst length].
      now rewrite Z.add_0_r, app_nil_r.
Qed.

Lemma ball_loop_counted (minradius : Z) (st : ClassState) (cs : list Contour) :
  int_value ball_values "MINRADIUS" st = (Return minradius, st) ->
  ball_loop cameraWidth cameraHeight cameraFOV cs 0 [] st
  = counted (ball_data_of cameraWidth cameraHeight cameraFOV
               (take_while (fun c => float_gt_int (circle_radius c) minradius)
                           cs)) st.
Proof.
  intros Hmin. rewrite (ball_loop_take_while minradius st Hmin).
  rewrite counted_run by apply read_only_ball_data_of.
  destruct (value_of _); reflexivity.
Qed.
End BallScan.

(** C1, as stated, fails. With [MINRADIUS] 4 and contours of areas
    100, 80, 60 and radii 5, 4, 9, no radius is below the minimum, so by the
    claim the scan stops nowhere and all three contours yield a detection;
    the call returns one detection, the scan having stopped at the radius
    equal to the minimum. *)
Lemma ball_scan_stops_at_radius_equal_to_minimum :
  let contours := [blob 60 10 9; blob 100 10 5; blob 80 10 4] in
  let st := loaded "vision.txt" in
  int_value ball_values "MINRADIUS" st = (Return 4, st)
  /\ take_while (fun c => negb (float_lt_int (circle_radius c) 4))
                (sorted_reverse cv_contourArea contours)
     = [blob 100 10 5; blob 80 10 4; blob 60 10 9]
  /\ match value_of (detect_game_balls (frame_of contours) 640 480 30 st) with
     | Return (ballsFound, ballData) => ballsFound = 1 /\ length ballData = 1%nat
     | Raise _ => False
     end.
Proof. vm_compute. auto. Qed.

(** C1, amended. [detect_game_balls] processes the contours in descending
    order of enclosed area (no contour precedes one of larger area; with
    areas that are numbers, every contour has at least the area of each
    later one) and stops at the first contour whose
    minimum-enclosing-circle radius is not strictly greater than the
    calibrated [MINRADIUS] (a radius equal to it stops the scan too): the
    call is the detection, in order, of exactly the contours strictly
    before that one, and what follows it is never examined, whatever its
    radius. *)
Theorem ball_scan_stops_at_first_rejected `{rt : Runtime}
        (img : Frame) (cameraWidth cameraHeight cameraFOV : float)
        (st : ClassState) (ballHSVMin ballHSVMax : HSV) (minradius : Z) :
  read_hsv ball_values st = (Return (ballHSVMin, ballHSVMax), st) ->
  int_value ball_values "MINRADIUS" st = (Return minradius, st) ->
  let accept := fun c => float_gt_int (circle_radius c) minradius in
  let sortedContours :=
    sorted_reverse cv_contourArea
                   (process_image_contours img ballHSVMin ballHSVMax) in
  Permutation sortedContours (process_image_contours img ballHSVMin ballHSVMax)
  /\ Sorted (fun a b => PrimFloat.ltb (cv_contourArea a) (cv_contourArea b)
                        = false) sortedContours
  /\ (Forall (fun c => is_nan (cv_contourArea c) = false)
             (process_image_contours img ballHSVMin ballHSVMax) ->
      StronglySorted (fun a b => PrimFloat.leb (cv_contourArea b)
                                               (cv_contourArea a) = true)
                     sortedContours)
  /\ detect_game_balls img cameraWidth cameraHeight cameraFOV st
     = counted (ball_data_of cameraWidth cameraHeight cameraFOV
                             (take_while accept sortedContours)) st
  /\ forall pre c post,
       sortedContours = (pre ++ c :: post)%list ->
       Forall (fun c' => accept c' = true) pre -> accept c = false ->
       take_while accept sortedContours = pre
       /\ forall post',
            ball_loop cameraWidth cameraHeight cameraFOV
                      (pre ++ c :: post')%list 0 [] st
            = detect_game_balls img cameraWidth cameraHeight cameraFOV st.
Proof.
  intros Hhsv Hmin accept sortedContours.
  assert (Hdetect :
            detect_game_balls img cameraWidth cameraHeight cameraFOV st
            = counted (ball_data_of cameraWidth cameraHeight cameraFOV
                                    (take_while accept sortedContours)) st).
  { unfold detect_game_balls. rewrite (bind_return _ _ _ _ _ Hhsv).
    cbv beta iota zeta. subst sortedContours accept.
    rewrite <- (ball_loop_counted _ _ _ minradius st _ Hmin).
    destruct (process_image_contours img ballHSVMin ballHSVMax);
      reflexivity. }
  split; [apply sorted_reverse_perm|].
  split; [apply sorted_reverse_sorted|].
  split; [apply sorted_reverse_descending|].
  split; [exact Hdetect|].
  intros pre c post Hsplit Hpre Hc.
  assert (Htw : take_while accept sortedContours = pre).
  { rewrite Hsplit. now apply take_while_app. }
  split; [exact Htw|]. intros post'.
  rewrite Hdetect, Htw.
  rewrite (ball_loop_counted _ _ _ minradius st _ Hmin).
  fold accept. now rewrite (take_while_app accept pre c post' Hpre Hc).
Qed.

Lemma ball_scan_stops_at_first_rejected_witness :
  let contours := [blob 60 10 9; blob 100 10 5; blob 80 10 4] in
  detect_game_balls (frame_of contours) 640 480 30 (loaded "vision.txt")
  = counted (ball_data_of 640 480 30 [blob 100 10 5]) (loaded "vision.txt").
Proof.
  intros contours.
  assert (H1 : read_hsv ball_values (loaded "vision.txt")
               = (Return ((20, 100, 100), (40, 255, 255)), loaded "vision.txt")).
  { vm_compute. reflexivity. }
  assert (H2 : int_value ball_values "MINRADIUS" (loaded "vision.txt")
               = (Return 4, loaded "vision.txt")).
  { vm_compute. reflexivity. }
  destruct (ball_scan_stops_at_first_rejected
              (frame_of contours) 640 480 30 (loaded "vision.txt")
              (20, 100, 100) (40, 255, 255) 4 H1 H2)
    as (_ & _ & _ & Hdetect & Hprefix).
  assert (H3 : sorted_reverse cv_contourArea
                 (process_image_contours (frame_of contours)
                                         (20, 100, 100) (40, 255, 255))
               = ([blob 100 10 5] ++ blob 80 10 4 :: [blob 60 10 9])%list).
  { vm_compute. reflexivity. }
  assert (H4 : float_gt_int (circle_radius (blob 100 10 5)) 4 = true)
    by (vm_compute; reflexivity).
  assert (H5 : float_gt_int (circle_radius (blob 80 10 4)) 4 = false)
    by (vm_compute; reflexivity).
  assert (H6 : Forall (fun c => float_gt_int (circle_radius c) 4 = true)
                      [blob 100 10 5]) by (repeat constructor; exact H4).
  destruct (Hprefix [blob 100 10 5] (blob 80 10 4) [blob 60 10 9] H3 H6 H5)
    as [Htake _].
  rewrite Htake in Hdetect. exact Hdetect.
Defined.

Section BallAtCentre.
Context {rt : Runtime}.
Local Open Scope float_scope.

Lemma py_div_return (a b : float) :
  (b =? 0) = false -> py_div a b = Return (a / b).
Proof. unfold py_div. now intros ->. Qed.

Lemma finite_nonzero (x : float) :
  is_finite x = true -> (x =? 0) = false ->
  exists s m e, Prim2SF x = S754_finite s m e.
Proof.
  intros Hf Hz. destruct (is_finite_spec x Hf) as [Hzero|Hfin]; [|exact Hfin].
  apply eqb_zero_iff in Hzero. congruence.
Qed.

Lemma math_degrees_zero (z : float) :
  (z =? 0) = true -> (math_degrees z =? 0) = true.
Proof.
  unfold math_degrees.
  apply (zero_mul_finite z radToDeg false 8063664102031864 (-47)%Z).
  vm_compute. reflexivity.
Qed.

(** The metrics of a circle of the known radius, centred on the vertical
    midline of the image. *)
Lemma ball_metrics_centred (cameraWidth cameraHeight cameraFOV : float)
      (x y radius t : float) (st : ClassState) :
  float_value ball_values "RADIUS" st = (Return radius, st) ->
  is_finite radius = true -> (radius =? 0) = false ->
  (x =? cameraWidth / 2) = true -> is_finite x = true ->
  math_tan (math_radians cameraFOV) = Return t ->
  (2 * t =? 0) = false ->
  (cameraWidth / (2 * t) =? 0) = false ->
  is_nan (cameraWidth / (2 * t)) = false ->
  (cameraWidth * cameraHeight =? 0) = false ->
  (forall z, (z =? 0) = true -> (math_atan z =? 0) = true) ->
  exists d,
    ball_metrics cameraWidth cameraHeight cameraFOV x y radius st
    = (Return d, st)
    /\ ball_distance d = cameraWidth / (2 * t)
    /\ (ball_angle d =? 0) = true
    /\ (ball_offset d =? 0) = true.
Proof.
  intros Hradius Hfin Hnz Hx Hxfin Htan Htz Hdz Hdn Hwh Hatan.
  destruct (finite_nonzero radius Hfin Hnz) as (s & m & e & Hsf).
  unfold ball_metrics.
  rewrite (bind_return _ _ _ _ _ Hradius).
  rewrite (py_div_return radius radius Hnz), (div_self radius s m e Hsf).
  unfold bind at 1. rewrite lift_run.
  rewrite Htan. unfold bind at 1. rewrite lift_run.
  rewrite (py_div_return cameraWidth (2 * t) Htz).
  unfold bind at 1. rewrite lift_run.
  rewrite !one_mul.
  pose proof (sub_eq_zero x (cameraWidth / 2) Hx Hxfin) as Hoff.
  rewrite (py_div_return _ _ Hdz).
  unfold bind at 1. rewrite lift_run.
  rewrite (py_div_return _ _ Hwh).
  unfold bind at 1. rewrite lift_run. unfold ret.
  eexists. split; [reflexivity|]. cbn [ball_distance ball_angle ball_offset].
  split; [reflexivity|]. split.
  - apply math_degrees_zero, Hatan, zero_div; assumption.
  - apply opp_zero, Hoff.
Qed.
End BallAtCentre.

(** C6. A frame with a single contour that passes the radius test, whose
    enclosing circle has the calibrated physical [RADIUS] as its radius and
    its centre on the vertical midline ([x == cameraWidth / 2]), gives one
    detection, with
    [distance = cameraWidth / (2 * tan(radians(cameraFOV)))], [angle == 0]
    and [offset == 0]. The call needs what any call needs to return: the
    HSV bounds and [MINRADIUS] parse, the radius and [x] are finite, the
    radius, [2 * tan(...)], the distance and [cameraWidth * cameraHeight]
    are not zero, and the distance is a number. [atan] maps a zero to a
    zero, as the C standard requires. *)
Theorem centred_ball_of_known_radius `{rt : Runtime}
        (img : Frame) (cameraWidth cameraHeight cameraFOV : float)
        (st : ClassState) (ballHSVMin ballHSVMax : HSV) (contour : Contour)
        (x y radius t : float) (minradius : Z) :
  read_hsv ball_values st = (Return (ballHSVMin, ballHSVMax), st) ->
  process_image_contours img ballHSVMin ballHSVMax = [contour] ->
  cv_minEnclosingCircle contour = ((x, y), radius) ->
  int_value ball_values "MINRADIUS" st = (Return minradius, st) ->
  float_gt_int radius minradius = true ->
  float_value ball_values "RADIUS" st = (Return radius, st) ->
  is_finite radius = true -> PrimFloat.eqb radius 0 = false ->
  PrimFloat.eqb x (cameraWidth / 2) = true -> is_finite x = true ->
  math_tan (math_radians cameraFOV) = Return t ->
  PrimFloat.eqb (2 * t) 0 = false ->
  PrimFloat.eqb (cameraWidth / (2 * t)) 0 = false ->
  is_nan (cameraWidth / (2 * t)) = false ->
  PrimFloat.eqb (cameraWidth * cameraHeight) 0 = false ->
  (forall z, PrimFloat.eqb z 0 = true -> PrimFloat.eqb (math_atan z) 0 = true) ->
  exists d,
    detect_game_balls img cameraWidth cameraHeight cameraFOV st
    = (Return (1, [d]), st)
    /\ ball_distance d = (cameraWidth / (2 * t))%float
    /\ PrimFloat.eqb (ball_angle d) 0 = true
    /\ PrimFloat.eqb (ball_offset d) 0 = true.
Proof.
  intros Hhsv Himg Hcircle Hmin Haccept Hradius Hfin Hnz Hx Hxfin Htan Htz Hdz
         Hdn Hwh Hatan.
  destruct (ball_metrics_centred cameraWidth cameraHeight cameraFOV x y radius
              t st Hradius Hfin Hnz Hx Hxfin Htan Htz Hdz Hdn Hwh Hatan)
    as (d & Hd & Hdist & Hangle & Hoffset).
  exists d. split; [|auto].
  unfold detect_game_balls. rewrite (bind_return _ _ _ _ _ Hhsv).
  cbv beta iota zeta. rewrite Himg.
  cbn [length Nat.ltb Nat.leb sorted_reverse fold_right insert_desc ball_loop].
  rewrite Hcircle, (bind_return _ _ _ _ _ Hmin), Haccept.
  rewrite (bind_return _ _ _ _ _ Hd). reflexivity.
Qed.

Lemma ref_atan_zero (z : float) :
  PrimFloat.eqb z 0 = true -> PrimFloat.eqb (ref_atan_series z) 0 = true.
Proof.
  intros Hz. apply eqb_zero_iff in Hz as [s Hz].
  rewrite <- (SF2Prim_Prim2SF z), Hz. destruct s; vm_compute; reflexivity.
Qed.

Lemma centred_ball_of_known_radius_witness :
  exists d,
    detect_game_balls (frame_of [blob 100 320 3.5]) 640 480 30
                      (loaded "small_balls.txt")
    = (Return (1, [d]), loaded "small_balls.txt")
    /\ PrimFloat.eqb (ball_angle d) 0 = true
    /\ PrimFloat.eqb (ball_offset d) 0 = true.
Proof.
  pose (t := (ref_sin_series (math_radians 30)
              / ref_cos_series (math_radians 30))%float).
  destruct (centred_ball_of_known_radius
              (frame_of [blob 100 320 3.5]) 640 480 30
              (loaded "small_balls.txt") (20, 100, 100) (40, 255, 255)
              (blob 100 320 3.5) 320 20 3.5 t 2)
    as (d & Hd & _ & Hangle & Hoffset);
    try (vm_compute; reflexivity).
  - exact ref_atan_zero.
  - exists d. auto.
Defined.

(** ** Claims about [detect_tape_rectangle] *)

Lemma bind_inv {A B} (m : M A) (k : A -> M B) st b st' :
  bind m k st = (Return b, st') ->
  exists a st1, m st = (Return a, st1) /\ k a st1 = (Return b, st').
Proof.
  unfold bind. destruct (m st) as [[a|e] st1]; [eauto | discriminate].
Qed.

Lemma lift_inv {A} (o : outcome A) st a st' :
  lift o st = (Return a, st') -> o = Return a /\ st' = st.
Proof. unfold lift. now intros [= -> ->]. Qed.

Lemma ret_inv {A} (x : A) st a st' :
  ret x st = (Return a, st') -> a = x /\ st' = st.
Proof. unfold ret. now intros [= -> ->]. Qed.

Lemma read_only_inv {A} (m : M A) st a st' :
  read_only m -> m st = (Return a, st') -> st' = st /\ m st = (Return a, st).
Proof.
  intros Hm E. specialize (Hm st). unfold state_of in Hm. rewrite E in Hm.
  simpl in Hm. subst. auto.
Qed.

Lemma py_div_inv (a b q : float) :
  py_div a b = Return q ->
  PrimFloat.eqb b 0 = false /\ q = PrimFloat.div a b.
Proof. unfold py_div. destruct (PrimFloat.eqb b 0); now intros [= <-]. Qed.

Section Tape.
Context {rt : Runtime}.
Local Open Scope float_scope.

Ltac bind_step H a E :=
  let s := fresh "s" in
  apply bind_inv in H as (a & s & E & H);
  first [ apply lift_inv in E as [E ->]
        | apply (read_only_inv _ _ _ _ (read_only_float_value _ _)) in E
            as [-> E]
        | apply (read_only_inv _ _ _ _ (read_only_int_value _ _)) in E
            as [-> E] ].


Lemma camera_pass_not_found (st : ClassState) (cs : list Contour) :
  no_qualifying_contour st cs ->
  camera_pass cs st = (Return camera_defaults, st).
Proof.
  unfold no_qualifying_contour, camera_pass.
  destruct (py_max cv_contourArea cs) as [c|]; [|reflexivity].
  intros (m & Hm & Hgt). rewrite (bind_return _ _ _ _ _ Hm), Hgt. reflexivity.
Qed.

Lemma camera_pass_inv (st st' : ClassState) (cs : list Contour)
      (cp : CameraPass) :
  camera_pass cs st = (Return cp, st') ->
  st' = st
  /\ ((cp_foundTape cp = false /\ cp = camera_defaults
       /\ no_qualifying_contour st cs)
      \/ (cp_foundTape cp = true /\ qualifying_contour st cs
          /\ exists r b, cp_rect cp = Some r /\ cp_box cp = Some b)).
Proof.
  unfold camera_pass, no_qualifying_contour, qualifying_contour.
  destruct (py_max cv_contourArea cs) as [c|].
  - intros H. bind_step H m Hm.
    destruct (float_gt_int (cv_contourArea c) m) eqn:Hgt.
    + destruct (cv_boundingRect c) as [[[tX tY] tW] tH].
      bind_step H ratio Hratio. apply ret_inv in H as [-> ->].
      split; [reflexivity|]. right. cbn. eauto 10.
    + apply ret_inv in H as [-> ->]. split; [reflexivity|]. left. eauto 10.
  - intros H. apply ret_inv in H as [-> ->]. auto.
Qed.

Lemma detect_tape_rectangle_inv (img : Frame)
      (w h fov fl ma mh : float) (st st' : ClassState) (r : TapeResult) :
  detect_tape_rectangle img w h fov fl ma mh st = (Return r, st') ->
  exists lo hi cp rw,
    read_hsv tape_values st = (Return (lo, hi), st)
    /\ camera_pass (process_image_contours img lo hi) st = (Return cp, st)
    /\ (if cp_foundTape cp
        then real_world_pass cp w h fl mh st = (Return rw, st)
        else rw = real_world_defaults)
    /\ r = fill_return cp rw.
Proof.
  unfold detect_tape_rectangle. intros H.
  apply bind_inv in H as ([lo hi] & s & Hhsv & H).
  apply (read_only_inv _ _ _ _ (read_only_read_hsv _)) in Hhsv as [-> Hhsv].
  apply bind_inv in H as (cp & s & Hcp & H).
  apply (read_only_inv _ _ _ _ (read_only_camera_pass _)) in Hcp as [-> Hcp].
  apply bind_inv in H as (rw & s & Hrw & H).
  apply ret_inv in H as [-> ->].
  exists lo, hi, cp, rw. repeat split; auto.
  destruct (cp_foundTape cp).
  - now apply (read_only_inv _ _ _ _ (read_only_real_world_pass _ _ _ _ _))
      in Hrw as [-> Hrw].
  - now apply ret_inv in Hrw as [-> _].
Qed.

Lemma detect_tape_rectangle_not_found (img : Frame)
      (w h fov fl ma mh : float) (st : ClassState) (lo hi : HSV) :
  read_hsv tape_values st = (Return (lo, hi), st) ->
  no_qualifying_contour st (process_image_contours img lo hi) ->
  detect_tape_rectangle img w h fov fl ma mh st
  = (Return (fill_return camera_defaults real_world_defaults), st).
Proof.
  intros Hhsv Hno. unfold detect_tape_rectangle.
  rewrite (bind_return _ _ _ _ _ Hhsv). cbv beta iota zeta.
  rewrite (bind_return _ _ _ _ _ (camera_pass_not_found st _ Hno)).
  reflexivity.
Qed.
End Tape.

Section TapeForward.
Context {rt : Runtime}.
Local Open Scope float_scope.

Lemma camera_pass_largest (cs : list Contour) (largest : Contour) :
  py_max cv_contourArea cs = Some largest ->
  camera_pass cs = camera_pass [largest].
Proof. unfold camera_pass. now intros ->. Qed.

Lemma qualifying_excludes (st : ClassState) (cs : list Contour) :
  qualifying_contour st cs -> no_qualifying_contour st cs -> False.
Proof.
  unfold qualifying_contour, no_qualifying_contour.
  intros (c & m & -> & Hm & Hgt) (m' & Hm' & Hgt'). congruence.
Qed.

End TapeForward.

(** C10. When segmentation finds no contour, or the largest contour does
    not pass the [MINAREA] test, [detect_tape_rectangle] returns, and the
    rotated rectangle and the box points it returns are both [None], not
    numeric sentinels. *)
Theorem not_found_returns_no_rectangle `{rt : Runtime}
        (img : Frame) (w h fov fl ma mh : float) (st : ClassState)
        (tapeHSVMin tapeHSVMax : HSV) :
  read_hsv tape_values st = (Return (tapeHSVMin, tapeHSVMax), st) ->
  no_qualifying_contour st (process_image_contours img tapeHSVMin tapeHSVMax) ->
  exists r,
    detect_tape_rectangle img w h fov fl ma mh st = (Return r, st)
    /\ foundTape r = false /\ rect r = None /\ box r = None.
Proof.
  intros Hhsv Hno. eexists. split.
  - eapply detect_tape_rectangle_not_found; eauto.
  - auto.
Qed.

Lemma not_found_returns_no_rectangle_witness :
  exists r,
    detect_tape_rectangle (frame_of []) 640 480 30 700 0 20
                          (loaded "vision.txt")
    = (Return r, loaded "vision.txt")
    /\ rect r = None /\ box r = None.
Proof.
  destruct (not_found_returns_no_rectangle
              (frame_of []) 640 480 30 700 0 20 (loaded "vision.txt")
              (50, 100, 100) (90, 255, 255))
    as (r & Hr & _ & Hrect & Hbox).
  - vm_compute. reflexivity.
  - exact I.
  - exists r. auto.
Defined.

(** C7, as stated, fails. With [MINAREA] 50, a largest contour of area
    exactly 50 is not below the minimum, yet [foundTape] is [False]. *)
Lemma tape_of_area_equal_to_minimum_not_found :
  let st := loaded "vision.txt" in
  let tape := strip_of_tape 50 (300, 200, 40, 20) 0 in
  int_value tape_values "MINAREA" st = (Return 50, st)
  /\ float_lt_int (cv_contourArea tape) 50 = false
  /\ match value_of (detect_tape_rectangle (frame_of [tape]) 640 480 30 700 0 20
                                           st) with
     | Return r => foundTape r = false
     | Raise _ => False
     end.
Proof. vm_compute. auto. Qed.

(** C7, amended. [detect_tape_rectangle] evaluates only the contour of
    largest enclosed area: no contour has a larger area, and the call is
    the call on a frame holding that contour alone. The returned
    [foundTape] is [True] if and only if that contour's area is strictly
    greater than the calibrated [MINAREA]. When it is not, the call
    returns [foundTape = False] with the camera-space fields at their
    defaults: 1000 for [TargetX], [TargetY], [TargetW], [TargetH], and 0 for
    [IPP] and [Offset]. *)
Theorem tape_found_iff_largest_exceeds_minarea `{rt : Runtime}
        (img : Frame) (w h fov fl ma mh : float) (st : ClassState)
        (tapeHSVMin tapeHSVMax : HSV) :
  read_hsv tape_values st = (Return (tapeHSVMin, tapeHSVMax), st) ->
  let tapeContours := process_image_contours img tapeHSVMin tapeHSVMax in
  (forall largest,
      py_max cv_contourArea tapeContours = Some largest ->
      In largest tapeContours
      /\ (forall c, In c tapeContours ->
                    PrimFloat.ltb (cv_contourArea largest) (cv_contourArea c)
                    = false)
      /\ detect_tape_rectangle img w h fov fl ma mh st
         = detect_tape_rectangle (frame_of [largest]) w h fov fl ma mh st)
  /\ (forall r,
         value_of (detect_tape_rectangle img w h fov fl ma mh st) = Return r ->
         (foundTape r = true <-> qualifying_contour st tapeContours))
  /\ (no_qualifying_contour st tapeContours ->
      exists r,
        detect_tape_rectangle img w h fov fl ma mh st = (Return r, st)
        /\ foundTape r = false
        /\ TargetX (tapeCameraValues r) = 1000
        /\ TargetY (tapeCameraValues r) = 1000
        /\ TargetW (tapeCameraValues r) = 1000
        /\ TargetH (tapeCameraValues r) = 1000
        /\ IPP (tapeCameraValues r) = 0%float
        /\ Offset (tapeCameraValues r) = 0%float).
Proof.
  intros Hhsv tapeContours. split; [|split].
  - intros largest Hmax.
    destruct (py_max_spec cv_contourArea tapeContours largest Hmax)
      as [Hin Hno].
    split; [exact Hin|]. split; [exact Hno|].
    unfold detect_tape_rectangle.
    rewrite !(bind_return _ _ _ _ _ Hhsv). cbv beta iota zeta.
    subst tapeContours. unfold process_image_contours, frame_of in *.
    now rewrite (camera_pass_largest _ largest Hmax).
  - intros r Hr.
    pose proof (read_only_run _ st
                  (read_only_detect_tape_rectangle img w h fov fl ma mh)) as E.
    rewrite Hr in E.
    apply detect_tape_rectangle_inv in E
      as (lo & hi & cp & rw & Hhsv' & Hcp & _ & ->).
    rewrite Hhsv in Hhsv'. injection Hhsv' as <- <-.
    apply camera_pass_inv in Hcp as [_ Hcp]. cbn [foundTape fill_return].
    destruct Hcp as [(Hf & _ & Hno)|(Hf & Hq & _)]; rewrite Hf.
    + split; [discriminate|]. intros Hq.
      destruct (qualifying_excludes _ _ Hq Hno).
    + tauto.
  - intros Hno. eexists. split.
    + eapply detect_tape_rectangle_not_found; eauto.
    + cbn. auto 10.
Qed.

Lemma tape_found_iff_largest_exceeds_minarea_witness :
  let small := strip_of_tape 50 (300, 200, 40, 20) 0 in
  let large := strip_of_tape 60 (310, 210, 40, 20) 0 in
  detect_tape_rectangle (frame_of [small; large; small]) 640 480 30 700 0 20
                        (loaded "vision.txt")
  = detect_tape_rectangle (frame_of [large]) 640 480 30 700 0 20
                          (loaded "vision.txt").
Proof.
  intros small large.
  destruct (tape_found_iff_largest_exceeds_minarea
              (frame_of [small; large; small]) 640 480 30 700 0 20
              (loaded "vision.txt") (50, 100, 100) (90, 255, 255))
    as (Hlargest & _ & _).
  - vm_compute. reflexivity.
  - destruct (Hlargest large) as (_ & _ & Hsame).
    + vm_compute. reflexivity.
    + exact Hsame.
Defined.





(** ** Claims about [FRCNavx] *)

Section NavxFacts.
Context {rtc_time rtc_date : Type}.
Variable round2 : float -> float.

Lemma stop_navx_idempotent (o : @FRCNavx rtc_time rtc_date) : stop_navx (stop_navx o) = stop_navx o.
Proof. reflexivity. Qed.

Lemma stop_navx_stopped (o : @FRCNavx rtc_time rtc_date) : stopped o = true -> stop_navx o = o.
Proof. destruct o as [s a y p t d]. simpl. now intros ->. Qed.

Lemma step_keeps_stopped (c : pc * @FRCNavx rtc_time rtc_date) (ev : event) :
  stopped (snd c) = true -> stopped (snd (step round2 c ev)) = true.
Proof.
  destruct c as [p o], ev as [b|]; simpl; [|reflexivity].
  destruct p; simpl; auto. intros H. now rewrite H.
Qed.

Lemma run_keeps_stopped (evs : list event) (c : pc * @FRCNavx rtc_time rtc_date) :
  stopped (snd c) = true -> stopped (snd (run round2 evs c)) = true.
Proof.
  revert c. induction evs as [|ev evs IH]; intros c Hc; [exact Hc|].
  apply IH, step_keeps_stopped, Hc.
Qed.

Lemma run_app (evs1 evs2 : list event) (c : pc * @FRCNavx rtc_time rtc_date) :
  run round2 (evs1 ++ evs2) c = run round2 evs2 (run round2 evs1 c).
Proof. unfold run. apply fold_left_app. Qed.

Lemma step_stopped_countdown (c : pc * @FRCNavx rtc_time rtc_date) (b : Board) :
  stopped (snd c) = true ->
  statements_left (fst (update_step round2 b c))
  = pred (statements_left (fst c)).
Proof. destruct c as [[] o]; simpl; try reflexivity. now intros ->. Qed.

Lemma run_stopped_countdown (evs : list event) (c : pc * @FRCNavx rtc_time rtc_date) :
  stopped (snd c) = true ->
  statements_left (fst (run round2 evs c))
  = (statements_left (fst c) - polls evs)%nat.
Proof.
  revert c. induction evs as [|[b|] evs IH]; intros c Hc.
  - simpl. lia.
  - change (run round2 (Poll b :: evs) c)
      with (run round2 evs (update_step round2 b c)).
    rewrite IH by (apply (step_keeps_stopped c (Poll b)), Hc).
    rewrite step_stopped_countdown by exact Hc. simpl. lia.
  - change (run round2 (Stop :: evs) c)
      with (run round2 evs (fst c, stop_navx (snd c))).
    rewrite IH by reflexivity. reflexivity.
Qed.

Lemma statements_left_0 (p : pc) : statements_left p = O -> p = returned.
Proof. destruct p; simpl; congruence. Qed.

Lemma run_returned (evs : list event) (o : @FRCNavx rtc_time rtc_date) :
  fst (run round2 evs (returned, o)) = returned
  /\ readings (snd (run round2 evs (returned, o))) = readings o.
Proof.
  revert o. induction evs as [|[b|] evs IH]; intros o.
  - auto.
  - apply IH.
  - change (run round2 (Stop :: evs) (returned, o))
      with (run round2 evs (returned, stop_navx o)).
    destruct (IH (stop_navx o)) as [H1 H2]. rewrite H1, H2. auto.
Qed.

Lemma stop_again_no_effect (evs1 evs2 : list event) (c : pc * @FRCNavx rtc_time rtc_date) :
  stopped (snd c) = true ->
  run round2 (evs1 ++ Stop :: evs2) c = run round2 (evs1 ++ evs2) c.
Proof.
  intros Hc. rewrite !run_app.
  pose proof (run_keeps_stopped evs1 c Hc) as H1.
  destruct (run round2 evs1 c) as [p1 o1]. simpl in H1.
  change (run round2 (Stop :: evs2) (p1, o1))
    with (run round2 evs2 (p1, stop_navx o1)).
  now rewrite stop_navx_stopped.
Qed.

(** C9. Take any moment at which [stop_navx] has just been invoked,
    wherever the polling thread stands, and any continuation [evs] of the
    execution. The flag stays set. The thread starts no further iteration:
    when it next stands at the flag check it returns there, which happens
    within the five statements of the loop body. Once it has returned,
    [angle], [time] and [date] never change again. Invoking [stop_navx]
    again, at once or at any later moment, changes nothing. *)
Theorem stop_halts_polling (p : pc) (o : @FRCNavx rtc_time rtc_date) (evs : list event) :
  let c := (p, stop_navx o) in
  stopped (snd (run round2 evs c)) = true
  /\ (forall b, fst (run round2 evs c) = at_check ->
                update_step round2 b (run round2 evs c)
                = (returned, snd (run round2 evs c)))
  /\ ((5 <= polls evs)%nat -> fst (run round2 evs c) = returned)
  /\ (fst (run round2 evs c) = returned ->
      forall evs',
        fst (run round2 evs' (run round2 evs c)) = returned
        /\ readings (snd (run round2 evs' (run round2 evs c)))
           = readings (snd (run round2 evs c)))
  /\ stop_navx (stop_navx o) = stop_navx o
  /\ (forall evs1 evs2,
         evs = (evs1 ++ evs2)%list ->
         run round2 (evs1 ++ Stop :: evs2)%list c = run round2 evs c).
Proof.
  intros c.
  assert (Hs : stopped (snd (run round2 evs c)) = true)
    by (apply run_keeps_stopped; reflexivity).
  split; [exact Hs|]. split; [|split; [|split; [|split]]].
  - intros b Hp. destruct (run round2 evs c) as [p' o']. simpl in *.
    subst p'. simpl. now rewrite Hs.
  - intros Hn. apply statements_left_0.
    rewrite run_stopped_countdown by reflexivity.
    destruct p; simpl; lia.
  - intros Hp evs'. destruct (run round2 evs c) as [p' o']. simpl in Hp.
    subst p'. apply run_returned.
  - reflexivity.
  - intros evs1 evs2 ->. now apply stop_again_no_effect.
Qed.
End NavxFacts.

(* ================================================================== *)
(** * Further properties *)

(** ** Further properties of the calibration store *)

Lemma rstrip_app_newline (s : string) : rstrip (s ++ newline) = rstrip s.
Proof.
  induction s as [|c r IH]; [reflexivity|].
  simpl. now rewrite IH.
Qed.

Lemma rstrip_no_space (s : string) : no_space s = true -> rstrip s = s.
Proof.
  induction s as [|c r IH]; [reflexivity|]. cbn [no_space rstrip].
  intros H. apply andb_true_iff in H as [Hc Hr]. rewrite (IH Hr).
  apply negb_true_iff in Hc. destruct r; [now rewrite Hc | reflexivity].
Qed.

Lemma lstrip_no_space (s : string) : no_space s = true -> lstrip s = s.
Proof.
  destruct s as [|c r]; [reflexivity|]. cbn [no_space lstrip].
  intros H. apply andb_true_iff in H as [Hc _].
  apply negb_true_iff in Hc. now rewrite Hc.
Qed.

Lemma lstrip_app_no_space (s t : string) :
  no_space s = true -> s <> EmptyString -> lstrip (s ++ t) = (s ++ t)%string.
Proof.
  destruct s as [|c r]; [congruence|]. simpl.
  intros H _. apply andb_true_iff in H as [Hc _].
  apply negb_true_iff in Hc. now rewrite Hc.
Qed.

(** A line of text without whitespace is what [strip] gives back from the
    line [readlines()] makes of it. *)
Lemma strip_line (s : string) :
  no_space s = true -> strip (s ++ newline) = s.
Proof.
  intros H. unfold strip. destruct s as [|c r].
  - reflexivity.
  - rewrite lstrip_app_no_space by (auto; discriminate).
    rewrite rstrip_app_newline. now apply rstrip_no_space.
Qed.

Lemma no_space_app (s t : string) :
  no_space (s ++ t) = no_space s && no_space t.
Proof.
  induction s as [|c r IH]; [reflexivity|]. simpl.
  now rewrite IH, andb_assoc.
Qed.

Lemma split_no_comma (s : string) :
  no_comma s = true -> split "," s = [s].
Proof.
  induction s as [|c r IH]; [reflexivity|]. cbn [no_comma split].
  intros H. apply andb_true_iff in H as [Hc Hr].
  apply negb_true_iff in Hc. now rewrite Hc, (IH Hr).
Qed.

Lemma split_entry (k v : string) :
  no_comma k = true -> no_comma v = true ->
  split "," (k ++ "," ++ v) = [k; v].
Proof.
  intros Hk Hv. induction k as [|c r IH].
  - change (split "," ("" ++ "," ++ v)) with ("" :: split "," v).
    now rewrite (split_no_comma v Hv).
  - cbn [no_comma] in Hk. apply andb_true_iff in Hk as [Hc Hr].
    apply negb_true_iff in Hc. simpl. now rewrite Hc, (IH Hr).
Qed.

Lemma fields_of_entry (kv : string * string) :
  plain (fst kv) = true -> plain (snd kv) = true ->
  split "," (strip (entry_text kv ++ newline)) = [fst kv; snd kv].
Proof.
  unfold plain, entry_text. intros Hk Hv.
  apply andb_true_iff in Hk as [Hk1 Hk2].
  apply andb_true_iff in Hk1 as [_ Hk1].
  apply andb_true_iff in Hv as [Hv1 Hv2].
  apply andb_true_iff in Hv1 as [_ Hv1].
  rewrite strip_line.
  - now apply split_entry.
  - rewrite !no_space_app, Hk1, Hv1. reflexivity.
Qed.

Lemma fields_of_header (hdr : string) :
  plain hdr = true -> split "," (strip (hdr ++ newline)) = [hdr].
Proof.
  unfold plain. intros H. apply andb_true_iff in H as [H1 H2].
  apply andb_true_iff in H1 as [_ H1].
  rewrite strip_line by exact H1. now apply split_no_comma.
Qed.

Lemma is_section_cases (sec : string) :
  is_section sec = true ->
  sec = "BALL" \/ sec = "GOALTARGET" \/ sec = "VISIONTAPE".
Proof.
  unfold is_section. intros H.
  apply orb_true_iff in H as [H|H]; [apply orb_true_iff in H as [H|H]|];
    apply String.eqb_eq in H; auto.
Qed.

Lemma section_dict_setitem (sec k v : string) (st : ClassState) :
  is_section sec = true ->
  section_dict sec (setitem_section sec k v st)
  = <[k := v]> (section_dict sec st).
Proof.
  intros H. destruct (is_section_cases sec H) as [-> | [-> | ->]]; reflexivity.
Qed.

Lemma section_dict_setitem_other (sec sec' k v : string) (st : ClassState) :
  is_section sec = true -> is_section sec' = true -> sec' <> sec ->
  section_dict sec' (setitem_section sec k v st) = section_dict sec' st.
Proof.
  intros H H' Hne.
  destruct (is_section_cases sec H) as [-> | [-> | ->]];
    destruct (is_section_cases sec' H') as [-> | [-> | ->]];
    try reflexivity; congruence.
Qed.

(** What the loop body does with one line, by cases: it moves to the next
    section and stores nothing, or stores one item in the open section, or
    raises [IndexError] and stores nothing. *)
Lemma read_line_cases (line sec : string) (st : ClassState) :
  read_line line sec st = (Return (next_section sec line), st)
  \/ (exists k v,
         is_section sec = true /\ next_section sec line = sec
         /\ read_line line sec st = (Return sec, setitem_section sec k v st))
  \/ (is_section sec = true /\ section_line line = false
      /\ has_value line = false
      /\ read_line line sec st = (Raise IndexError, st)).
Proof.
  destruct (split_cons "," (strip line)) as (h & t & E).
  rewrite (read_line_fields line sec st h t E).
  unfold next_section, section_line, has_value. rewrite E.
  destruct (String.eqb (upper h) "BALL:"); [left; reflexivity|].
  destruct (String.eqb (upper h) "GOALTARGET:"); [left; reflexivity|].
  destruct (String.eqb (upper h) "VISIONTAPE:"); [left; reflexivity|].
  destruct (String.eqb h ""); [left; reflexivity|].
  destruct (is_section sec); [|left; reflexivity].
  right. destruct t as [|v t]; [right; auto | left; eauto].
Qed.

Lemma read_line_next (line sec sec' : string) (st st' : ClassState) :
  read_line line sec st = (Return sec', st') -> sec' = next_section sec line.
Proof.
  destruct (read_line_cases line sec st)
    as [E|[(k & v & _ & Hn & E)|(_ & _ & _ & E)]];
    rewrite E; intros [= <- _]; auto.
Qed.

Lemma read_lines_app (l1 l2 : list string) (sec : string)
      (st st1 : ClassState) :
  read_lines l1 sec st = (Return tt, st1) ->
  read_lines (l1 ++ l2) sec st
  = read_lines l2 (fold_left next_section l1 sec) st1.
Proof.
  revert sec st. induction l1 as [|line l1 IH]; intros sec st.
  - now intros [= <-].
  - cbn [read_lines app fold_left]. intros H.
    apply bind_inv in H as (sec' & s & Hline & H).
    rewrite (bind_return _ _ _ _ _ Hline).
    rewrite <- (read_line_next _ _ _ _ _ Hline). now apply IH.
Qed.

Lemma read_line_entry (sec : string) (kv : string * string) (st : ClassState) :
  is_section sec = true ->
  plain_key (fst kv) = true -> plain (snd kv) = true ->
  read_line (entry_text kv ++ newline) sec st
  = (Return sec, setitem_section sec (upper (fst kv)) (snd kv) st).
Proof.
  intros Hsec Hk Hv. unfold plain_key, is_header in Hk.
  apply andb_true_iff in Hk as [Hk Hh]. apply andb_true_iff in Hk as [Hk He].
  apply negb_true_iff in Hh, He.
  apply orb_false_iff in Hh as [Hh H3]. apply orb_false_iff in Hh as [H1 H2].
  unfold read_line. rewrite (fields_of_entry kv Hk Hv).
  cbn [getitem_list nth_error]. unfold bind at 1. rewrite lift_run.
  rewrite H1, H2, H3, He. cbn [negb].
  unfold setitem_section.
  destruct (is_section_cases sec Hsec) as [-> | [-> | ->]]; reflexivity.
Qed.

Lemma read_line_header (hdr sec sec0 : string) (st : ClassState) :
  plain hdr = true -> is_section sec = true -> upper hdr = sec ++ ":" ->
  read_line (hdr ++ newline) sec0 st = (Return sec, st).
Proof.
  intros Hh Hsec Hu. unfold read_line. rewrite (fields_of_header hdr Hh).
  cbn [getitem_list nth_error]. unfold bind at 1. rewrite lift_run.
  rewrite Hu. destruct (is_section_cases sec Hsec) as [-> | [-> | ->]]; reflexivity.
Qed.

Lemma read_lines_entries (sec : string) (entries : list (string * string)) :
  is_section sec = true ->
  Forall (fun kv => plain_key (fst kv) = true /\ plain (snd kv) = true)
         entries ->
  forall st,
    read_lines (as_lines (map entry_text entries)) sec st
    = (Return tt,
       fold_left (fun st kv => setitem_section sec (upper (fst kv)) (snd kv) st)
                 entries st).
Proof.
  intros Hsec Hall. induction Hall as [|kv entries [Hk Hv] _ IH]; intros st.
  - reflexivity.
  - cbn [map as_lines read_lines fold_left].
    rewrite (bind_return _ _ _ _ _ (read_line_entry sec kv st Hsec Hk Hv)).
    apply IH.
Qed.

Lemma section_dict_fold (sec : string) (entries : list (string * string))
      (st : ClassState) :
  is_section sec = true ->
  section_dict sec
    (fold_left (fun st kv => setitem_section sec (upper (fst kv)) (snd kv) st)
               entries st)
  = store_entries entries (section_dict sec st).
Proof.
  intros Hsec. revert st. induction entries as [|kv entries IH]; intros st.
  - reflexivity.
  - cbn [fold_left store_entries]. rewrite IH.
    now rewrite section_dict_setitem.
Qed.

Lemma section_dict_fold_other (sec sec' : string)
      (entries : list (string * string)) (st : ClassState) :
  is_section sec = true -> is_section sec' = true -> sec' <> sec ->
  section_dict sec'
    (fold_left (fun st kv => setitem_section sec (upper (fst kv)) (snd kv) st)
               entries st)
  = section_dict sec' st.
Proof.
  intros Hsec Hsec' Hne. revert st.
  induction entries as [|kv entries IH]; intros st; [reflexivity|].
  cbn [fold_left]. rewrite IH. now apply section_dict_setitem_other.
Qed.

Lemma store_entries_last (pre post : list (string * string)) (k v : string)
      (d : gmap string string) :
  Forall (fun kv => upper (fst kv) <> upper k) post ->
  store_entries (pre ++ (k, v) :: post) d !! upper k = Some v.
Proof.
  intros Hpost. unfold store_entries. rewrite fold_left_app.
  cbn [fold_left fst snd].
  generalize (fold_left (fun d kv => <[upper (fst kv) := snd kv]> d) pre d).
  intros d0.
  assert (H0 : <[upper k := v]> d0 !! upper k = Some v)
    by apply lookup_insert_eq.
  revert H0. generalize (<[upper k := v]> d0).
  induction Hpost as [|kv post Hkv _ IH]; intros d1 H1; [exact H1|].
  cbn [fold_left]. apply IH. now rewrite lookup_insert_ne.
Qed.

(** X1. Round trip of a calibration section. Take a file that consists
    of one section header (any ASCII spelling whose upper case is [BALL:],
    [GOALTARGET:] or [VISIONTAPE:]) followed by [KEY,VALUE] lines whose
    keys and values are ASCII words without whitespace or comma, the keys
    being non-empty and not section keywords themselves. Then
    [read_vision_file] returns [True]; the dictionary of that section is
    the previous one with each value stored under the upper-cased key, in
    the order of the file; the two other dictionaries are as before; and
    when a key occurs on several lines, up to case, a lookup gives the
    value of the last of them. *)
Theorem section_round_trip (fs : FileSystem) (file hdr sec : string)
        (entries : list (string * string)) (st : ClassState) :
  fs file = Return (section_file hdr entries) ->
  plain hdr = true -> is_section sec = true -> upper hdr = sec ++ ":" ->
  Forall (fun kv => plain_key (fst kv) = true /\ plain (snd kv) = true)
         entries ->
  exists st',
    read_vision_file fs file st = (Return true, st')
    /\ section_dict sec st' = store_entries entries (section_dict sec st)
    /\ (forall sec', is_section sec' = true -> sec' <> sec ->
                     section_dict sec' st' = section_dict sec' st)
    /\ (forall pre k v post,
           entries = (pre ++ (k, v) :: post)%list ->
           Forall (fun kv => upper (fst kv) <> upper k) post ->
           section_dict sec st' !! upper k = Some v).
Proof.
  intros Hf Hh Hsec Hu Hall.
  eexists. split; [|split; [|split]].
  - rewrite (read_vision_file_of_lines fs file _ st Hf).
    unfold section_file. cbn [as_lines map read_lines].
    rewrite (bind_return _ _ _ _ _ (read_line_header hdr sec "" st Hh Hsec Hu)).
    fold (as_lines (map entry_text entries)).
    rewrite (read_lines_entries sec entries Hsec Hall st). reflexivity.
  - now apply section_dict_fold.
  - intros sec' Hsec' Hne. now apply section_dict_fold_other.
  - intros pre k v post -> Hpost. rewrite section_dict_fold by exact Hsec.
    now apply store_entries_last.
Qed.

Lemma section_round_trip_witness :
  exists st',
    read_vision_file
      (fun _ => Return (section_file "Ball:" [("hmin", "10"); ("HMin", "20");
                                               ("radius", "3.5")]))
      "any.txt" fresh_class
    = (Return true, st')
    /\ ball_values st' !! "HMIN" = Some "20"
    /\ ball_values st' !! "RADIUS" = Some "3.5".
Proof.
  pose (entries := [("hmin", "10"); ("HMin", "20"); ("radius", "3.5")]).
  destruct (section_round_trip
              (fun _ => Return (section_file "Ball:" entries))
              "any.txt" "Ball:" "BALL" entries fresh_class)
    as (st' & Hload & _ & _ & Hlast); try reflexivity.
  - repeat constructor.
  - exists st'. split; [exact Hload|]. split.
    + apply (Hlast [("hmin", "10")] "HMin" "20" [("radius", "3.5")]);
        [reflexivity|].
      repeat constructor. discriminate.
    + apply (Hlast [("hmin", "10"); ("HMin", "20")] "radius" "3.5" []);
        [reflexivity | constructor].
Defined.

Lemma read_lines_run (lines : list string) (sec : string) (st : ClassState) :
  exists st',
    stores_kept st st'
    /\ (read_lines lines sec st = (Return tt, st')
        \/ read_lines lines sec st = (Raise IndexError, st')).
Proof.
  revert sec st. induction lines as [|line lines IH]; intros sec st.
  - exists st. split; [|left; reflexivity]. repeat split; intros k H; exact H.
  - cbn [read_lines].
    destruct (read_line_cases line sec st)
      as [E|[(k & v & Hsec & _ & E)|(_ & _ & _ & E)]].
    + rewrite (bind_return _ _ _ _ _ E). apply IH.
    + rewrite (bind_return _ _ _ _ _ E).
      destruct (IH sec (setitem_section sec k v st)) as (st' & Hk & Hr).
      exists st'. split; [|exact Hr].
      destruct Hk as (Hb & Hg & Ht). unfold setitem_section in *.
      destruct (String.eqb sec "BALL");
        [|destruct (String.eqb sec "GOALTARGET")];
        cbn in Hb, Hg, Ht; repeat split; intros k' Hk'; auto;
        [apply Hb | apply Hg | apply Ht];
        (destruct (decide (k = k')) as [->|Hne];
         [rewrite lookup_insert_eq; eauto | now rewrite lookup_insert_ne]).
    + rewrite (bind_raise _ _ _ _ _ E). exists st.
      split; [|right; reflexivity]. repeat split; intros k H; exact H.
Qed.

Lemma read_lines_visionFile (lines : list string) (sec : string)
      (st : ClassState) :
  visionFile (state_of (read_lines lines sec st)) = visionFile st.
Proof.
  revert sec st. induction lines as [|line lines IH]; intros sec st;
    [reflexivity|].
  cbn [read_lines].
  destruct (read_line_cases line sec st)
    as [E|[(k & v & _ & _ & E)|(_ & _ & _ & E)]].
  - rewrite (bind_return _ _ _ _ _ E). apply IH.
  - rewrite (bind_return _ _ _ _ _ E), IH. unfold setitem_section.
    destruct (String.eqb sec "BALL");
      [|destruct (String.eqb sec "GOALTARGET")]; reflexivity.
  - rewrite (bind_raise _ _ _ _ _ E). reflexivity.
Qed.

Lemma stores_kept_refl (st : ClassState) : stores_kept st st.
Proof. repeat split; intros k H; exact H. Qed.

(** The three ways a load can go: no such file, a path that cannot be
    read, or a file that is read line by line. *)
Lemma read_vision_file_cases (fs : FileSystem) (file : string)
      (st : ClassState) :
  (fs file = Raise FileNotFoundError
   /\ read_vision_file fs file st = (Return false, st))
  \/ (exists e, fs file = Raise e /\ e <> FileNotFoundError
                /\ read_vision_file fs file st = (Raise e, st))
  \/ (exists lines st',
         fs file = Return lines
         /\ visionFile st' = visionFile st /\ stores_kept st st'
         /\ (read_vision_file fs file st = (Return true, st')
             \/ read_vision_file fs file st = (Raise IndexError, st'))).
Proof.
  destruct (fs file) as [lines|e] eqn:Hf.
  - right. right. exists lines.
    rewrite (read_vision_file_of_lines fs file lines st Hf).
    pose proof (read_lines_visionFile lines "" st) as Hv.
    destruct (read_lines_run lines "" st) as (st' & Hk & [E|E]);
      rewrite E in Hv |- *; exists st'; auto.
  - assert (He : e = FileNotFoundError \/ e <> FileNotFoundError)
      by (destruct e; auto; right; discriminate).
    destruct He as [-> | He].
    + left. split; [reflexivity|]. now apply read_vision_file_missing.
    + right. left. exists e. split; [reflexivity|]. split; [exact He|].
      now apply read_vision_file_unreadable.
Qed.

(** X2. How a load can end. [read_vision_file] returns [False] exactly
    when opening the file raises [FileNotFoundError]. Any other exception
    of [open] or [readlines] ([IsADirectoryError], [PermissionError],
    [UnicodeDecodeError], ...) is not caught: the call raises it, and so
    does the constructor, with no key stored. When the file can be read,
    the call returns [True] or raises [IndexError]. The constructor
    returns, or raises [IndexError], or raises what [open] or [readlines]
    raised, and in each case it has recorded the file name in
    [visionFile]. *)
Theorem load_outcomes (fs : FileSystem) (file : string) (st : ClassState) :
  (fs file = Raise FileNotFoundError <->
   value_of (read_vision_file fs file st) = Return false)
  /\ (forall e, fs file = Raise e -> e <> FileNotFoundError ->
                read_vision_file fs file st = (Raise e, st)
                /\ init fs file st = (Raise e, set_visionFile file st))
  /\ (forall lines, fs file = Return lines ->
                    value_of (read_vision_file fs file st) = Return true
                    \/ value_of (read_vision_file fs file st)
                       = Raise IndexError)
  /\ (value_of (init fs file st) = Return tt
      \/ value_of (init fs file st) = Raise IndexError
      \/ exists e, fs file = Raise e /\ e <> FileNotFoundError
                   /\ value_of (init fs file st) = Raise e)
  /\ visionFile (state_of (init fs file st)) = file.
Proof.
  split; [|split; [|split; [|split]]].
  - destruct (read_vision_file_cases fs file st)
      as [[Hf E]|[(e & Hf & He & E)|(lines & s' & Hf & _ & _ & [E|E])]];
      rewrite E, Hf; cbn; split; congruence.
  - intros e Hf He. split; [now apply read_vision_file_unreadable|].
    unfold init, bind, modify, gets. cbn [visionFile set_visionFile].
    now rewrite (read_vision_file_unreadable fs file e _ Hf He).
  - intros lines Hf.
    destruct (read_vision_file_cases fs file st)
      as [[Hf' E]|[(e & Hf' & He & E)|(lines' & s' & Hf' & _ & _ & [E|E])]];
      rewrite E; cbn; auto; congruence.
  - unfold init, bind, modify, gets. cbn [visionFile set_visionFile].
    destruct (read_vision_file_cases fs file (set_visionFile file st))
      as [[Hf E]|[(e & Hf & He & E)|(lines & s' & Hf & _ & _ & [E|E])]];
      rewrite E; cbn; eauto 6.
  - unfold init, bind, modify, gets. cbn [visionFile set_visionFile].
    destruct (read_vision_file_cases fs file (set_visionFile file st))
      as [[Hf E]|[(e & Hf & He & E)|(lines & s' & Hf & Hv & _ & [E|E])]];
      rewrite E; cbn; auto.
Qed.

Lemma load_outcomes_witness :
  example_fs "/data" = Raise IsADirectoryError
  /\ IsADirectoryError <> FileNotFoundError
  /\ read_vision_file example_fs "/data" (loaded "vision.txt")
     = (Raise IsADirectoryError, loaded "vision.txt")
  /\ init example_fs "/data" (loaded "vision.txt")
     = (Raise IsADirectoryError, set_visionFile "/data" (loaded "vision.txt")).
Proof.
  assert (H1 : example_fs "/data" = Raise IsADirectoryError) by reflexivity.
  assert (H2 : IsADirectoryError <> FileNotFoundError) by discriminate.
  destruct (load_outcomes example_fs "/data" (loaded "vision.txt"))
    as (_ & Hraise & _).
  split; [exact H1|]. split; [exact H2|].
  exact (Hraise IsADirectoryError H1 H2).
Defined.

(** X3. A load never removes a key: every key that one of the three
    dictionaries holds before [read_vision_file], or before the
    constructor, is still in that dictionary afterwards, however the call
    ends. *)
Theorem load_keeps_keys (fs : FileSystem) (file : string) (st : ClassState) :
  stores_kept st (state_of (read_vision_file fs file st))
  /\ stores_kept st (state_of (init fs file st)).
Proof.
  assert (H : forall s, stores_kept s (state_of (read_vision_file fs file s))).
  { intros s.
    destruct (read_vision_file_cases fs file s)
      as [[Hf E]|[(e & Hf & He & E)|(lines & s' & Hf & _ & Hk & [E|E])]];
      rewrite E; first [exact Hk | apply stores_kept_refl]. }
  split; [apply H|].
  specialize (H (set_visionFile file st)).
  unfold init, bind, modify, gets. cbn [visionFile set_visionFile].
  destruct (read_vision_file fs file (set_visionFile file st)) as [[b|e] s'];
    exact H.
Qed.

Lemma read_line_outside (line : string) (st : ClassState) :
  opens_section line = false -> read_line line "" st = (Return "", st).
Proof.
  unfold opens_section, is_header.
  destruct (split_cons "," (strip line)) as (h & t & E).
  rewrite (read_line_fields line "" st h t E), E. intros H.
  apply orb_false_iff in H as [H H3]. apply orb_false_iff in H as [H1 H2].
  rewrite H1, H2, H3. now destruct (String.eqb h "").
Qed.

(** X4. An ASCII file in which no line is a section header stores
    nothing: [read_vision_file] returns [True] and leaves the class state
    as it was. Lines that come before any header are skipped, also those
    without a comma, which raise nothing there. *)
Theorem file_without_header_stores_nothing (fs : FileSystem) (file : string)
        (lines : list string) (st : ClassState) :
  fs file = Return lines ->
  ascii_text lines = true ->
  forallb (fun line => negb (opens_section line)) lines = true ->
  read_vision_file fs file st = (Return true, st).
Proof.
  intros Hf _ Hl. rewrite (read_vision_file_of_lines fs file lines st Hf).
  assert (E : read_lines lines "" st = (Return tt, st)).
  { clear Hf. induction lines as [|line lines IH]; [reflexivity|].
    cbn [forallb] in Hl. apply andb_true_iff in Hl as [H1 H2].
    apply negb_true_iff in H1. cbn [read_lines].
    rewrite (bind_return _ _ _ _ _ (read_line_outside line st H1)).
    now apply IH. }
  now rewrite E.
Qed.

Lemma file_without_header_stores_nothing_witness :
  read_vision_file
    (fun _ => Return (as_lines ["HMIN,20"; "no comma here"; ""; "RADIUS,3.5"]))
    "any.txt" (loaded "vision.txt")
  = (Return true, loaded "vision.txt").
Proof.
  apply (file_without_header_stores_nothing
           _ _ (as_lines ["HMIN,20"; "no comma here"; ""; "RADIUS,3.5"]));
    reflexivity.
Defined.

Lemma read_line_no_value (line sec : string) (st : ClassState) :
  is_section sec = true -> section_line line = false ->
  has_value line = false ->
  read_line line sec st = (Raise IndexError, st).
Proof.
  unfold section_line, has_value.
  destruct (split_cons "," (strip line)) as (h & t & E).
  rewrite (read_line_fields line sec st h t E), E. intros Hsec Hs Hv.
  apply orb_false_iff in Hs as [Hs H4]. apply orb_false_iff in Hs as [Hs H3].
  apply orb_false_iff in Hs as [H1 H2].
  rewrite H1, H2, H3, H4, Hsec. destruct t; [reflexivity|discriminate].
Qed.

(** X5. A line with a key and no value inside an open section of an
    ASCII file. Let the lines before it each be a section line or carry a
    value, and let them leave one of the three sections open. Then [read_vision_file] raises
    [IndexError] at the line without a value, and the class state keeps
    all that the earlier lines stored: the partial load is not undone, and
    the lines after the bad one are not read. *)
Theorem index_error_keeps_earlier_lines (fs : FileSystem) (file : string)
        (good : list string) (bad : string) (rest : list string)
        (st : ClassState) :
  fs file = Return (good ++ bad :: rest)%list ->
  ascii_text (good ++ [bad]) = true ->
  forallb (fun line => section_line line || has_value line) good = true ->
  is_section (open_section_after good) = true ->
  section_line bad = false -> has_value bad = false ->
  exists st1,
    read_lines good "" st = (Return tt, st1)
    /\ read_vision_file fs file st = (Raise IndexError, st1).
Proof.
  intros Hf _ Hgood Hsec Hs Hv.
  destruct (read_lines_returns good Hgood "" st) as (st1 & E).
  exists st1. split; [exact E|].
  rewrite (read_vision_file_of_lines fs file _ st Hf).
  rewrite (read_lines_app good (bad :: rest) "" st st1 E). cbn [read_lines].
  fold (open_section_after good).
  rewrite (bind_raise _ _ _ _ _
             (read_line_no_value bad _ st1 Hsec Hs Hv)).
  reflexivity.
Qed.

Lemma index_error_keeps_earlier_lines_witness :
  exists st1,
    read_vision_file (fun _ => Return calibration_cut_short) "any.txt" fresh_class
    = (Raise IndexError, st1)
    /\ tape_values st1 !! "HMAX" = Some "90".
Proof.
  destruct (index_error_keeps_earlier_lines
              (fun _ => Return calibration_cut_short) "any.txt"
              (as_lines ["VISIONTAPE:"; "HMIN,50"; "HMAX,90"])
              ("SMIN" ++ newline) (as_lines ["SMAX,255"]) fresh_class)
    as (st1 & Hgood & Hload); try reflexivity.
  exists st1. split; [exact Hload|].
  assert (E : read_lines (as_lines ["VISIONTAPE:"; "HMIN,50"; "HMAX,90"])
                         "" fresh_class
              = (Return tt,
                 setitem_tape_values "HMAX" "90"
                   (setitem_tape_values "HMIN" "50" fresh_class)))
    by reflexivity.
  rewrite E in Hgood. injection Hgood as <-. reflexivity.
Defined.

(** ** Further properties of [detect_game_balls] *)

Section BallFurther.
Context {rt : Runtime}.
Variables cameraWidth cameraHeight cameraFOV : float.

(** X6. No contour, no ball. When the six HSV bounds of the ball section
    can be read and segmentation finds no contour, [detect_game_balls]
    returns the count 0 and the empty list, and reads no other key: neither
    [MINRADIUS] nor [RADIUS] has to be in the dictionary. *)
Theorem no_contours_no_balls (img : Frame) (st : ClassState)
        (ballHSVMin ballHSVMax : HSV) :
  read_hsv ball_values st = (Return (ballHSVMin, ballHSVMax), st) ->
  process_image_contours img ballHSVMin ballHSVMax = [] ->
  detect_game_balls img cameraWidth cameraHeight cameraFOV st
  = (Return (0, []), st).
Proof.
  intros Hhsv Hnone. unfold detect_game_balls.
  rewrite (bind_return _ _ _ _ _ Hhsv). cbv beta iota zeta.
  now rewrite Hnone.
Qed.

Lemma sorted_reverse_nonempty {A} (key : A -> float) (l : list A) :
  l <> [] -> exists c rest, sorted_reverse key l = c :: rest.
Proof.
  intros Hl. destruct (sorted_reverse key l) as [|c rest] eqn:E; [|eauto].
  pose proof (sorted_reverse_perm key l) as Hp. rewrite E in Hp.
  apply Permutation_nil in Hp. contradiction.
Qed.

(** X7. [MINRADIUS] is needed as soon as there is a contour. When the HSV
    bounds can be read, segmentation finds at least one contour and the
    ball dictionary has no [MINRADIUS], [detect_game_balls] raises
    [KeyError] for that key, whatever the contours are. *)
Theorem contours_need_minradius (img : Frame) (st : ClassState)
        (ballHSVMin ballHSVMax : HSV) :
  read_hsv ball_values st = (Return (ballHSVMin, ballHSVMax), st) ->
  process_image_contours img ballHSVMin ballHSVMax <> [] ->
  ball_values st !! "MINRADIUS" = None ->
  detect_game_balls img cameraWidth cameraHeight cameraFOV st
  = (Raise (KeyError "MINRADIUS"), st).
Proof.
  intros Hhsv Hsome Hkey. unfold detect_game_balls.
  rewrite (bind_return _ _ _ _ _ Hhsv). cbv beta iota zeta.
  destruct (sorted_reverse_nonempty cv_contourArea _ Hsome) as (c & rest & E).
  rewrite E.
  destruct (process_image_contours img ballHSVMin ballHSVMax);
    [contradiction|].
  cbn [length Nat.ltb Nat.leb ball_loop].
  destruct (cv_minEnclosingCircle c) as [[x y] r].
  assert (Hm : int_value ball_values "MINRADIUS" st
               = (Raise (KeyError "MINRADIUS"), st))
    by (rewrite int_value_run, Hkey; reflexivity).
  now rewrite (bind_raise _ _ _ _ _ Hm).
Qed.

Lemma ball_metrics_circle (x y radius : float) (st st' : ClassState)
      (d : BallData) :
  ball_metrics cameraWidth cameraHeight cameraFOV x y radius st
  = (Return d, st') ->
  ball_circle d = ((x, y), radius) /\ PrimFloat.eqb radius 0 = false.
Proof.
  unfold ball_metrics. intros H.
  apply bind_inv in H as (kr & s1 & _ & H).
  apply bind_inv in H as (ipp & s2 & Hipp & H).
  apply lift_inv in Hipp as [Hipp _]. apply py_div_inv in Hipp as [Hr _].
  apply bind_inv in H as (t & s3 & _ & H).
  apply bind_inv in H as (q & s4 & _ & H).
  apply bind_inv in H as (a & s5 & _ & H).
  apply bind_inv in H as (sp & s6 & _ & H).
  apply ret_inv in H as [-> _]. auto.
Qed.

Lemma ball_loop_inv (cs : list Contour) :
  forall n ds st n' ds' st',
    ball_loop cameraWidth cameraHeight cameraFOV cs n ds st
    = (Return (n', ds'), st') ->
    exists accepted rest new,
      cs = (accepted ++ rest)%list
      /\ ds' = (ds ++ new)%list
      /\ n' = n + Z.of_nat (length new)
      /\ map cv_minEnclosingCircle accepted = map ball_circle new
      /\ Forall (fun c =>
                   exists m,
                     int_value ball_values "MINRADIUS" st = (Return m, st)
                     /\ float_gt_int (circle_radius c) m = true
                     /\ PrimFloat.eqb (circle_radius c) 0 = false)
                accepted.
Proof.
  induction cs as [|c cs IH]; intros n ds st n' ds' st' H.
  - apply ret_inv in H as [[= -> ->] _].
    exists [], [], []. cbn. rewrite app_nil_r, Z.add_0_r.
    repeat split; auto.
  - cbn [ball_loop] in H.
    destruct (cv_minEnclosingCircle c) as [[x y] r] eqn:Ec.
    apply bind_inv in H as (m & s & Hm & H).
    apply (read_only_inv _ _ _ _ (read_only_int_value _ _)) in Hm as [-> Hm].
    destruct (float_gt_int r m) eqn:Hgt.
    + apply bind_inv in H as (d & s & Hd & H).
      pose proof (read_only_inv _ _ _ _
                    (read_only_ball_metrics _ _ _ _ _ _) Hd) as [-> _].
      apply ball_metrics_circle in Hd as [Hc Hr0].
      apply IH in H as (acc & rest & new & -> & -> & -> & Hmap & Hall).
      exists (c :: acc), rest, (d :: new).
      rewrite <- app_assoc. cbn [app length map].
      repeat split; auto.
      * lia.
      * now rewrite Ec, Hc, Hmap.
      * constructor; [|exact Hall]. exists m. unfold circle_radius.
        rewrite Ec. auto.
    + apply ret_inv in H as [[= -> ->] _].
      exists [], (c :: cs), []. cbn. rewrite app_nil_r, Z.add_0_r.
      repeat split; auto.
Qed.

(** X8. Where the detections come from. Whenever [detect_game_balls]
    returns, the count it returns is the length of the list it returns,
    the list is no longer than the list of contours, and the detections
    are, in order, the enclosing circles of an initial part of the
    contours sorted by descending area; each of those circles has a radius
    above [MINRADIUS] and different from zero. *)
Theorem detections_come_from_contours (img : Frame) (st : ClassState)
        (ballHSVMin ballHSVMax : HSV) (ballsFound : Z)
        (ballData : list BallData) :
  read_hsv ball_values st = (Return (ballHSVMin, ballHSVMax), st) ->
  value_of (detect_game_balls img cameraWidth cameraHeight cameraFOV st)
  = Return (ballsFound, ballData) ->
  let contours := process_image_contours img ballHSVMin ballHSVMax in
  ballsFound = Z.of_nat (length ballData)
  /\ (length ballData <= length contours)%nat
  /\ exists accepted rest,
       sorted_reverse cv_contourArea contours = (accepted ++ rest)%list
       /\ map cv_minEnclosingCircle accepted = map ball_circle ballData
       /\ Forall (fun c =>
                    exists m,
                      int_value ball_values "MINRADIUS" st = (Return m, st)
                      /\ float_gt_int (circle_radius c) m = true
                      /\ PrimFloat.eqb (circle_radius c) 0 = false)
                 accepted.
Proof.
  intros Hhsv Hr contours.
  pose proof (read_only_run _ st
                (read_only_detect_game_balls img cameraWidth cameraHeight
                                             cameraFOV)) as E.
  rewrite Hr in E. unfold detect_game_balls in E.
  rewrite (bind_return _ _ _ _ _ Hhsv) in E. cbv beta iota zeta in E.
  fold contours in E.
  assert (E' : ball_loop cameraWidth cameraHeight cameraFOV
                         (sorted_reverse cv_contourArea contours) 0 [] st
               = (Return (ballsFound, ballData), st)).
  { destruct contours; [exact E|exact E]. }
  apply ball_loop_inv in E'
    as (acc & rest & new & Hs & Hds & Hn & Hmap & Hall).
  cbn [app] in Hds. subst new. rewrite Z.add_0_l in Hn.
  split; [exact Hn|]. split; [|eauto].
  rewrite <- (Permutation_length (sorted_reverse_perm cv_contourArea contours)).
  rewrite Hs, length_app.
  rewrite <- (length_map ball_circle ballData), <- Hmap, length_map. lia.
Qed.

(** X9. The divisions of [detect_game_balls] are not guarded. Let the
    largest contour pass the radius test (which a negative [MINRADIUS]
    allows for a radius of zero), with [RADIUS] readable. If its radius is
    zero the call raises [ZeroDivisionError]; if the radius is not zero but
    twice the tangent of the field of view is zero (as for a field of view
    of 0), the call raises [ZeroDivisionError] as well. The class state is
    unchanged. *)
Theorem degenerate_ball_inputs_raise (img : Frame) (st : ClassState)
        (ballHSVMin ballHSVMax : HSV) (c : Contour) (rest : list Contour)
        (m : Z) (known_radius : float) :
  read_hsv ball_values st = (Return (ballHSVMin, ballHSVMax), st) ->
  sorted_reverse cv_contourArea
                 (process_image_contours img ballHSVMin ballHSVMax)
  = c :: rest ->
  int_value ball_values "MINRADIUS" st = (Return m, st) ->
  float_gt_int (circle_radius c) m = true ->
  float_value ball_values "RADIUS" st = (Return known_radius, st) ->
  (PrimFloat.eqb (circle_radius c) 0 = true ->
   detect_game_balls img cameraWidth cameraHeight cameraFOV st
   = (Raise ZeroDivisionError, st))
  /\ (forall t,
         PrimFloat.eqb (circle_radius c) 0 = false ->
         math_tan (math_radians cameraFOV) = Return t ->
         PrimFloat.eqb (2 * t) 0 = true ->
         detect_game_balls img cameraWidth cameraHeight cameraFOV st
         = (Raise ZeroDivisionError, st)).
Proof.
  intros Hhsv Hsort Hm Hgt Hkr.
  assert (Hd : detect_game_balls img cameraWidth cameraHeight cameraFOV st
               = (do d <- ball_metrics cameraWidth cameraHeight cameraFOV
                                       (fst (fst (cv_minEnclosingCircle c)))
                                       (snd (fst (cv_minEnclosingCircle c)))
                                       (circle_radius c);
                  ball_loop cameraWidth cameraHeight cameraFOV rest
                            (0 + 1) ([] ++ [d])) st).
  { unfold detect_game_balls. rewrite (bind_return _ _ _ _ _ Hhsv).
    cbv beta iota zeta. rewrite Hsort.
    destruct (process_image_contours img ballHSVMin ballHSVMax) as [|c0 l];
      [discriminate|].
    cbn [length Nat.ltb Nat.leb ball_loop]. unfold circle_radius in *.
    destruct (cv_minEnclosingCircle c) as [[x y] r]. cbn [fst snd] in *.
    now rewrite (bind_return _ _ _ _ _ Hm), Hgt. }
  rewrite Hd. split.
  - intros Hz. apply bind_raise. unfold ball_metrics.
    rewrite (bind_return _ _ _ _ _ Hkr).
    unfold py_div at 1. rewrite Hz. reflexivity.
  - intros t Hnz Htan Hz. apply bind_raise. unfold ball_metrics.
    rewrite (bind_return _ _ _ _ _ Hkr).
    rewrite (py_div_return _ _ Hnz). unfold bind at 1. rewrite lift_run.
    rewrite Htan. unfold bind at 1. rewrite lift_run.
    unfold py_div at 1. rewrite Hz. reflexivity.
Qed.
End BallFurther.

Lemma no_contours_no_balls_witness :
  ball_values (state_of (read_vision_file (fun _ => Return hsv_only) "any.txt"
                                          fresh_class))
  !! "MINRADIUS" = None
  /\ detect_game_balls (frame_of []) 640 480 30
       (state_of (read_vision_file (fun _ => Return hsv_only) "any.txt"
                                   fresh_class))
     = (Return (0, []),
        state_of (read_vision_file (fun _ => Return hsv_only) "any.txt"
                                   fresh_class)).
Proof.
  split; [vm_compute; reflexivity|].
  apply (no_contours_no_balls 640 480 30 (frame_of []) _
                              (20, 100, 100) (40, 255, 255));
    vm_compute; reflexivity.
Defined.

Lemma contours_need_minradius_witness :
  detect_game_balls (frame_of [blob 100 10 5]) 640 480 30
    (state_of (read_vision_file (fun _ => Return hsv_only) "any.txt"
                                fresh_class))
  = (Raise (KeyError "MINRADIUS"),
     state_of (read_vision_file (fun _ => Return hsv_only) "any.txt"
                                fresh_class)).
Proof.
  apply (contours_need_minradius 640 480 30 (frame_of [blob 100 10 5]) _
                                 (20, 100, 100) (40, 255, 255));
    try (vm_compute; reflexivity); try discriminate.
Defined.

Lemma detections_come_from_contours_witness :
  exists ballsFound ballData,
    value_of (detect_game_balls
                (frame_of [blob 60 10 9; blob 100 10 5; blob 80 10 4])
                640 480 30 (loaded "vision.txt"))
    = Return (ballsFound, ballData)
    /\ ballsFound = Z.of_nat (length ballData)
    /\ (length ballData <= 3)%nat.
Proof.
  assert (H : exists ballsFound ballData,
             value_of (detect_game_balls
                         (frame_of [blob 60 10 9; blob 100 10 5; blob 80 10 4])
                         640 480 30 (loaded "vision.txt"))
             = Return (ballsFound, ballData)).
  { vm_compute. eexists. eexists. reflexivity. }
  destruct H as (ballsFound & ballData & Hr).
  assert (Hhsv : read_hsv ball_values (loaded "vision.txt")
                 = (Return ((20, 100, 100), (40, 255, 255)),
                    loaded "vision.txt"))
    by (vm_compute; reflexivity).
  destruct (detections_come_from_contours
              640 480 30 (frame_of [blob 60 10 9; blob 100 10 5; blob 80 10 4])
              (loaded "vision.txt") (20, 100, 100) (40, 255, 255)
              ballsFound ballData Hhsv Hr)
    as (Hn & Hlen & _).
  exists ballsFound, ballData. split; [exact Hr|]. split; [exact Hn|exact Hlen].
Defined.

Lemma degenerate_ball_inputs_raise_witness :
  detect_game_balls (frame_of [blob 100 10 0]) 640 480 30
    (state_of (read_vision_file
                 (fun _ => Return calibration_negative_minradius) "any.txt"
                 fresh_class))
  = (Raise ZeroDivisionError,
     state_of (read_vision_file
                 (fun _ => Return calibration_negative_minradius) "any.txt"
                 fresh_class)).
Proof.
  pose (st := state_of (read_vision_file
                          (fun _ => Return calibration_negative_minradius)
                          "any.txt" fresh_class)).
  assert (H1 : read_hsv ball_values st
               = (Return ((20, 100, 100), (40, 255, 255)), st))
    by (vm_compute; reflexivity).
  assert (H2 : sorted_reverse cv_contourArea
                 (process_image_contours (frame_of [blob 100 10 0])
                                         (20, 100, 100) (40, 255, 255))
               = [blob 100 10 0]) by (vm_compute; reflexivity).
  assert (H3 : int_value ball_values "MINRADIUS" st = (Return (-1), st))
    by (vm_compute; reflexivity).
  assert (H4 : float_gt_int (circle_radius (blob 100 10 0)) (-1) = true)
    by (vm_compute; reflexivity).
  assert (H5 : float_value ball_values "RADIUS" st = (Return 3.5%float, st))
    by (vm_compute; reflexivity).
  destruct (degenerate_ball_inputs_raise
              640 480 30 (frame_of [blob 100 10 0]) st
              (20, 100, 100) (40, 255, 255) (blob 100 10 0) [] (-1) 3.5
              H1 H2 H3 H4 H5) as [Hzero _].
  apply Hzero. vm_compute. reflexivity.
Defined.

(** ** Each estimator reads its own section only *)

Lemma bind_run_read_only {A B} (m : M A) (k : A -> M B) (st : ClassState) :
  read_only m ->
  bind m k st
  = match value_of (m st) with
    | Return a => k a st
    | Raise e => (Raise e, st)
    end.
Proof.
  intros Hm. unfold bind. rewrite (read_only_run m st Hm).
  cbn [value_of fst]. destruct (value_of (m st)); reflexivity.
Qed.

Lemma reads_only_ret dict {A} (a : A) : reads_only dict (ret a).
Proof. split; [apply read_only_ret | reflexivity]. Qed.

Lemma reads_only_lift dict {A} (o : outcome A) : reads_only dict (lift o).
Proof. split; [apply read_only_lift | reflexivity]. Qed.

Lemma reads_only_getitem dict key : reads_only dict (getitem dict key).
Proof.
  split; [apply read_only_getitem|].
  intros st1 st2 H. unfold getitem, value_of. cbn [fst]. now rewrite H.
Qed.

Lemma reads_only_bind dict {A B} (m : M A) (k : A -> M B) :
  reads_only dict m -> (forall a, reads_only dict (k a)) ->
  reads_only dict (bind m k).
Proof.
  intros [Hro Hm] Hk. split.
  - apply read_only_bind; [exact Hro|]. intros a. apply Hk.
  - intros st1 st2 H. rewrite !bind_run_read_only by exact Hro.
    rewrite (Hm st1 st2 H). destruct (value_of (m st2)) as [a|e].
    + now apply Hk.
    + reflexivity.
Qed.

Lemma reads_only_if dict {A} (b : bool) (m1 m2 : M A) :
  reads_only dict m1 -> reads_only dict m2 ->
  reads_only dict (if b then m1 else m2).
Proof. destruct b; auto. Qed.

Section OwnSection.
Context {rt : Runtime}.

Lemma reads_only_int_value dict key : reads_only dict (int_value dict key).
Proof.
  unfold int_value. apply reads_only_bind; [apply reads_only_getitem|].
  intros s. apply reads_only_lift.
Qed.

Lemma reads_only_float_value dict key : reads_only dict (float_value dict key).
Proof.
  unfold float_value. apply reads_only_bind; [apply reads_only_getitem|].
  intros s. apply reads_only_lift.
Qed.

Ltac reads_only_tac :=
  repeat first
    [ apply reads_only_int_value
    | apply reads_only_float_value
    | apply reads_only_getitem
    | apply reads_only_bind; [| intros ? ]
    | apply reads_only_lift
    | apply reads_only_ret
    | apply reads_only_if ].

Lemma reads_only_read_hsv dict : reads_only dict (read_hsv dict).
Proof. unfold read_hsv. reads_only_tac. Qed.

Lemma reads_only_ball_metrics w h fov x y r :
  reads_only ball_values (ball_metrics w h fov x y r).
Proof. unfold ball_metrics. reads_only_tac. Qed.

Lemma reads_only_ball_loop w h fov cs :
  forall n ds, reads_only ball_values (ball_loop w h fov cs n ds).
Proof.
  induction cs as [|c cs IH]; intros n ds; simpl.
  - apply reads_only_ret.
  - destruct (cv_minEnclosingCircle c) as [[x y] r].
    apply reads_only_bind; [apply reads_only_int_value|]. intros m.
    apply reads_only_if; [|apply reads_only_ret].
    apply reads_only_bind; [apply reads_only_ball_metrics|]. intros d.
    apply IH.
Qed.

Lemma reads_only_detect_game_balls img w h fov :
  reads_only ball_values (detect_game_balls img w h fov).
Proof.
  unfold detect_game_balls.
  apply reads_only_bind; [apply reads_only_read_hsv|]. intros [lo hi].
  apply reads_only_if; [apply reads_only_ball_loop | apply reads_only_ret].
Qed.

Lemma reads_only_camera_pass cs : reads_only tape_values (camera_pass cs).
Proof.
  unfold camera_pass. destruct (py_max cv_contourArea cs) as [c|];
    [|apply reads_only_ret].
  apply reads_only_bind; [apply reads_only_int_value|]. intros m.
  apply reads_only_if; [|apply reads_only_ret].
  destruct (cv_boundingRect c) as [[[tX tY] tW] tH]. reads_only_tac.
Qed.

Lemma reads_only_real_world_pass c w h fl mh :
  reads_only tape_values (real_world_pass c w h fl mh).
Proof. unfold real_world_pass. reads_only_tac. Qed.

Lemma reads_only_detect_tape_rectangle img w h fov fl ma mh :
  reads_only tape_values (detect_tape_rectangle img w h fov fl ma mh).
Proof.
  unfold detect_tape_rectangle.
  apply reads_only_bind; [apply reads_only_read_hsv|]. intros [lo hi].
  apply reads_only_bind; [apply reads_only_camera_pass|]. intros c.
  apply reads_only_bind; [|intros w0; apply reads_only_ret].
  apply reads_only_if;
    [apply reads_only_real_world_pass | apply reads_only_ret].
Qed.
End OwnSection.

(** X10. The outcome of [detect_game_balls] depends on the class state
    only through [ball_values], and the outcome of
    [detect_tape_rectangle] only through [tape_values]: two class states
    with the same ball dictionary give the same ball detections (or the
    same exception), whatever their goal and tape dictionaries and file
    name, and likewise for the tape. No estimator reads [goal_values]. *)
Theorem estimators_read_their_own_section `{rt : Runtime}
        (img : Frame) (w h fov fl ma mh : float) (st1 st2 : ClassState) :
  (ball_values st1 = ball_values st2 ->
   value_of (detect_game_balls img w h fov st1)
   = value_of (detect_game_balls img w h fov st2))
  /\ (tape_values st1 = tape_values st2 ->
      value_of (detect_tape_rectangle img w h fov fl ma mh st1)
      = value_of (detect_tape_rectangle img w h fov fl ma mh st2)).
Proof.
  split; intros H.
  - now apply reads_only_detect_game_balls.
  - now apply reads_only_detect_tape_rectangle.
Qed.

Lemma estimators_read_their_own_section_witness :
  value_of (detect_game_balls (frame_of [blob 100 10 5]) 640 480 30
                              (loaded "no_tolerance.txt"))
  = value_of (detect_game_balls (frame_of [blob 100 10 5]) 640 480 30
                                (loaded "vision.txt")).
Proof.
  destruct (estimators_read_their_own_section
              (frame_of [blob 100 10 5]) 640 480 30 700 0 20
              (loaded "no_tolerance.txt") (loaded "vision.txt")) as [Hball _].
  apply Hball. vm_compute. reflexivity.
Defined.

(** ** Further properties of [detect_tape_rectangle] *)

Section Binary64Further.
Local Open Scope float_scope.

Lemma mul_one (y : float) : y * 1 = y.
Proof.
  rewrite <- (one_mul y) at 2. apply Prim2SF_inj. rewrite !mul_spec.
  change (Prim2SF 1) with (S754_finite false 4503599627370496 (-52)).
  destruct (Prim2SF y) as [s|s| |s m e]; try reflexivity;
    try (destruct s; reflexivity).
  unfold SF64mul, SFmul.
  now rewrite Pos.mul_comm, Z.add_comm, xorb_comm.
Qed.

Lemma abs_of_zero (a : float) : (a =? 0) = true -> abs a = 0.
Proof.
  intros H. apply eqb_zero_iff in H as [s H].
  apply Prim2SF_inj. rewrite abs_spec, H. reflexivity.
Qed.

Lemma camera_angle_of_zero (a : float) :
  (a =? 0) = true -> camera_angle_of a = 0 /\ 2 * camera_angle_of a = 0.
Proof.
  intros H. unfold camera_angle_of. rewrite (abs_of_zero a H).
  split; reflexivity.
Qed.
End Binary64Further.

Section TapeFurther.
Context {rt : Runtime}.
Local Open Scope float_scope.

Ltac inv_step H a E :=
  let s := fresh "s" in
  apply bind_inv in H as (a & s & E & H);
  first [ apply lift_inv in E as [E ->]
        | apply (read_only_inv _ _ _ _ (read_only_float_value _ _)) in E
            as [-> E]
        | apply (read_only_inv _ _ _ _ (read_only_int_value _ _)) in E
            as [-> E] ].

(** What a returning camera pass that found a target has set. *)
Lemma camera_pass_found (cs : list Contour) (st st' : ClassState)
      (cp : CameraPass) :
  camera_pass cs st = (Return cp, st') -> cp_foundTape cp = true ->
  exists largest,
    py_max cv_contourArea cs = Some largest
    /\ (targetX cp, targetY cp, targetW cp, targetH cp)
       = cv_boundingRect largest
    /\ cp_rect cp = Some (cv_minAreaRect largest)
    /\ cp_box cp = Some (cv_boxPoints_int0 largest)
    /\ cameraAngle cp = camera_angle_of (snd (cv_minAreaRect largest))
    /\ botAngle cp = 2 * cameraAngle cp
    /\ (py_float_of_int (targetH cp) =? 0) = false
    /\ aspectRatio cp
       = py_float_of_int (targetW cp) / py_float_of_int (targetH cp).
Proof.
  unfold camera_pass. destruct (py_max cv_contourArea cs) as [c|].
  - intros H. inv_step H m Hm.
    destruct (float_gt_int (cv_contourArea c) m).
    + destruct (cv_boundingRect c) as [[[tX tY] tW] tH] eqn:Eb.
      inv_step H ratio Hratio. apply ret_inv in H as [-> ->].
      apply py_div_inv in Hratio as [Hh ->]. intros _.
      exists c. cbn. repeat split; auto.
    + apply ret_inv in H as [-> ->]. discriminate.
  - intros H. apply ret_inv in H as [-> ->]. discriminate.
Qed.

(** What a returning real-world pass has computed from the tape width. *)
Lemma real_world_pass_width (c : CameraPass)
      (imageWidth imageHeight fl mh : float) (st st' : ClassState)
      (w : RealWorldPass) :
  real_world_pass c imageWidth imageHeight fl mh st = (Return w, st') ->
  exists tw cb,
    float_value tape_values "TAPEWIDTH" st = (Return tw, st)
    /\ math_cos (math_radians (botAngle c)) = Return cb
    /\ (cb =? 0) = false
    /\ (py_float_of_int (targetW c) =? 0) = false
    /\ (distanceToTape w =? 0) = false
    /\ apparentTapeWidth w = tw * cb
    /\ inchesPerPixel w = tw * cb / py_float_of_int (targetW c)
    /\ distanceToWall w = distanceToTape w / cb.
Proof.
  unfold real_world_pass. cbv zeta. intros H.
  inv_step H tw Htw. inv_step H cb Hcb. inv_step H ipp Hipp.
  inv_step H sld Hsld. inv_step H sq_line Hline. inv_step H gh Hgh.
  inv_step H sq_rise Hrise.
  apply bind_inv in H as (dtt & s & Hdtt & H).
  assert (s = st) as ->.
  { destruct (0 <? sq_line - sq_rise).
    - now apply lift_inv in Hdtt as [_ ->].
    - now apply ret_inv in Hdtt as [_ ->]. }
  inv_step H cb' Hcb'. inv_step H dtw Hdtw. inv_step H ha Hha.
  inv_step H va Hva. inv_step H tol Htol.
  apply ret_inv in H as [-> ->].
  apply py_div_inv in Hipp as [Hw ->].
  rewrite Hcb in Hcb'. injection Hcb' as <-.
  apply py_div_inv in Hdtw as [Hcb0 ->].
  apply py_div_inv in Hha as [Hd0 _].
  exists tw, cb. cbn. repeat split; auto.
Qed.

(** X11. What a call of [detect_tape_rectangle] that finds no target
    returns. Whenever the call returns with [foundTape] false, the whole
    result is the fixed not-found result: every field of both dictionaries
    has its initial value, there is no lock, no rectangle and no box. In
    every returned result a lock implies that the tape was found, and the
    rectangle and the box are [None] exactly when the tape was not
    found. *)
Theorem tape_not_found_is_all_defaults (img : Frame)
        (w h fov fl ma mh : float) (st : ClassState) (r : TapeResult) :
  value_of (detect_tape_rectangle img w h fov fl ma mh st) = Return r ->
  (foundTape r = false -> r = tape_not_found)
  /\ (targetLock r = true -> foundTape r = true)
  /\ (rect r = None <-> foundTape r = false)
  /\ (box r = None <-> foundTape r = false).
Proof.
  intros Hr.
  pose proof (read_only_run _ st
                (read_only_detect_tape_rectangle img w h fov fl ma mh)) as E.
  rewrite Hr in E.
  apply detect_tape_rectangle_inv in E
    as (lo & hi & cp & rw & _ & Hcp & Hrw & ->).
  apply camera_pass_inv in Hcp as [_ Hcp]. cbn [foundTape targetLock rect box
                                                 fill_return].
  destruct Hcp as [(Hf & -> & _)|(Hf & _ & rr & bb & Hrect & Hbox)].
  - cbn [cp_foundTape camera_defaults] in Hrw. subst rw. cbn.
    repeat split; auto; discriminate.
  - rewrite Hf, Hrect, Hbox. repeat split; auto; discriminate.
Qed.

(** X12. A found target is the largest contour. Whenever
    [detect_tape_rectangle] returns with [foundTape] true, there is a
    contour of largest area, and the result is built from it: [TargetX],
    [TargetY], [TargetW] and [TargetH] are its bounding rectangle, [rect]
    and [box] are its rotated rectangle and the corners of it,
    [TargetRotation] is the angle of the rotated rectangle folded into the
    range up to 45 degrees, [BotAngle] is twice [TargetRotation], and
    [AspectRatio] is [TargetW / TargetH]. *)
Theorem found_tape_is_largest_contour (img : Frame)
        (w h fov fl ma mh : float) (st : ClassState)
        (tapeHSVMin tapeHSVMax : HSV) (r : TapeResult) :
  read_hsv tape_values st = (Return (tapeHSVMin, tapeHSVMax), st) ->
  value_of (detect_tape_rectangle img w h fov fl ma mh st) = Return r ->
  foundTape r = true ->
  exists largest,
    py_max cv_contourArea (process_image_contours img tapeHSVMin tapeHSVMax)
    = Some largest
    /\ (TargetX (tapeCameraValues r), TargetY (tapeCameraValues r),
        TargetW (tapeCameraValues r), TargetH (tapeCameraValues r))
       = cv_boundingRect largest
    /\ rect r = Some (cv_minAreaRect largest)
    /\ box r = Some (cv_boxPoints_int0 largest)
    /\ TargetRotation (tapeRealWorldValues r)
       = camera_angle_of (snd (cv_minAreaRect largest))
    /\ BotAngle (tapeRealWorldValues r)
       = 2 * TargetRotation (tapeRealWorldValues r)
    /\ AspectRatio (tapeRealWorldValues r)
       = py_float_of_int (TargetW (tapeCameraValues r))
         / py_float_of_int (TargetH (tapeCameraValues r)).
Proof.
  intros Hhsv Hr Hfound.
  pose proof (read_only_run _ st
                (read_only_detect_tape_rectangle img w h fov fl ma mh)) as E.
  rewrite Hr in E.
  apply detect_tape_rectangle_inv in E
    as (lo & hi & cp & rw & Hhsv' & Hcp & _ & ->).
  rewrite Hhsv in Hhsv'. injection Hhsv' as <- <-.
  cbn [foundTape fill_return] in Hfound.
  destruct (camera_pass_found _ _ _ _ Hcp Hfound)
    as (largest & Hmax & Hbr & Hrect & Hbox & Hang & Hbot & _ & Hratio).
  exists largest. cbn. repeat split; auto.
Qed.

(** X13. A target seen square on. Whenever [detect_tape_rectangle]
    returns a rotated rectangle whose angle is zero, and the cosine of 0
    is 1 on the platform, [TargetRotation] and [BotAngle] are zero and
    [ApparentWidth] is the calibrated [TAPEWIDTH] itself. *)
Theorem square_on_target (img : Frame)
        (w h fov fl ma mh : float) (st : ClassState) (r : TapeResult)
        (rotated : RotatedRect) :
  value_of (detect_tape_rectangle img w h fov fl ma mh st) = Return r ->
  rect r = Some rotated ->
  (snd rotated =? 0) = true ->
  math_cos (math_radians 0) = Return 1 ->
  exists tapewidth,
    float_value tape_values "TAPEWIDTH" st = (Return tapewidth, st)
    /\ TargetRotation (tapeRealWorldValues r) = 0
    /\ BotAngle (tapeRealWorldValues r) = 0
    /\ ApparentWidth (tapeRealWorldValues r) = tapewidth.
Proof.
  intros Hr Hrect Hzero Hcos.
  pose proof (read_only_run _ st
                (read_only_detect_tape_rectangle img w h fov fl ma mh)) as E.
  rewrite Hr in E.
  apply detect_tape_rectangle_inv in E
    as (lo & hi & cp & rw & _ & Hcp & Hrw & ->).
  cbn [rect fill_return] in Hrect.
  destruct (cp_foundTape cp) eqn:Hfound.
  - destruct (camera_pass_found _ _ _ _ Hcp Hfound)
      as (largest & _ & _ & Hrect' & _ & Hang & Hbot & _).
    rewrite Hrect in Hrect'. injection Hrect' as ->.
    destruct (camera_angle_of_zero _ Hzero) as [Ha Hb].
    rewrite Ha in Hang. rewrite Hang in Hbot.
    change (2 * 0) with 0 in Hbot.
    destruct (real_world_pass_width _ _ _ _ _ _ _ _ Hrw)
      as (tw & cb & Htw & Hcb & _ & _ & _ & Hwidth & _).
    rewrite Hbot, Hcos in Hcb. injection Hcb as <-.
    exists tw. cbn. rewrite Hang, Hbot, Hwidth, mul_one. auto.
  - apply camera_pass_inv in Hcp as [_ [(_ & -> & _)|(Hf & _)]];
      [discriminate | congruence].
Qed.

(** X14. The divisions by the size of the bounding box are not guarded.
    Let the largest contour pass the area test. If its bounding rectangle
    has height zero, [detect_tape_rectangle] raises [ZeroDivisionError] at
    the aspect ratio; if the height is not zero but the width is, and
    [TAPEWIDTH] and the cosine of the bot angle can be computed, it raises
    [ZeroDivisionError] at the inches-per-pixel factor. The class state is
    unchanged. *)
Theorem empty_bounding_box_raises (img : Frame)
        (w h fov fl ma mh : float) (st : ClassState)
        (tapeHSVMin tapeHSVMax : HSV) (largest : Contour) (minarea : Z)
        (tX tY tW tH : Z) :
  read_hsv tape_values st = (Return (tapeHSVMin, tapeHSVMax), st) ->
  py_max cv_contourArea (process_image_contours img tapeHSVMin tapeHSVMax)
  = Some largest ->
  int_value tape_values "MINAREA" st = (Return minarea, st) ->
  float_gt_int (cv_contourArea largest) minarea = true ->
  cv_boundingRect largest = (tX, tY, tW, tH) ->
  (tH = 0%Z ->
   detect_tape_rectangle img w h fov fl ma mh st
   = (Raise ZeroDivisionError, st))
  /\ (forall tapewidth cos_bot,
         tW = 0%Z -> (py_float_of_int tH =? 0) = false ->
         float_value tape_values "TAPEWIDTH" st = (Return tapewidth, st) ->
         math_cos (math_radians
                     (2 * camera_angle_of (snd (cv_minAreaRect largest))))
         = Return cos_bot ->
         detect_tape_rectangle img w h fov fl ma mh st
         = (Raise ZeroDivisionError, st)).
Proof.
  intros Hhsv Hmax Hm Hgt Hbr. split.
  - intros ->. unfold detect_tape_rectangle.
    rewrite (bind_return _ _ _ _ _ Hhsv). cbv beta iota zeta.
    apply bind_raise. unfold camera_pass. rewrite Hmax.
    rewrite (bind_return _ _ _ _ _ Hm), Hgt, Hbr. reflexivity.
  - intros tw cb -> Hh Htw Hcb. unfold detect_tape_rectangle.
    rewrite (bind_return _ _ _ _ _ Hhsv). cbv beta iota zeta.
    assert (Hcp : camera_pass
                    (process_image_contours img tapeHSVMin tapeHSVMax) st
                  = (Return
                       (mkCameraPass tX tY 0 tH
                          (py_float_of_int 0 / py_float_of_int tH)
                          (camera_angle_of (snd (cv_minAreaRect largest)))
                          (2 * camera_angle_of (snd (cv_minAreaRect largest)))
                          (Some (cv_minAreaRect largest))
                          (Some (cv_boxPoints_int0 largest)) true), st)).
    { unfold camera_pass. rewrite Hmax.
      rewrite (bind_return _ _ _ _ _ Hm), Hgt, Hbr.
      rewrite (py_div_return _ _ Hh). reflexivity. }
    rewrite (bind_return _ _ _ _ _ Hcp). cbn [cp_foundTape].
    apply bind_raise. unfold real_world_pass.
    cbn [targetX targetY targetW targetH botAngle]. cbv zeta.
    rewrite (bind_return _ _ _ _ _ Htw). cbv beta.
    rewrite Hcb. unfold bind at 1. rewrite lift_run. reflexivity.
Qed.

(** X15. Which keys of the tape section a call needs, beyond the six HSV
    bounds. With no contour the call returns the not-found result and
    reads no other key. With a contour it needs [MINAREA], and raises
    [KeyError] for it when it is absent. When the largest contour does not
    pass the area test, the call returns the not-found result without
    reading [TAPEWIDTH]; when it passes (and the bounding rectangle has a
    height other than zero), a dictionary without [TAPEWIDTH] makes the
    call raise [KeyError] for that key. *)
Theorem tape_keys_needed (img : Frame)
        (w h fov fl ma mh : float) (st : ClassState)
        (tapeHSVMin tapeHSVMax : HSV) :
  read_hsv tape_values st = (Return (tapeHSVMin, tapeHSVMax), st) ->
  let tapeContours := process_image_contours img tapeHSVMin tapeHSVMax in
  (tapeContours = [] ->
   detect_tape_rectangle img w h fov fl ma mh st = (Return tape_not_found, st))
  /\ (tapeContours <> [] -> tape_values st !! "MINAREA" = None ->
      detect_tape_rectangle img w h fov fl ma mh st
      = (Raise (KeyError "MINAREA"), st))
  /\ (forall largest minarea,
         py_max cv_contourArea tapeContours = Some largest ->
         int_value tape_values "MINAREA" st = (Return minarea, st) ->
         (float_gt_int (cv_contourArea largest) minarea = false ->
          detect_tape_rectangle img w h fov fl ma mh st
          = (Return tape_not_found, st))
         /\ (float_gt_int (cv_contourArea largest) minarea = true ->
             (py_float_of_int (snd (cv_boundingRect largest)) =? 0) = false ->
             tape_values st !! "TAPEWIDTH" = None ->
             detect_tape_rectangle img w h fov fl ma mh st
             = (Raise (KeyError "TAPEWIDTH"), st))).
Proof.
  intros Hhsv tapeContours. split; [|split].
  - intros Hnil. apply (detect_tape_rectangle_not_found _ _ _ _ _ _ _ _ _ _ Hhsv).
    unfold no_qualifying_contour. fold tapeContours. now rewrite Hnil.
  - intros Hsome Hkey. unfold detect_tape_rectangle.
    rewrite (bind_return _ _ _ _ _ Hhsv). cbv beta iota zeta.
    apply bind_raise. fold tapeContours. unfold camera_pass.
    destruct tapeContours as [|c cs]; [contradiction|]. cbn [py_max].
    apply bind_raise. rewrite int_value_run, Hkey. reflexivity.
  - intros largest m Hmax Hm. split.
    + intros Hgt.
      apply (detect_tape_rectangle_not_found _ _ _ _ _ _ _ _ _ _ Hhsv).
      unfold no_qualifying_contour. fold tapeContours. rewrite Hmax. eauto.
    + intros Hgt Hh Hkey. unfold detect_tape_rectangle.
      rewrite (bind_return _ _ _ _ _ Hhsv). cbv beta iota zeta.
      fold tapeContours.
      destruct (cv_boundingRect largest) as [[[tX tY] tW] tH] eqn:Hbr.
      cbn [snd] in Hh.
      assert (Hcp : exists cp, camera_pass tapeContours st = (Return cp, st)
                               /\ cp_foundTape cp = true).
      { unfold camera_pass. rewrite Hmax.
        rewrite (bind_return _ _ _ _ _ Hm), Hgt, Hbr.
        rewrite (py_div_return _ _ Hh). eexists. split; reflexivity. }
      destruct Hcp as (cp & Hcp & Hf).
      rewrite (bind_return _ _ _ _ _ Hcp), Hf.
      apply bind_raise. unfold real_world_pass. cbv zeta.
      apply bind_raise. rewrite float_value_run, Hkey. reflexivity.
Qed.
End TapeFurther.

Lemma tape_not_found_is_all_defaults_witness :
  exists r,
    value_of (detect_tape_rectangle
                (frame_of [strip_of_tape 50 (300, 200, 40, 20) 0])
                640 480 30 700 0 20 (loaded "vision.txt")) = Return r
    /\ r = tape_not_found.
Proof.
  assert (H : exists r,
             value_of (detect_tape_rectangle
                         (frame_of [strip_of_tape 50 (300, 200, 40, 20) 0])
                         640 480 30 700 0 20 (loaded "vision.txt")) = Return r
             /\ foundTape r = false).
  { vm_compute. eexists. split; reflexivity. }
  destruct H as (r & Hr & Hf). exists r. split; [exact Hr|].
  destruct (tape_not_found_is_all_defaults _ _ _ _ _ _ _ _ r Hr)
    as (Hdefault & _).
  exact (Hdefault Hf).
Defined.

Lemma found_tape_is_largest_contour_witness :
  let small := strip_of_tape 55 (300, 200, 40, 20) 30 in
  let large := strip_of_tape 60 (310, 210, 40, 20) 0 in
  exists r,
    value_of (detect_tape_rectangle (frame_of [small; large; small])
                640 480 30 700 0 20 (loaded "vision.txt")) = Return r
    /\ rect r = Some (cv_minAreaRect large)
    /\ TargetX (tapeCameraValues r) = 310.
Proof.
  intros small large.
  assert (H : exists r,
             value_of (detect_tape_rectangle (frame_of [small; large; small])
                         640 480 30 700 0 20 (loaded "vision.txt")) = Return r
             /\ foundTape r = true).
  { vm_compute. eexists. split; reflexivity. }
  destruct H as (r & Hr & Hf). exists r. split; [exact Hr|].
  assert (Hhsv : read_hsv tape_values (loaded "vision.txt")
                 = (Return ((50, 100, 100), (90, 255, 255)),
                    loaded "vision.txt"))
    by (vm_compute; reflexivity).
  destruct (found_tape_is_largest_contour
              (frame_of [small; large; small]) 640 480 30 700 0 20
              (loaded "vision.txt") (50, 100, 100) (90, 255, 255) r
              Hhsv Hr Hf)
    as (largest & Hmax & Hbr & Hrect & _).
  assert (Hl : py_max cv_contourArea
                 (process_image_contours (frame_of [small; large; small])
                                         (50, 100, 100) (90, 255, 255))
               = Some large) by (vm_compute; reflexivity).
  rewrite Hl in Hmax. injection Hmax as <-.
  split; [exact Hrect|]. now injection Hbr.
Defined.

Lemma square_on_target_witness :
  exists r,
    value_of (detect_tape_rectangle
                (frame_of [strip_of_tape 60 (300, 200, 40, 20) 0])
                640 480 30 700 0 20 (loaded "vision.txt")) = Return r
    /\ BotAngle (tapeRealWorldValues r) = 0%float
    /\ ApparentWidth (tapeRealWorldValues r) = 2%float.
Proof.
  pose (tape := strip_of_tape 60 (300, 200, 40, 20) 0).
  assert (H : exists r,
             value_of (detect_tape_rectangle (frame_of [tape])
                         640 480 30 700 0 20 (loaded "vision.txt")) = Return r
             /\ rect r = Some (cv_minAreaRect tape)).
  { vm_compute. eexists. split; reflexivity. }
  destruct H as (r & Hr & Hrect). exists r. split; [exact Hr|].
  assert (Hz : PrimFloat.eqb (snd (cv_minAreaRect tape)) 0 = true)
    by (vm_compute; reflexivity).
  assert (Hc : math_cos (math_radians 0) = Return 1%float)
    by (vm_compute; reflexivity).
  destruct (square_on_target (frame_of [tape]) 640 480 30 700 0 20
                             (loaded "vision.txt") r (cv_minAreaRect tape)
                             Hr Hrect Hz Hc)
    as (tw & Htw & _ & Hbot & Hwidth).
  split; [exact Hbot|]. rewrite Hwidth.
  assert (Htw' : float_value tape_values "TAPEWIDTH" (loaded "vision.txt")
                 = (Return 2%float, loaded "vision.txt"))
    by (vm_compute; reflexivity).
  rewrite Htw' in Htw. now injection Htw.
Defined.

Lemma empty_bounding_box_raises_witness :
  detect_tape_rectangle (frame_of [strip_of_tape 60 (300, 200, 40, 0) 0])
                        640 480 30 700 0 20 (loaded "vision.txt")
  = (Raise ZeroDivisionError, loaded "vision.txt").
Proof.
  pose (tape := strip_of_tape 60 (300, 200, 40, 0) 0).
  assert (H1 : read_hsv tape_values (loaded "vision.txt")
               = (Return ((50, 100, 100), (90, 255, 255)),
                  loaded "vision.txt"))
    by (vm_compute; reflexivity).
  assert (H2 : py_max cv_contourArea
                 (process_image_contours (frame_of [tape])
                                         (50, 100, 100) (90, 255, 255))
               = Some tape) by reflexivity.
  assert (H3 : int_value tape_values "MINAREA" (loaded "vision.txt")
               = (Return 50, loaded "vision.txt"))
    by (vm_compute; reflexivity).
  assert (H4 : float_gt_int (cv_contourArea tape) 50 = true)
    by (vm_compute; reflexivity).
  assert (H5 : cv_boundingRect tape = (300, 200, 40, 0)) by reflexivity.
  destruct (empty_bounding_box_raises
              (frame_of [tape]) 640 480 30 700 0 20 (loaded "vision.txt")
              (50, 100, 100) (90, 255, 255) tape 50 300 200 40 0
              H1 H2 H3 H4 H5) as [Hheight _].
  exact (Hheight eq_refl).
Defined.

Lemma tape_keys_needed_witness :
  let st := state_of (read_vision_file
                        (fun _ => Return calibration_without_tapewidth)
                        "any.txt" fresh_class) in
  detect_tape_rectangle (frame_of []) 640 480 30 700 0 20 st
  = (Return tape_not_found, st)
  /\ detect_tape_rectangle (frame_of [strip_of_tape 60 (300, 200, 40, 20) 0])
                           640 480 30 700 0 20 st
     = (Raise (KeyError "TAPEWIDTH"), st).
Proof.
  intros st.
  assert (H1 : read_hsv tape_values st
               = (Return ((50, 100, 100), (90, 255, 255)), st))
    by (vm_compute; reflexivity).
  split.
  - destruct (tape_keys_needed (frame_of []) 640 480 30 700 0 20 st
                               (50, 100, 100) (90, 255, 255) H1)
      as (Hnone & _).
    exact (Hnone eq_refl).
  - pose (tape := strip_of_tape 60 (300, 200, 40, 20) 0).
    destruct (tape_keys_needed (frame_of [tape]) 640 480 30 700 0 20 st
                               (50, 100, 100) (90, 255, 255) H1)
      as (_ & _ & Hlargest).
    assert (H3 : int_value tape_values "MINAREA" st = (Return 50, st))
      by (vm_compute; reflexivity).
    destruct (Hlargest tape 50 eq_refl H3) as [_ Hfound].
    apply Hfound; vm_compute; reflexivity.
Defined.

(** ** Further properties of [FRCNavx] *)

Section NavxFurther.
Context {rtc_time rtc_date : Type}.
Variable round2 : float -> float.

Lemma run_cons (ev : event) (evs : list event)
      (c : pc * @FRCNavx rtc_time rtc_date) :
  run round2 (ev :: evs) c = run round2 evs (step round2 c ev).
Proof. reflexivity. Qed.

Lemma step_yaw_pitch (c : pc * @FRCNavx rtc_time rtc_date) (ev : event) :
  yaw (snd (step round2 c ev)) = yaw (snd c)
  /\ pitch (snd (step round2 c ev)) = pitch (snd c).
Proof.
  destruct c as [p o], ev as [b|]; [|auto].
  destruct p; cbn; auto. destruct (stopped o); auto.
Qed.

(** X16. The board that did not open. When the VMX client fails to open,
    the constructor leaves the stop flag set. A polling thread started on
    such an object never reads the board: under every interleaving of its
    statements with calls of [stop_navx], [read_angle], [read_time] and
    [read_date] keep giving [0.0] and the two empty values, and the thread
    has returned as soon as it has executed one statement. *)
Theorem closed_board_never_polls (b : @Board rtc_time rtc_date)
        (evs : list event) :
  let o := navx_init false b in
  stopped o = true
  /\ readings (snd (run round2 evs (at_check, o))) = (0%float, None, None)
  /\ ((1 <= polls evs)%nat -> fst (run round2 evs (at_check, o)) = returned).
Proof.
  intros o. split; [reflexivity|].
  assert (H : forall evs (c : pc * @FRCNavx rtc_time rtc_date),
             stopped (snd c) = true ->
             fst c = at_check \/ fst c = returned ->
             readings (snd (run round2 evs c)) = readings (snd c)).
  { clear. induction evs as [|ev evs IH]; intros c Hs Hp; [reflexivity|].
    rewrite run_cons, IH.
    - destruct c as [p o], ev as [b|]; [|reflexivity].
      cbn in Hs, Hp. destruct Hp as [-> | ->]; cbn; [now rewrite Hs|reflexivity].
    - now apply step_keeps_stopped.
    - destruct c as [p o], ev as [b|]; cbn in *; [|exact Hp].
      destruct Hp as [-> | ->]; cbn; [rewrite Hs|]; auto. }
  split.
  - now rewrite H by (cbn; auto).
  - intros Hn. apply statements_left_0.
    rewrite run_stopped_countdown by reflexivity. cbn. lia.
Qed.

(** X17. Only the flag ends the loop. As long as the stop flag is clear
    and [stop_navx] is not called, the polling thread never returns,
    however many statements it executes, and the flag stays clear. *)
Theorem polling_runs_until_stopped (p : pc) (o : @FRCNavx rtc_time rtc_date)
        (evs : list event) :
  stopped o = false -> p <> returned -> never_stopped evs = true ->
  fst (run round2 evs (p, o)) <> returned
  /\ stopped (snd (run round2 evs (p, o))) = false.
Proof.
  revert p o. induction evs as [|ev evs IH]; intros p o Hs Hp Hn.
  - auto.
  - cbn [never_stopped forallb] in Hn. apply andb_true_iff in Hn as [Hev Hn].
    destruct ev as [b|]; [|discriminate].
    rewrite run_cons.
    destruct p; cbn [step update_step]; try rewrite Hs;
      try (apply IH; [first [exact Hs | reflexivity] | discriminate
                     | exact Hn]).
    congruence.
Qed.

(** X18. Yaw and pitch are never refreshed. Whether or not the board
    opened, and under every interleaving of the polling thread with calls
    of [stop_navx], [read_yaw] and [read_pitch] return [0.0]. *)
Theorem yaw_and_pitch_stay_zero (vmxOpen : bool)
        (b : @Board rtc_time rtc_date) (p : pc) (evs : list event) :
  read_yaw (snd (run round2 evs (p, navx_init vmxOpen b))) = 0%float
  /\ read_pitch (snd (run round2 evs (p, navx_init vmxOpen b))) = 0%float.
Proof.
  assert (H : forall evs (c : pc * @FRCNavx rtc_time rtc_date),
             yaw (snd (run round2 evs c)) = yaw (snd c)
             /\ pitch (snd (run round2 evs c)) = pitch (snd c)).
  { clear. induction evs as [|ev evs IH]; intros c; [auto|].
    rewrite run_cons. destruct (IH (step round2 c ev)) as [-> ->].
    apply step_yaw_pitch. }
  unfold read_yaw, read_pitch. destruct (H evs (p, navx_init vmxOpen b))
    as [-> ->].
  destruct vmxOpen; auto.
Qed.

(** X19. Every reading comes from the board. After any execution,
    [read_angle] returns either the angle the execution started with or
    the rounded angle that the board gave at one of the statements the
    polling thread executed; likewise [read_time] and [read_date] return
    the initial value or a value the board gave during the execution. *)
Theorem readings_come_from_board (evs : list event)
        (c : pc * @FRCNavx rtc_time rtc_date) :
  let o' := snd (run round2 evs c) in
  (read_angle o' = read_angle (snd c)
   \/ exists b, In (Poll b) evs /\ read_angle o' = round2 (GetAngle b))
  /\ (read_time o' = read_time (snd c)
      \/ exists b, In (Poll b) evs /\ read_time o' = Some (GetRTCTime b))
  /\ (read_date o' = read_date (snd c)
      \/ exists b, In (Poll b) evs /\ read_date o' = Some (GetRTCDate b)).
Proof.
  revert c. induction evs as [|ev evs IH]; intros c; [cbn; auto|].
  rewrite run_cons. cbn zeta.
  destruct (IH (step round2 c ev)) as (Ha & Ht & Hd).
  assert (Hstep :
            (angle (snd (step round2 c ev)) = angle (snd c)
             \/ exists b, ev = Poll b
                          /\ angle (snd (step round2 c ev))
                             = round2 (GetAngle b))
            /\ (time (snd (step round2 c ev)) = time (snd c)
                \/ exists b, ev = Poll b
                             /\ time (snd (step round2 c ev))
                                = Some (GetRTCTime b))
            /\ (date (snd (step round2 c ev)) = date (snd c)
                \/ exists b, ev = Poll b
                             /\ date (snd (step round2 c ev))
                                = Some (GetRTCDate b))).
  { destruct c as [p o], ev as [b|]; [|cbn; auto].
    destruct p; cbn; try (destruct (stopped o)); cbn; eauto 10. }
  destruct Hstep as (Sa & St & Sd). unfold read_angle, read_time, read_date in *.
  repeat split.
  - destruct Ha as [Ha|(b & Hin & Ha)]; [|right; exists b; cbn; auto].
    rewrite Ha. destruct Sa as [Sa|(b & -> & Sa)]; [auto|].
    right. exists b. cbn. auto.
  - destruct Ht as [Ht|(b & Hin & Ht)]; [|right; exists b; cbn; auto].
    rewrite Ht. destruct St as [St|(b & -> & St)]; [auto|].
    right. exists b. cbn. auto.
  - destruct Hd as [Hd|(b & Hin & Hd)]; [|right; exists b; cbn; auto].
    rewrite Hd. destruct Sd as [Sd|(b & -> & Sd)]; [auto|].
    right. exists b. cbn. auto.
Qed.
End NavxFurther.

Lemma polling_runs_until_stopped_witness :
  let b := mkBoard (rtc_time := unit) (rtc_date := unit) 12.5%float tt tt in
  let evs := [Poll b; Poll b; Poll b; Poll b; Poll b; Poll b; Poll b] in
  stopped (navx_init true b) = false
  /\ at_check <> returned
  /\ never_stopped evs = true
  /\ fst (run (fun x => x) evs (at_check, navx_init true b)) <> returned
  /\ stopped (snd (run (fun x => x) evs (at_check, navx_init true b)))
     = false.
Proof.
  intros b evs.
  assert (H1 : stopped (navx_init true b) = false) by reflexivity.
  assert (H2 : at_check <> returned) by discriminate.
  assert (H3 : never_stopped evs = true) by reflexivity.
  split; [exact H1|]. split; [exact H2|]. split; [exact H3|].
  exact (polling_runs_until_stopped (fun x => x) at_check
           (navx_init true b) evs H1 H2 H3).
Defined.

Lemma closed_board_never_polls_witness :
  let b := mkBoard (rtc_time := unit) (rtc_date := unit) 12.5%float tt tt in
  let evs := [Poll b; Stop; Poll b; Poll b] in
  (1 <= polls evs)%nat
  /\ readings (snd (run (fun x => x) evs (at_check, navx_init false b)))
     = (0%float, None, None)
  /\ fst (run (fun x => x) evs (at_check, navx_init false b)) = returned.
Proof.
  intros b evs.
  assert (H1 : (1 <= polls evs)%nat) by (cbn; lia).
  destruct (closed_board_never_polls (fun x => x) b evs) as (_ & Hr & Hp).
  split; [exact H1|]. split; [exact Hr | exact (Hp H1)].
Defined.

(** ** Loading a file again *)

Lemma load_keeps_visionFile (fs : FileSystem) (file : string)
      (st : ClassState) :
  visionFile (state_of (read_vision_file fs file st)) = visionFile st.
Proof.
  destruct (read_vision_file_cases fs file st)
    as [[Hf E]|[(e & Hf & He & E)|(lines & s' & Hf & Hv & _ & [E|E])]];
    rewrite E; auto.
Qed.

Lemma init_of_load (fs : FileSystem) (file : string) (st : ClassState) :
  init fs file st
  = match read_vision_file fs file (set_visionFile file st) with
    | (Return _, s) => (Return tt, s)
    | (Raise e, s) => (Raise e, s)
    end.
Proof.
  unfold init, bind, modify, gets, ret. cbn.
  destruct (read_vision_file fs file (set_visionFile file st)) as [[|] s];
    reflexivity.
Qed.

(** X20. Loading the same file a second time changes nothing: the
    second call of [read_vision_file] ends as the first did (it returns
    the same flag or raises the same exception) and leaves the three
    dictionaries exactly as the first call left them. The same holds for
    constructing the class a second time from the same file. *)
Theorem reload_changes_nothing (fs : FileSystem) (file : string)
        (st : ClassState) :
  read_vision_file fs file (state_of (read_vision_file fs file st))
  = read_vision_file fs file st
  /\ init fs file (state_of (init fs file st)) = init fs file st.
Proof.
  assert (Hload : forall st,
             read_vision_file fs file (state_of (read_vision_file fs file st))
             = read_vision_file fs file st).
  { clear st. intros st. destruct (fs file) as [lines|e] eqn:Hf.
    - rewrite !(read_vision_file_of_lines fs file lines _ Hf).
      destruct (read_lines_items lines "") as (o & items & H).
      rewrite (H st).
      assert (H2 : read_lines lines ""
                     (state_of
                        (match o with
                         | Return _ => (Return true, store_items items st)
                         | Raise FileNotFoundError =>
                             (Return false, store_items items st)
                         | Raise e => (Raise e, store_items items st)
                         end))
                   = (o, store_items items st)).
      { replace (state_of _) with (store_items items st)
          by (destruct o as [|[]]; reflexivity).
        rewrite H. now rewrite store_items_twice. }
      rewrite H2. reflexivity.
    - unfold read_vision_file, try_except_FileNotFoundError, open_readlines,
        bind, lift.
      rewrite Hf. destruct e; cbn; rewrite ?Hf; reflexivity. }
  split; [apply Hload|].
  rewrite !init_of_load.
  assert (Hset : set_visionFile file
                   (state_of (read_vision_file fs file
                                               (set_visionFile file st)))
                 = state_of (read_vision_file fs file
                                              (set_visionFile file st))).
  { pose proof (load_keeps_visionFile fs file (set_visionFile file st)) as Hv.
    destruct (state_of _) as [f b g t]. cbn in Hv. subst f. reflexivity. }
  replace (state_of
             (match read_vision_file fs file (set_visionFile file st) with
              | (Return _, s) => (Return tt, s)
              | (Raise e, s) => (Raise e, s)
              end))
    with (state_of (read_vision_file fs file (set_visionFile file st)))
    by (destruct (read_vision_file fs file (set_visionFile file st))
          as [[|] s]; reflexivity).
  now rewrite Hset, Hload.
Qed.
